(** * APLICATIVO-MAX: record store, statistics engine and onboarding gate

    A shallow embedding of the client-side logic of the application
    (hooks [useFirebaseDailyRecords], [useFirebaseStats],
    [useMonthlyProgress], [useTutorial], [useFirebaseSettings], the
    [FirebaseRecordsProvider] and [FirebaseSettingsProvider] contexts,
    the [SupabaseService] gateway and the password rules of
    [PasswordRecoveryService]), together with the properties the
    specification states about it and further properties of the code.

    Conventions of the embedding.
    - A JavaScript [Date] is its time value: milliseconds since the epoch
      as a [Z], or [None] for an invalid date (time value NaN).
    - The local time zone is a fixed offset [LocalTZA] (milliseconds east
      of UTC); daylight-saving transitions are not modelled.
    - Integer-valued JavaScript numbers are [Z] or [nat] (exact below
      2^53). The quotient [averageCapsules] is a binary64 number, computed
      with the primitive floats of the kernel; the completion rate, whose
      properties here do not depend on the rounding, is kept as an exact
      rational [Q].
    - Asynchronous functions are programs of a state-and-exception monad
      over the [World]: React state, the backend tables, a fault plan for
      the backend requests, the pending timers and the alerts raised.
      A call runs to completion before anything else happens to the world
      (no interleaving with other calls, timers or snapshots while it
      awaits). [console] output is not part of the model; what the
      evaluation of a logged message can throw is.
    - A backend request reaches the database, is answered with an error,
      or rejects; a request that fails has changed nothing. The case of
      a change that the server applied and whose answer was lost is not
      modelled.
    - The backend enforces the primary keys and the [UNIQUE(user_id, date)]
      constraint of the migration. Foreign keys, row level security and
      the syntax of ids are not modelled: every user id is taken to be
      that of a registered user who may access the rows. *)

From Stdlib Require Import ZArith QArith List String Ascii Lia.
From Stdlib Require OrderedTypeEx Uint63 PrimFloat SpecFloat FloatOps.
From stdpp Require Import base option list gmap strings pretty sorting.

Close Scope Q_scope.
Local Open Scope Z_scope.

(** ** Data model ([src/types/database.ts]) *)

Module UserProfile.
Record t := mk {
  user_id : string;
  name : string;
  date_of_birth : option string;
  gender : option string;
  email : string;
  phone : option string;
  profile_image_url : option string;
  treatment_start_date : option string;
  has_seen_tutorial : option bool;
  created_at : string;
  updated_at : string
}.
End UserProfile.

Module DailyRecord.
Record t := mk {
  id : option string;
  user_id : string;
  date : string;
  capsules : Z;
  time : string;
  notes : option string;
  completed : bool;
  created_at : string;
  updated_at : string
}.
End DailyRecord.

Inductive Theme := light | dark.
Inductive Language := en | pt.

Module UserSettings.
Record t := mk {
  user_id : string;
  notifications : bool;
  reminder_time : string;
  daily_goal : Z;
  weekly_goal : Z;
  theme : Theme;
  language : Language;
  created_at : string;
  updated_at : string
}.
End UserSettings.

(** ** JavaScript dates *)

Module JSDate.

Definition msPerDay : Z := 86400000.

(** A [Date] object: [Some t] for the time value [t], [None] for NaN. *)
Definition t := option Z.

(** The value of [d.toDateString()]. The string names the local
    calendar date (week day, month, day of the month, year); two such
    strings are equal exactly when they name the same day, so the
    string is represented by the number of that day. An invalid date
    prints as ["Invalid Date"]. *)
Inductive DateString :=
| InvalidDate
| CalendarDay (day : Z).

Global Instance DateString_eq_dec : EqDecision DateString.
Proof. solve_decision. Defined.

Definition DateString_eqb (a b : DateString) : bool :=
  match a, b with
  | InvalidDate, InvalidDate => true
  | CalendarDay x, CalendarDay y => x =? y
  | _, _ => false
  end.

Definition Day (tv : Z) : Z := tv / msPerDay.
Definition TimeWithinDay (tv : Z) : Z := tv mod msPerDay.
Definition MakeDate (day time : Z) : Z := day * msPerDay + time.

Section Zone.
Variable LocalTZA : Z.

Definition LocalTime (tv : Z) : Z := tv + LocalTZA.
Definition UTC (tv : Z) : Z := tv - LocalTZA.

Definition toDateString (d : t) : DateString :=
  match d with
  | Some tv => CalendarDay (Day (LocalTime tv))
  | None => InvalidDate
  end.

(** [d.setDate(d.getDate() - k)] on a valid date: the local calendar
    day moves back by [k], the local time of day is kept. *)
Definition setDate_getDate_minus (tv k : Z) : Z :=
  let lt := LocalTime tv in
  UTC (MakeDate (Day lt - k) (TimeWithinDay lt)).
End Zone.

Definition getTime (d : t) : option Z := d.

(** [a - b] on numbers that may be NaN. *)
Definition number_sub (a b : option Z) : option Z :=
  match a, b with
  | Some x, Some y => Some (x - y)
  | _, _ => None
  end.

(** [a >= b] on dates: both are converted to their time values, and a
    comparison with NaN is false. *)
Definition ge (a b : t) : bool :=
  match a, b with
  | Some x, Some y => y <=? x
  | _, _ => false
  end.

(** *** Calendar arithmetic (proleptic Gregorian calendar) *)

Definition isLeapYear (y : Z) : bool :=
  ((y mod 4 =? 0) && negb (y mod 100 =? 0)) || (y mod 400 =? 0).

Definition DaysInMonth (y m : Z) : Z :=
  if m =? 2 then (if isLeapYear y then 29 else 28)
  else if (m =? 4) || (m =? 6) || (m =? 9) || (m =? 11) then 30
  else 31.

(** Day number (days since 1970-01-01) of a calendar date. *)
Definition days_from_civil (y m d : Z) : Z :=
  let y' := if m <=? 2 then y - 1 else y in
  let era := y' / 400 in
  let yoe := y' - era * 400 in
  let mp := if 2 <? m then m - 3 else m + 9 in
  let doy := (153 * mp + 2) / 5 + d - 1 in
  let doe := yoe * 365 + yoe / 4 - yoe / 100 + doy in
  era * 146097 + doe - 719468.

(** Calendar date (year, month, day of the month) of a day number. *)
Definition civil_from_days (z : Z) : Z * Z * Z :=
  let z' := z + 719468 in
  let era := z' / 146097 in
  let doe := z' - era * 146097 in
  let yoe := (doe - doe / 1460 + doe / 36524 - doe / 146096) / 365 in
  let y := yoe + era * 400 in
  let doy := doe - (365 * yoe + yoe / 4 - yoe / 100) in
  let mp := (5 * doy + 2) / 153 in
  let d := doy - (153 * mp + 2) / 5 + 1 in
  let m := if mp <? 10 then mp + 3 else mp - 9 in
  (if m <=? 2 then y + 1 else y, m, d).

(** *** The date-time string format of ECMAScript *)

Definition digit (c : ascii) : option Z :=
  let n := Z.of_nat (nat_of_ascii c) in
  if (48 <=? n) && (n <=? 57) then Some (n - 48) else None.

Fixpoint digits_from (acc : Z) (s : string) : option Z :=
  match s with
  | EmptyString => Some acc
  | String c s' =>
      match digit c with
      | Some v => digits_from (10 * acc + v) s'
      | None => None
      end
  end.

(** The decimal number spelled by exactly [n] digits at position [i]. *)
Definition field (i n : nat) (s : string) : option Z :=
  let f := substring i n s in
  if (String.length f =? n)%nat then digits_from 0 f else None.

Definition char_at (i : nat) (c : ascii) (s : string) : bool :=
  match String.get i s with
  | Some c' => Ascii.eqb c c'
  | None => false
  end.

(** [YYYY-MM-DD] at the start of [s]: the day number it names. *)
Definition parse_date_part (s : string) : option Z :=
  match field 0 4 s, field 5 2 s, field 8 2 s with
  | Some y, Some m, Some d =>
      if char_at 4 "-"%char s && char_at 7 "-"%char s
         && (1 <=? m) && (m <=? 12) && (1 <=? d) && (d <=? DaysInMonth y m)
      then Some (days_from_civil y m d) else None
  | _, _, _ => None
  end.

(** [THH:mm], [THH:mm:ss] or [THH:mm:ss.sss] from position 10 on, with
    an optional final [Z]: the milliseconds within the day and whether
    the time is given in UTC. *)
Definition parse_time_part (s : string) : option (Z * bool) :=
  let len := String.length s in
  let utc := (10 <? len)%nat && char_at (len - 1) "Z"%char s in
  let body := if utc then (len - 1)%nat else len in
  match field 11 2 s, field 14 2 s with
  | Some h, Some mi =>
      if char_at 10 "T"%char s && char_at 13 ":"%char s && (h <=? 23) && (mi <=? 59) then
        if (body =? 16)%nat then Some ((h * 60 + mi) * 60000, utc)
        else
          match field 17 2 s with
          | Some sec =>
              if char_at 16 ":"%char s && (sec <=? 59) then
                if (body =? 19)%nat then Some ((h * 60 + mi) * 60000 + sec * 1000, utc)
                else
                  match field 20 3 s with
                  | Some ms =>
                      if char_at 19 "."%char s && (body =? 23)%nat
                      then Some ((h * 60 + mi) * 60000 + sec * 1000 + ms, utc)
                      else None
                  | None => None
                  end
              else None
          | None => None
          end
      else None
  | _, _ => None
  end.

(** [Date.parse] restricted to the ECMAScript date-time string format:
    a date-only form is UTC midnight of that day; a date-time form
    without [Z] is local time. Any other string is an invalid date here
    (what an engine does with it is implementation-defined). *)
Definition parse_iso (LocalTZA : Z) (s : string) : option Z :=
  match parse_date_part s with
  | Some day =>
      if (String.length s =? 10)%nat then Some (MakeDate day 0)
      else
        match parse_time_part s with
        | Some (ms, true) => Some (MakeDate day ms)
        | Some (ms, false) => Some (UTC LocalTZA (MakeDate day ms))
        | None => None
        end
  | None => None
  end.

(** *** [toISOString] *)

Definition digit_char (n : Z) : ascii := ascii_of_nat (Z.to_nat (48 + n mod 10)).

Fixpoint pad (width : nat) (n : Z) (acc : string) : string :=
  match width with
  | O => acc
  | S w => pad w (n / 10) (String (digit_char n) acc)
  end.

(** For years 0000 to 9999 (the four-digit form). *)
Definition toISOString (tv : Z) : string :=
  let '(y, m, d) := civil_from_days (Day tv) in
  let ms := TimeWithinDay tv in
  pad 4 y "" +:+ "-" +:+ pad 2 m "" +:+ "-" +:+ pad 2 d "" +:+ "T"
  +:+ pad 2 (ms / 3600000) "" +:+ ":" +:+ pad 2 (ms / 60000 mod 60) "" +:+ ":"
  +:+ pad 2 (ms / 1000 mod 60) "" +:+ "." +:+ pad 3 (ms mod 1000) "" +:+ "Z".

End JSDate.

(** ** [Array.prototype] helpers *)

Section ArraySort.
Context {A : Type}.

(** The comparator result as [sort] reads it: NaN counts as [+0]. *)
Definition SortCompare (comparefn : A -> A -> option Z) (x y : A) : Z :=
  default 0 (comparefn x y).

Fixpoint sort_insert (comparefn : A -> A -> option Z) (x : A) (l : list A) : list A :=
  match l with
  | [] => [x]
  | y :: l' =>
      if SortCompare comparefn x y <=? 0 then x :: y :: l'
      else y :: sort_insert comparefn x l'
  end.

(** [arr.sort(comparefn)]: a stable sort (an element stays in front of
    the later elements it compares equal to). With a comparator that is
    not a consistent ordering the order is implementation-defined in
    ECMAScript; this is the order of a stable insertion sort. *)
Fixpoint Array_sort (comparefn : A -> A -> option Z) (l : list A) : list A :=
  match l with
  | [] => []
  | x :: l' => sort_insert comparefn x (Array_sort comparefn l')
  end.

(** The order of a numeric key, largest first. *)
Definition keyDescending (key : A -> Z) (x y : A) : Prop := key y <= key x.

(** [arr.find(p)]: the first element satisfying [p]. *)
Fixpoint Array_find (p : A -> bool) (l : list A) : option A :=
  match l with
  | [] => None
  | x :: l' => if p x then Some x else Array_find p l'
  end.
End ArraySort.

(** ** JavaScript numbers *)

Module JSNumber.

(** A Number is an IEEE 754 binary64 value. *)
Definition t : Set := PrimFloat.float.

(** The Number of an integer (exact below 2^53 in absolute value). *)
Definition of_Z (z : Z) : t :=
  if z <? 0 then PrimFloat.opp (PrimFloat.of_uint63 (Uint63.of_Z (- z)))
  else PrimFloat.of_uint63 (Uint63.of_Z z).

(** [x / y] *)
Definition div (x y : t) : t := PrimFloat.div x y.

(** [x * y] *)
Definition mul (x y : t) : t := PrimFloat.mul x y.

(** The rational that a finite Number is; none for NaN and the
    infinities. *)
Definition value (x : t) : option Q :=
  match FloatOps.Prim2SF x with
  | SpecFloat.S754_zero _ => Some 0%Q
  | SpecFloat.S754_finite s m e =>
      let magnitude :=
        if 0 <=? e then inject_Z (Z.pos m * 2 ^ e)
        else (Z.pos m # Pos.pow 2 (Z.to_pos (- e)))%Q in
      Some (if s then Qopp magnitude else magnitude)
  | _ => None
  end.

End JSNumber.

(** ** Statistics engine ([useFirebaseStats], [useMonthlyProgress]) *)

Record Stats := mkStats {
  totalDays : nat;
  currentStreak : nat;
  averageCapsules : JSNumber.t;
  completionRate : Q;
  totalCapsules : Z
}.

Record MonthlyProgress := mkMonthlyProgress {
  mp_completionRate : Q;
  mp_completedDays : nat;
  mp_totalDays : nat
}.

Section StatisticsEngine.
(** The runtime: [Date.parse], the local time zone and the current
    instant. The code calls [new Date()] at every step of the loop and
    once more for the window; a recomputation is taken to be instantaneous,
    so that all these calls read the same [now]. *)
Variable Date_parse : string -> JSDate.t.
Variable LocalTZA : Z.
Variable now : Z.

Definition newDate (s : string) : JSDate.t := Date_parse s.

(** [(a, b) => new Date(b.date).getTime() - new Date(a.date).getTime()] *)
Definition byDateDescending (a b : DailyRecord.t) : option Z :=
  JSDate.number_sub (JSDate.getTime (newDate (DailyRecord.date b)))
                    (JSDate.getTime (newDate (DailyRecord.date a))).

(** [new Date()] followed by [setDate(getDate() - i)]. *)
Definition daysAgo (i : Z) : JSDate.t :=
  Some (JSDate.setDate_getDate_minus LocalTZA now i).

(** The [for] loop over [sortedRecords], from index [i] on. *)
Fixpoint streakLoop (i : Z) (sortedRecords : list DailyRecord.t) (currentStreak : nat) : nat :=
  match sortedRecords with
  | [] => currentStreak
  | r :: rest =>
      let recordDate := newDate (DailyRecord.date r) in
      let expectedDate := daysAgo i in
      if JSDate.DateString_eqb (JSDate.toDateString LocalTZA recordDate)
                               (JSDate.toDateString LocalTZA expectedDate)
      then streakLoop (i + 1) rest (S currentStreak)
      else currentStreak
  end.

Definition inLast30Days (r : DailyRecord.t) : bool :=
  let thirtyDaysAgo := daysAgo 30 in
  let recordDate := newDate (DailyRecord.date r) in
  JSDate.ge recordDate thirtyDaysAgo.

Definition calculateStats (records : list DailyRecord.t) : Stats :=
  let completedRecords := List.filter DailyRecord.completed records in
  let totalDays := length completedRecords in
  let totalCapsules :=
    fold_left (fun sum r => sum + DailyRecord.capsules r) completedRecords 0 in
  let averageCapsules :=
    if (0 <? totalDays)%nat
    then JSNumber.div (JSNumber.of_Z totalCapsules) (JSNumber.of_Z (Z.of_nat totalDays))
    else JSNumber.of_Z 0 in
  let sortedRecords := Array_sort byDateDescending completedRecords in
  let currentStreak := streakLoop 0 sortedRecords 0 in
  let last30DaysRecords := List.filter inLast30Days records in
  let completedLast30Days := length (List.filter DailyRecord.completed last30DaysRecords) in
  let completionRate := (inject_Z (Z.of_nat completedLast30Days) / 30 * 100)%Q in
  {| totalDays := totalDays;
     currentStreak := currentStreak;
     averageCapsules := averageCapsules;
     completionRate := completionRate;
     totalCapsules := totalCapsules |}.

Definition calculateMonthlyProgress (records : list DailyRecord.t) : MonthlyProgress :=
  let last30DaysRecords := List.filter inLast30Days records in
  let completedDays := length (List.filter DailyRecord.completed last30DaysRecords) in
  let completionRate := (inject_Z (Z.of_nat completedDays) / 30 * 100)%Q in
  {| mp_completionRate := completionRate;
     mp_completedDays := completedDays;
     mp_totalDays := 30 |}.

End StatisticsEngine.

(** ** The world of the asynchronous code *)

Module SyncStatus.
Inductive t := synced | syncing | error.
End SyncStatus.

(** Values that are thrown: [new Error(message)], the [error] object of
    a backend response (identified by its [code]), or the reason of a
    request that rejects. *)
Inductive Exn :=
| JsError (message : string)
| PostgrestError (code : string)
| Rejection (reason : string).

(** What happens to a backend request in transit: it reaches the
    database, it is answered with an error object, or it rejects. *)
Inductive Fault :=
| NoFault
| ErrorResponse (code : string)
| Rejects (reason : string).

(** The [{ data, error }] pair a backend request resolves to. *)
Module Response.
Record t (A : Type) := mk { data : option A; error : option string }.
Arguments mk {A}.
Arguments data {A}.
Arguments error {A}.
End Response.

(** [Omit<DailyRecord, 'id' | 'user_id' | 'created_at' | 'updated_at'>] *)
Module RecordData.
Record t := mk {
  date : string;
  capsules : Z;
  time : string;
  notes : option string;
  completed : bool
}.
End RecordData.

(** [Omit<DailyRecord, 'id' | 'created_at' | 'updated_at'>] *)
Module DailyRecordInsert.
Record t := mk {
  user_id : string;
  date : string;
  capsules : Z;
  time : string;
  notes : option string;
  completed : bool
}.
End DailyRecordInsert.

(** [Partial<DailyRecord>] *)
Module DailyRecordUpdate.
Record t := mk {
  id : option string;
  user_id : option string;
  date : option string;
  capsules : option Z;
  time : option string;
  notes : option string;
  completed : option bool;
  created_at : option string;
  updated_at : option string
}.
End DailyRecordUpdate.

(** [Omit<UserSettings, 'created_at' | 'updated_at'>] *)
Module UserSettingsInsert.
Record t := mk {
  user_id : string;
  notifications : bool;
  reminder_time : string;
  daily_goal : Z;
  weekly_goal : Z;
  theme : Theme;
  language : Language
}.
End UserSettingsInsert.

(** [Partial<UserSettings>] *)
Module UserSettingsUpdate.
Record t := mk {
  user_id : option string;
  notifications : option bool;
  reminder_time : option string;
  daily_goal : option Z;
  weekly_goal : option Z;
  theme : option Theme;
  language : option Language;
  created_at : option string;
  updated_at : option string
}.
End UserSettingsUpdate.

(** [Omit<UserProfile, 'created_at' | 'updated_at'>] *)
Module UserProfileInsert.
Record t := mk {
  user_id : string;
  name : string;
  date_of_birth : option string;
  gender : option string;
  email : string;
  phone : option string;
  profile_image_url : option string;
  treatment_start_date : option string;
  has_seen_tutorial : option bool
}.
End UserProfileInsert.

(** The authenticated user of the auth context. *)
Module AuthUser.
Record t := mk { id : string }.
End AuthUser.

(** The tables of the backend ([user_profiles] and [user_settings] have
    [user_id] as primary key), the counter behind [gen_random_uuid()],
    and the faults that the coming requests will meet, in order (none
    once the list is used up). *)
Record Backend := mkBackend {
  user_profiles : gmap string UserProfile.t;
  user_settings : gmap string UserSettings.t;
  daily_records : list DailyRecord.t;
  next_uuid : N;
  faults : list Fault
}.

(** React state of a record store ([useFirebaseDailyRecords] or
    [FirebaseRecordsProvider]). *)
Record RecordsState := mkRecordsState {
  records : list DailyRecord.t;
  loading : bool;
  error : option string;
  syncStatus : SyncStatus.t
}.

(** React state of [useTutorial]. *)
Record TutorialState := mkTutorialState {
  showTutorial : bool;
  tutorialLoading : bool
}.

(** The callbacks handed to [setTimeout] that outlive their caller. *)
Inductive Task :=
| RetryCreate (user : AuthUser.t) (recordData : RecordData.t)
| LogPropagated.

Record Timer := mkTimer { due : Z; task : Task }.

Record AlertBox := mkAlert { title : string; message : string; buttons : list string }.

Record World := mkWorld {
  backend : Backend;
  clock : Z;
  store : RecordsState;
  tutorial : TutorialState;
  timers : list Timer;
  alerts : list AlertBox
}.

Definition with_backend (f : Backend -> Backend) (w : World) : World :=
  mkWorld (f (backend w)) (clock w) (store w) (tutorial w) (timers w) (alerts w).
Definition with_clock (f : Z -> Z) (w : World) : World :=
  mkWorld (backend w) (f (clock w)) (store w) (tutorial w) (timers w) (alerts w).
Definition with_store (f : RecordsState -> RecordsState) (w : World) : World :=
  mkWorld (backend w) (clock w) (f (store w)) (tutorial w) (timers w) (alerts w).
Definition with_tutorial (f : TutorialState -> TutorialState) (w : World) : World :=
  mkWorld (backend w) (clock w) (store w) (f (tutorial w)) (timers w) (alerts w).
Definition with_timers (f : list Timer -> list Timer) (w : World) : World :=
  mkWorld (backend w) (clock w) (store w) (tutorial w) (f (timers w)) (alerts w).
Definition with_alerts (f : list AlertBox -> list AlertBox) (w : World) : World :=
  mkWorld (backend w) (clock w) (store w) (tutorial w) (timers w) (f (alerts w)).

(** *** The monad: state and exceptions *)

Inductive Completion (A : Type) :=
| Normal (a : A)
| Throw (e : Exn).
Arguments Normal {A}.
Arguments Throw {A}.

Definition M (A : Type) : Type := World -> Completion A * World.

Definition ret {A} (a : A) : M A := fun w => (Normal a, w).
Definition throw {A} (e : Exn) : M A := fun w => (Throw e, w).

Definition bind {A B} (m : M A) (k : A -> M B) : M B :=
  fun w =>
    match m w with
    | (Normal a, w') => k a w'
    | (Throw e, w') => (Throw e, w')
    end.

Notation "'do' x <- e ; k" := (bind e (fun x => k))
  (at level 10, x name, e at level 100, k at level 200).
Notation "e ;;; k" := (bind e (fun _ => k))
  (at level 100, k at level 200, right associativity).

(** [try { body } catch (error) { handler }] *)
Definition try_catch {A} (body : M A) (handler : Exn -> M A) : M A :=
  fun w =>
    match body w with
    | (Normal a, w') => (Normal a, w')
    | (Throw e, w') => handler e w'
    end.

(** [try { body } finally { cleanup }] *)
Definition try_finally {A} (body : M A) (cleanup : M unit) : M A :=
  fun w =>
    let '(c, w') := body w in
    match cleanup w' with
    | (Normal _, w'') => (c, w'')
    | (Throw e, w'') => (Throw e, w'')
    end.

Definition modify (f : World -> World) : M unit := fun w => (Normal tt, f w).
Definition gets {A} (f : World -> A) : M A := fun w => (Normal (f w), w).

(** [await new Promise(resolve => setTimeout(resolve, ms))]. What other
    tasks do in the meantime is not modelled. *)
Definition sleep (ms : Z) : M unit := modify (with_clock (fun c => c + ms)).

Definition setTimeout (t : Task) (ms : Z) : M unit :=
  fun w => (Normal tt, with_timers (fun ts => ts ++ [mkTimer (clock w + ms) t]) w).

Definition Alert_alert (title message : string) (buttons : list string) : M unit :=
  modify (with_alerts (fun l => l ++ [mkAlert title message buttons])).

(** [new Date().toISOString()] *)
Definition nowISOString : M string := gets (fun w => JSDate.toISOString (clock w)).

(** React state setters. *)
Definition setRecords (l : list DailyRecord.t) : M unit :=
  modify (with_store (fun s => mkRecordsState l (loading s) (error s) (syncStatus s))).
Definition setLoading (b : bool) : M unit :=
  modify (with_store (fun s => mkRecordsState (records s) b (error s) (syncStatus s))).
Definition setError (e : option string) : M unit :=
  modify (with_store (fun s => mkRecordsState (records s) (loading s) e (syncStatus s))).
Definition setSyncStatus (st : SyncStatus.t) : M unit :=
  modify (with_store (fun s => mkRecordsState (records s) (loading s) (error s) st)).
Definition setShowTutorial (b : bool) : M unit :=
  modify (with_tutorial (fun s => mkTutorialState b (tutorialLoading s))).
Definition setTutorialLoading (b : bool) : M unit :=
  modify (with_tutorial (fun s => mkTutorialState (showTutorial s) b)).

(** [{ ...settings, ...updates }] *)
Definition merge_settings (u : UserSettingsUpdate.t) (s : UserSettings.t) : UserSettings.t :=
  UserSettings.mk
    (default (UserSettings.user_id s) (UserSettingsUpdate.user_id u))
    (default (UserSettings.notifications s) (UserSettingsUpdate.notifications u))
    (default (UserSettings.reminder_time s) (UserSettingsUpdate.reminder_time u))
    (default (UserSettings.daily_goal s) (UserSettingsUpdate.daily_goal u))
    (default (UserSettings.weekly_goal s) (UserSettingsUpdate.weekly_goal u))
    (default (UserSettings.theme s) (UserSettingsUpdate.theme u))
    (default (UserSettings.language s) (UserSettingsUpdate.language u))
    (default (UserSettings.created_at s) (UserSettingsUpdate.created_at u))
    (default (UserSettings.updated_at s) (UserSettingsUpdate.updated_at u)).

(** ** The hosted backend

    The tables follow the schema of the migration: [daily_records] has a
    generated [id], [UNIQUE(user_id, date)], [notes] defaulting to the
    empty string and timestamps defaulting to [now()]; a [BEFORE UPDATE]
    trigger refreshes [updated_at]. [.single()] answers with error code
    [PGRST116] unless exactly one row matches. *)

Module Postgres.

Definition unique_violation : string := "23505".
Definition no_single_row : string := "PGRST116".

Definition set_faults (fs : list Fault) (b : Backend) : Backend :=
  mkBackend (user_profiles b) (user_settings b) (daily_records b) (next_uuid b) fs.
Definition set_daily_records (rows : list DailyRecord.t) (n : N) (b : Backend) : Backend :=
  mkBackend (user_profiles b) (user_settings b) rows n (faults b).
Definition set_user_profiles (m : gmap string UserProfile.t) (b : Backend) : Backend :=
  mkBackend m (user_settings b) (daily_records b) (next_uuid b) (faults b).
Definition set_user_settings (m : gmap string UserSettings.t) (b : Backend) : Backend :=
  mkBackend (user_profiles b) m (daily_records b) (next_uuid b) (faults b).

Definition gen_random_uuid (n : N) : string := "uuid-" +:+ pretty n.

Definition same_user_date (uid d : string) (r : DailyRecord.t) : bool :=
  String.eqb (DailyRecord.user_id r) uid && String.eqb (DailyRecord.date r) d.

Definition has_id (rid : string) (r : DailyRecord.t) : bool :=
  match DailyRecord.id r with
  | Some i => String.eqb i rid
  | None => false
  end.

Fixpoint unique_user_date (rows : list DailyRecord.t) : bool :=
  match rows with
  | [] => true
  | r :: rest =>
      negb (existsb (same_user_date (DailyRecord.user_id r) (DailyRecord.date r)) rest)
      && unique_user_date rest
  end.

(** [from('daily_records').insert(record).select().single()] *)
Definition insert_daily_record (record : DailyRecordInsert.t) (now : Z) (b : Backend)
  : Response.t DailyRecord.t * Backend :=
  if existsb (same_user_date (DailyRecordInsert.user_id record) (DailyRecordInsert.date record))
             (daily_records b)
  then (Response.mk None (Some unique_violation), b)
  else
    let row :=
      DailyRecord.mk (Some (gen_random_uuid (next_uuid b)))
        (DailyRecordInsert.user_id record) (DailyRecordInsert.date record)
        (DailyRecordInsert.capsules record) (DailyRecordInsert.time record)
        (Some (default ""%string (DailyRecordInsert.notes record)))
        (DailyRecordInsert.completed record)
        (JSDate.toISOString now) (JSDate.toISOString now) in
    (Response.mk (Some row) None,
     set_daily_records (daily_records b ++ [row]) (next_uuid b + 1)%N b).

(** [from('daily_records').select('*').eq('user_id', u).eq('date', d).single()] *)
Definition select_daily_record (uid d : string) (now : Z) (b : Backend)
  : Response.t DailyRecord.t * Backend :=
  match List.filter (same_user_date uid d) (daily_records b) with
  | [r] => (Response.mk (Some r) None, b)
  | _ => (Response.mk None (Some no_single_row), b)
  end.

Definition apply_update (u : DailyRecordUpdate.t) (now : Z) (r : DailyRecord.t) : DailyRecord.t :=
  DailyRecord.mk
    (match DailyRecordUpdate.id u with Some i => Some i | None => DailyRecord.id r end)
    (default (DailyRecord.user_id r) (DailyRecordUpdate.user_id u))
    (default (DailyRecord.date r) (DailyRecordUpdate.date u))
    (default (DailyRecord.capsules r) (DailyRecordUpdate.capsules u))
    (default (DailyRecord.time r) (DailyRecordUpdate.time u))
    (match DailyRecordUpdate.notes u with Some n => Some n | None => DailyRecord.notes r end)
    (default (DailyRecord.completed r) (DailyRecordUpdate.completed u))
    (default (DailyRecord.created_at r) (DailyRecordUpdate.created_at u))
    (JSDate.toISOString now).

(** [from('daily_records').update(updates).eq('id', recordId)] *)
Definition update_daily_record (rid : string) (u : DailyRecordUpdate.t) (now : Z) (b : Backend)
  : Response.t unit * Backend :=
  let rows := map (fun r => if has_id rid r then apply_update u now r else r) (daily_records b) in
  if unique_user_date rows
  then (Response.mk None None, set_daily_records rows (next_uuid b) b)
  else (Response.mk None (Some unique_violation), b).

(** [from('daily_records').delete().eq('id', recordId)] *)
Definition delete_daily_record (rid : string) (now : Z) (b : Backend)
  : Response.t unit * Backend :=
  (Response.mk None None,
   set_daily_records (List.filter (fun r => negb (has_id rid r)) (daily_records b)) (next_uuid b) b).

(** [from('user_profiles').select('has_seen_tutorial').eq('user_id', u).single()] *)
Definition select_has_seen_tutorial (uid : string) (now : Z) (b : Backend)
  : Response.t (option bool) * Backend :=
  match user_profiles b !! uid with
  | Some p => (Response.mk (Some (UserProfile.has_seen_tutorial p)) None, b)
  | None => (Response.mk None (Some no_single_row), b)
  end.

Definition set_has_seen_tutorial (v : bool) (stamp : string) (p : UserProfile.t) : UserProfile.t :=
  UserProfile.mk (UserProfile.user_id p) (UserProfile.name p) (UserProfile.date_of_birth p)
    (UserProfile.gender p) (UserProfile.email p) (UserProfile.phone p)
    (UserProfile.profile_image_url p) (UserProfile.treatment_start_date p)
    (Some v) (UserProfile.created_at p) stamp.

(** [from('user_profiles').update({ has_seen_tutorial: v, updated_at }).eq('user_id', u)] *)
Definition update_has_seen_tutorial (uid : string) (v : bool) (now : Z) (b : Backend)
  : Response.t unit * Backend :=
  (Response.mk None None,
   set_user_profiles (alter (set_has_seen_tutorial v (JSDate.toISOString now)) uid (user_profiles b)) b).

(** [from('user_settings').select('*').eq('user_id', u).single()] *)
Definition select_user_settings (uid : string) (now : Z) (b : Backend)
  : Response.t UserSettings.t * Backend :=
  match user_settings b !! uid with
  | Some s => (Response.mk (Some s) None, b)
  | None => (Response.mk None (Some no_single_row), b)
  end.

(** [from('user_settings').insert(settings)] *)
Definition insert_user_settings (s : UserSettingsInsert.t) (now : Z) (b : Backend)
  : Response.t unit * Backend :=
  match user_settings b !! UserSettingsInsert.user_id s with
  | Some _ => (Response.mk None (Some unique_violation), b)
  | None =>
      let row :=
        UserSettings.mk (UserSettingsInsert.user_id s) (UserSettingsInsert.notifications s)
          (UserSettingsInsert.reminder_time s) (UserSettingsInsert.daily_goal s)
          (UserSettingsInsert.weekly_goal s) (UserSettingsInsert.theme s)
          (UserSettingsInsert.language s) (JSDate.toISOString now) (JSDate.toISOString now) in
      (Response.mk None None,
       set_user_settings (<[UserSettingsInsert.user_id s := row]> (user_settings b)) b)
  end.

Definition of_user (uid : string) (r : DailyRecord.t) : bool :=
  String.eqb (DailyRecord.user_id r) uid.

(** The comparator of [ORDER BY date DESC] on the text column, by code
    point (the order of every collation on ISO dates). *)
Definition dateDescending (a b : DailyRecord.t) : option Z :=
  Some (match String.compare (DailyRecord.date b) (DailyRecord.date a) with
        | Lt => -1
        | Eq => 0
        | Gt => 1
        end).

(** [from('daily_records').select('*').eq('user_id', u)
      .order('date', { ascending: false })], with [.limit(n)] when a
    limit is given. *)
Definition select_daily_records (uid : string) (limitCount : option nat) (now : Z) (b : Backend)
  : Response.t (list DailyRecord.t) * Backend :=
  let rows := Array_sort dateDescending (List.filter (of_user uid) (daily_records b)) in
  (Response.mk (Some (match limitCount with
                      | Some n => take n rows
                      | None => rows
                      end)) None, b).

Definition stamp_settings (stamp : string) (s : UserSettings.t) : UserSettings.t :=
  UserSettings.mk (UserSettings.user_id s) (UserSettings.notifications s)
    (UserSettings.reminder_time s) (UserSettings.daily_goal s) (UserSettings.weekly_goal s)
    (UserSettings.theme s) (UserSettings.language s) (UserSettings.created_at s) stamp.

(** [from('user_settings').update({ ...updates, updated_at }).eq('user_id', u)]:
    no row matching is no error; a change of the primary key onto an
    existing row is a unique violation. *)
Definition update_user_settings (uid : string) (u : UserSettingsUpdate.t) (now : Z) (b : Backend)
  : Response.t unit * Backend :=
  match user_settings b !! uid with
  | None => (Response.mk None None, b)
  | Some s =>
      let s' := stamp_settings (JSDate.toISOString now) (merge_settings u s) in
      if String.eqb (UserSettings.user_id s') uid
      then (Response.mk None None, set_user_settings (<[uid := s']> (user_settings b)) b)
      else
        match user_settings b !! UserSettings.user_id s' with
        | Some _ => (Response.mk None (Some unique_violation), b)
        | None =>
            (Response.mk None None,
             set_user_settings (<[UserSettings.user_id s' := s']> (delete uid (user_settings b))) b)
        end
  end.

Definition check_violation : string := "23514".

(** [CHECK (gender IN ('male', 'female', 'other'))]; a null passes. *)
Definition gender_allowed (g : option string) : bool :=
  match g with
  | None => true
  | Some g => String.eqb g "male" || String.eqb g "female" || String.eqb g "other"
  end.

(** [from('user_profiles').insert(profileData)]: [has_seen_tutorial]
    defaults to [false]. *)
Definition insert_user_profile (p : UserProfileInsert.t) (now : Z) (b : Backend)
  : Response.t unit * Backend :=
  if negb (gender_allowed (UserProfileInsert.gender p))
  then (Response.mk None (Some check_violation), b)
  else
    match user_profiles b !! UserProfileInsert.user_id p with
    | Some _ => (Response.mk None (Some unique_violation), b)
    | None =>
        let row :=
          UserProfile.mk (UserProfileInsert.user_id p) (UserProfileInsert.name p)
            (UserProfileInsert.date_of_birth p) (UserProfileInsert.gender p)
            (UserProfileInsert.email p) (UserProfileInsert.phone p)
            (UserProfileInsert.profile_image_url p) (UserProfileInsert.treatment_start_date p)
            (Some (default false (UserProfileInsert.has_seen_tutorial p)))
            (JSDate.toISOString now) (JSDate.toISOString now) in
        (Response.mk None None,
         set_user_profiles (<[UserProfileInsert.user_id p := row]> (user_profiles b)) b)
    end.

(** [from('user_profiles').select('*').eq('user_id', u).single()] *)
Definition select_user_profile (uid : string) (now : Z) (b : Backend)
  : Response.t UserProfile.t * Backend :=
  match user_profiles b !! uid with
  | Some p => (Response.mk (Some p) None, b)
  | None => (Response.mk None (Some no_single_row), b)
  end.

(** [from('user_profiles').delete().eq('user_id', u)] *)
Definition delete_user_profile (uid : string) (now : Z) (b : Backend)
  : Response.t unit * Backend :=
  (Response.mk None None, set_user_profiles (delete uid (user_profiles b)) b).

(** [from('user_settings').delete().eq('user_id', u)] *)
Definition delete_user_settings (uid : string) (now : Z) (b : Backend)
  : Response.t unit * Backend :=
  (Response.mk None None, set_user_settings (delete uid (user_settings b)) b).

(** [from('daily_records').delete().eq('user_id', u)] *)
Definition delete_daily_records_of (uid : string) (now : Z) (b : Backend)
  : Response.t unit * Backend :=
  (Response.mk None None,
   set_daily_records (List.filter (fun r => negb (of_user uid r)) (daily_records b))
                     (next_uuid b) b).

End Postgres.

(** [await] of a backend request: the next fault of the plan decides
    whether the request reaches the database. *)
Definition take_fault : M Fault :=
  fun w =>
    (Normal (hd NoFault (faults (backend w))),
     with_backend (Postgres.set_faults (tl (faults (backend w)))) w).

Definition request {A} (answer : Z -> Backend -> Response.t A * Backend) : M (Response.t A) :=
  do f <- take_fault;
  match f with
  | NoFault =>
      fun w =>
        let '(r, b) := answer (clock w) (backend w) in
        (Normal r, with_backend (fun _ => b) w)
  | ErrorResponse code => ret (Response.mk None (Some code))
  | Rejects reason => throw (Rejection reason)
  end.

(** ** The gateway ([SupabaseService]) *)

Module SupabaseService.

(** [catch (error) { console.error(...); throw error; }] *)
Definition rethrow {A} (body : M A) : M A :=
  try_catch body (fun error => throw error).

(** [if (error) throw error;] *)
Definition throw_if_error (error : option string) : M unit :=
  match error with
  | Some code => throw (PostgrestError code)
  | None => ret tt
  end.

(** [if (error && error.code !== 'PGRST116') throw error;] *)
Definition throw_unless_no_rows (error : option string) : M unit :=
  match error with
  | Some code =>
      if negb (String.eqb code "PGRST116") then throw (PostgrestError code) else ret tt
  | None => ret tt
  end.

Definition markTutorialAsSeen (userId : string) : M unit :=
  rethrow (
    do r <- request (Postgres.update_has_seen_tutorial userId true);
    throw_if_error (Response.error r)).

Definition hasUserSeenTutorial (userId : string) : M bool :=
  try_catch (
    do r <- request (Postgres.select_has_seen_tutorial userId);
    throw_unless_no_rows (Response.error r);;;
    (* data?.has_seen_tutorial || false *)
    let hasSeenTutorial :=
      match Response.data r with
      | Some (Some true) => true
      | _ => false
      end in
    ret hasSeenTutorial)
  (fun error => ret true).

Definition resetTutorialStatus (userId : string) : M unit :=
  rethrow (
    do r <- request (Postgres.update_has_seen_tutorial userId false);
    throw_if_error (Response.error r)).

Definition createDailyRecord (record : DailyRecordInsert.t) : M (option string) :=
  rethrow (
    do r <- request (Postgres.insert_daily_record record);
    throw_if_error (Response.error r);;;
    match Response.data r with
    | None => throw (JsError "No data returned from insert")
    | Some data => ret (DailyRecord.id data)
    end).

Definition getDailyRecordByDate (userId date : string) : M (option DailyRecord.t) :=
  rethrow (
    do r <- request (Postgres.select_daily_record userId date);
    throw_unless_no_rows (Response.error r);;;
    ret (Response.data r)).

Definition updateDailyRecord (recordId : string) (updates : DailyRecordUpdate.t) : M unit :=
  rethrow (
    do r <- request (Postgres.update_daily_record recordId updates);
    throw_if_error (Response.error r)).

Definition deleteDailyRecord (recordId : string) : M unit :=
  rethrow (
    do r <- request (Postgres.delete_daily_record recordId);
    throw_if_error (Response.error r)).

Definition createUserSettings (userId : string) (settings : UserSettingsInsert.t) : M unit :=
  rethrow (
    do r <- request (Postgres.insert_user_settings settings);
    throw_if_error (Response.error r)).

Definition defaultSettings (userId : string) : UserSettingsInsert.t :=
  UserSettingsInsert.mk userId true "09:00" 2 14 light en.

Definition getUserSettings (userId : string) : M (option UserSettings.t) :=
  rethrow (
    do r <- request (Postgres.select_user_settings userId);
    throw_unless_no_rows (Response.error r);;;
    match Response.data r with
    | None =>
        let d := defaultSettings userId in
        createUserSettings userId d;;;
        do created_at <- nowISOString;
        do updated_at <- nowISOString;
        ret (Some (UserSettings.mk
                     (UserSettingsInsert.user_id d) (UserSettingsInsert.notifications d)
                     (UserSettingsInsert.reminder_time d) (UserSettingsInsert.daily_goal d)
                     (UserSettingsInsert.weekly_goal d) (UserSettingsInsert.theme d)
                     (UserSettingsInsert.language d) created_at updated_at))
    | Some data => ret (Some data)
    end).

Definition getDailyRecords (userId : string) (limitCount : option nat)
  : M (list DailyRecord.t) :=
  try_catch (
    (* if (limitCount) query = query.limit(limitCount) *)
    let limit :=
      match limitCount with
      | Some n => if (n =? 0)%nat then None else Some n
      | None => None
      end in
    do r <- request (Postgres.select_daily_records userId limit);
    throw_if_error (Response.error r);;;
    ret (default [] (Response.data r)))
  (fun error => ret []).

Definition updateUserSettings (userId : string) (updates : UserSettingsUpdate.t) : M unit :=
  rethrow (
    do r <- request (Postgres.update_user_settings userId updates);
    throw_if_error (Response.error r)).

(** The three deletions are awaited and their [error] is not looked at. *)
Definition clearAllUserData (userId : string) : M unit :=
  rethrow (
    do _ <- request (Postgres.delete_user_profile userId);
    do _ <- request (Postgres.delete_user_settings userId);
    do _ <- request (Postgres.delete_daily_records_of userId);
    ret tt).

(** The row is keyed by [profileData.user_id]; [userId] is only logged. *)
Definition createUserProfile (userId : string) (profileData : UserProfileInsert.t) : M unit :=
  rethrow (
    do r <- request (Postgres.insert_user_profile profileData);
    throw_if_error (Response.error r)).

Definition getUserProfile (userId : string) : M (option UserProfile.t) :=
  rethrow (
    do r <- request (Postgres.select_user_profile userId);
    throw_unless_no_rows (Response.error r);;;
    ret (Response.data r)).

(** What [subscribeToDailyRecords] does at subscription and on every
    change event: fetch all the records of the user and hand them to
    the callback. *)
Definition fetchAndNotify (userId : string) (callback : list DailyRecord.t -> M unit) : M unit :=
  do records <- getDailyRecords userId None;
  callback records.

End SupabaseService.

(** [{ ...recordData, user_id: user.id }] *)
Definition with_user_id (recordData : RecordData.t) (uid : string) : DailyRecordInsert.t :=
  DailyRecordInsert.mk uid (RecordData.date recordData) (RecordData.capsules recordData)
    (RecordData.time recordData) (RecordData.notes recordData) (RecordData.completed recordData).

(** ** The record store of the hook [useFirebaseDailyRecords] *)

Module useFirebaseDailyRecords.

(** The callback of the realtime subscription. *)
Definition onRecords (newRecords : list DailyRecord.t) : M unit :=
  setRecords newRecords;;;
  setLoading false;;;
  setError None;;;
  setSyncStatus SyncStatus.synced;;;
  setTimeout LogPropagated 100.

(** The callback that [createRecord] schedules after a failure. *)
Definition retryCreate (user : AuthUser.t) (recordData : RecordData.t) : M unit :=
  try_catch (
    setSyncStatus SyncStatus.syncing;;;
    do _ <- SupabaseService.createDailyRecord (with_user_id recordData (AuthUser.id user));
    setSyncStatus SyncStatus.synced)
  (fun retryError =>
    setSyncStatus SyncStatus.error;;;
    Alert_alert "Sync Error"
      "Failed to save your data. Please check your internet connection and try again."
      ["OK"%string]).

Definition createRecord (user : option AuthUser.t) (recordData : RecordData.t) : M unit :=
  match user with
  | None => throw (JsError "No authenticated user")
  | Some u =>
      try_catch (
        setSyncStatus SyncStatus.syncing;;;
        do _ <- SupabaseService.createDailyRecord (with_user_id recordData (AuthUser.id u));
        setSyncStatus SyncStatus.synced;;;
        sleep 1000;;;
        do savedRecord <- SupabaseService.getDailyRecordByDate (AuthUser.id u) (RecordData.date recordData);
        ret tt)
      (fun error =>
        setSyncStatus SyncStatus.error;;;
        setTimeout (RetryCreate u recordData) 2000;;;
        throw error)
  end.

Definition updateRecord (recordId : string) (updates : DailyRecordUpdate.t) : M unit :=
  try_catch (
    setSyncStatus SyncStatus.syncing;;;
    SupabaseService.updateDailyRecord recordId updates;;;
    setSyncStatus SyncStatus.synced;;;
    sleep 1500)
  (fun error =>
    setSyncStatus SyncStatus.error;;;
    throw error).

Definition deleteRecord (recordId : string) : M unit :=
  try_catch (
    setSyncStatus SyncStatus.syncing;;;
    SupabaseService.deleteDailyRecord recordId;;;
    setSyncStatus SyncStatus.synced)
  (fun error =>
    setSyncStatus SyncStatus.error;;;
    throw error).

Definition getRecordByDate (user : option AuthUser.t) (date : string) : M (option DailyRecord.t) :=
  match user with
  | None => ret None
  | Some u =>
      try_catch (
        do records <- gets (fun w => records (store w));
        let existingRecord := Array_find (fun r => String.eqb (DailyRecord.date r) date) records in
        match existingRecord with
        | Some r => ret (Some r)
        | None =>
            do supabaseRecord <- SupabaseService.getDailyRecordByDate (AuthUser.id u) date;
            ret supabaseRecord
        end)
      (fun error => ret None)
  end.

(** [user!.id]: reading a property of [null] throws a [TypeError]. *)
Definition user_id_asserted (user : option AuthUser.t) : M string :=
  match user with
  | Some u => ret (AuthUser.id u)
  | None => throw (JsError "TypeError")
  end.

(** The messages that are logged read [user!.id] too, the one of the
    error handler included. *)
Definition validateRecordSaved (user : option AuthUser.t) (date : string) : M bool :=
  try_catch (
    sleep 1000;;;
    do uid <- user_id_asserted user;
    do savedRecord <- SupabaseService.getDailyRecordByDate uid date;
    match savedRecord with
    | Some _ => do _ <- user_id_asserted user; ret true
    | None => do _ <- user_id_asserted user; ret false
    end)
  (fun error =>
    do _ <- user_id_asserted user;
    ret false).

(** The effect that runs when the user changes. *)
Definition subscribe (user : option AuthUser.t) : M unit :=
  match user with
  | None => setRecords [];;; setLoading false
  | Some u =>
      setLoading true;;;
      SupabaseService.fetchAndNotify (AuthUser.id u) onRecords
  end.

End useFirebaseDailyRecords.

(** ** The record store of the context [FirebaseRecordsProvider] *)

Module FirebaseRecordsProvider.

Definition onRecords (newRecords : list DailyRecord.t) : M unit :=
  setRecords newRecords;;;
  setLoading false;;;
  setError None;;;
  setSyncStatus SyncStatus.synced;;;
  setTimeout LogPropagated 100.

Definition createRecord (user : option AuthUser.t) (recordData : RecordData.t) : M unit :=
  match user with
  | None => throw (JsError "No authenticated user")
  | Some u =>
      try_catch (
        setSyncStatus SyncStatus.syncing;;;
        do _ <- SupabaseService.createDailyRecord (with_user_id recordData (AuthUser.id u));
        ret tt)
      (fun error =>
        setSyncStatus SyncStatus.error;;;
        throw error)
  end.

Definition updateRecord (recordId : string) (updates : DailyRecordUpdate.t) : M unit :=
  try_catch (
    setSyncStatus SyncStatus.syncing;;;
    SupabaseService.updateDailyRecord recordId updates;;;
    setSyncStatus SyncStatus.synced)
  (fun error =>
    setSyncStatus SyncStatus.error;;;
    throw error).

Definition deleteRecord (recordId : string) : M unit :=
  try_catch (
    setSyncStatus SyncStatus.syncing;;;
    SupabaseService.deleteDailyRecord recordId;;;
    setSyncStatus SyncStatus.synced)
  (fun error =>
    setSyncStatus SyncStatus.error;;;
    throw error).

Definition getRecordByDate (user : option AuthUser.t) (date : string) : M (option DailyRecord.t) :=
  match user with
  | None => ret None
  | Some u =>
      try_catch (
        do records <- gets (fun w => records (store w));
        let existingRecord := Array_find (fun r => String.eqb (DailyRecord.date r) date) records in
        match existingRecord with
        | Some r => ret (Some r)
        | None =>
            do supabaseRecord <- SupabaseService.getDailyRecordByDate (AuthUser.id u) date;
            ret supabaseRecord
        end)
      (fun error => ret None)
  end.

Definition refreshRecords (user : option AuthUser.t) : M unit :=
  match user with
  | None => ret tt
  | Some u =>
      try_finally (
        try_catch (
          setLoading true;;;
          do freshRecords <- SupabaseService.getDailyRecords (AuthUser.id u) None;
          setRecords freshRecords;;;
          setError None;;;
          setSyncStatus SyncStatus.synced)
        (fun error =>
          setError (Some "Failed to refresh records"%string);;;
          setSyncStatus SyncStatus.error))
      (setLoading false)
  end.

Definition subscribe (user : option AuthUser.t) : M unit :=
  match user with
  | None => setRecords [];;; setLoading false
  | Some u =>
      setLoading true;;;
      SupabaseService.fetchAndNotify (AuthUser.id u) onRecords
  end.

End FirebaseRecordsProvider.

(** ** The event loop: running a scheduled callback *)

Definition runTask (t : Task) : M unit :=
  match t with
  | RetryCreate user recordData => useFirebaseDailyRecords.retryCreate user recordData
  | LogPropagated => ret tt
  end.

(** The timer that is due first (the earlier scheduled one among equals),
    and the timers that remain. *)
Fixpoint next_timer (ts : list Timer) : option (Timer * list Timer) :=
  match ts with
  | [] => None
  | t :: rest =>
      match next_timer rest with
      | Some (t', rest') =>
          if due t <=? due t' then Some (t, rest) else Some (t', t :: rest')
      | None => Some (t, [])
      end
  end.

(** One turn of the loop: time passes until the next timer is due and
    its callback runs. *)
Definition runNextTimer : M unit :=
  fun w =>
    match next_timer (timers w) with
    | None => (Normal tt, w)
    | Some (t, rest) =>
        runTask (task t) (with_clock (Z.max (due t)) (with_timers (fun _ => rest) w))
    end.

(** ** The onboarding gate ([useTutorial]) *)

Module useTutorial.

(** [checkTutorialStatus], for a given implementation of the gateway's
    [hasUserSeenTutorial]. *)
Definition checkTutorialStatus_with (hasUserSeenTutorial : string -> M bool)
    (user : option AuthUser.t) (isAuthenticated : bool) : M unit :=
  try_finally (
    try_catch (
      match user with
      | Some u =>
          if isAuthenticated then
            setTutorialLoading true;;;
            do hasSeenTutorial <- hasUserSeenTutorial (AuthUser.id u);
            if hasSeenTutorial then setShowTutorial false else setShowTutorial true
          else
            setShowTutorial false;;; setTutorialLoading false
      | None =>
          setShowTutorial false;;; setTutorialLoading false
      end)
    (fun error => setShowTutorial false))
  (setTutorialLoading false).

Definition checkTutorialStatus : option AuthUser.t -> bool -> M unit :=
  checkTutorialStatus_with SupabaseService.hasUserSeenTutorial.

Definition completeTutorial (user : option AuthUser.t) : M unit :=
  try_catch (
    match user with
    | None => ret tt
    | Some u =>
        SupabaseService.markTutorialAsSeen (AuthUser.id u);;;
        setShowTutorial false
    end)
  (fun error => setShowTutorial false).

Definition resetTutorial (user : option AuthUser.t) : M unit :=
  try_catch (
    match user with
    | None => ret tt
    | Some u =>
        SupabaseService.resetTutorialStatus (AuthUser.id u);;;
        setShowTutorial true
    end)
  (fun error => ret tt).

Definition skipTutorial (user : option AuthUser.t) : M unit :=
  completeTutorial user;;;
  ret tt.

End useTutorial.

(** ** The settings stores

    The settings stores keep React state of their own; a session pairs
    it with the world, and the programs of the world are lifted to the
    session. *)

Record Session (St : Type) := mkSession { world : World; local : St }.
Arguments mkSession {St}.
Arguments world {St}.
Arguments local {St}.

Definition L (St A : Type) : Type := Session St -> Completion A * Session St.

Definition lret {St A} (a : A) : L St A := fun s => (Normal a, s).
Definition lthrow {St A} (e : Exn) : L St A := fun s => (Throw e, s).

Definition lbind {St A B} (m : L St A) (k : A -> L St B) : L St B :=
  fun s =>
    match m s with
    | (Normal a, s') => k a s'
    | (Throw e, s') => (Throw e, s')
    end.

Notation "'run' x <- e ; k" := (lbind e (fun x => k))
  (at level 10, x name, e at level 100, k at level 200).
Notation "e ;;> k" := (lbind e (fun _ => k))
  (at level 100, k at level 200, right associativity).

Definition ltry_catch {St A} (body : L St A) (handler : Exn -> L St A) : L St A :=
  fun s =>
    match body s with
    | (Normal a, s') => (Normal a, s')
    | (Throw e, s') => handler e s'
    end.

Definition ltry_finally {St A} (body : L St A) (cleanup : L St unit) : L St A :=
  fun s =>
    let '(c, s') := body s in
    match cleanup s' with
    | (Normal _, s'') => (c, s'')
    | (Throw e, s'') => (Throw e, s'')
    end.

(** A program of the world, run inside a session. *)
Definition lift {St A} (m : M A) : L St A :=
  fun s => let '(c, w) := m (world s) in (c, mkSession w (local s)).

Definition update {St} (f : St -> St) : L St unit :=
  fun s => (Normal tt, mkSession (world s) (f (local s))).

(** *** The context [FirebaseSettingsProvider] *)

Module FirebaseSettingsProvider.

Record State := mkState {
  settings : option UserSettings.t;
  loading : bool;
  error : option string
}.

Definition initial : State := mkState None true None.

Definition setSettings (f : option UserSettings.t -> option UserSettings.t) : L State unit :=
  update (fun st => mkState (f (settings st)) (loading st) (error st)).
Definition setLoading (b : bool) : L State unit :=
  update (fun st => mkState (settings st) b (error st)).
Definition setError (e : option string) : L State unit :=
  update (fun st => mkState (settings st) (loading st) e).

Definition loadSettings (user : option AuthUser.t) : L State unit :=
  match user with
  | None => lret tt
  | Some u =>
      ltry_finally (
        ltry_catch (
          setLoading true;;>
          run userSettings <- lift (SupabaseService.getUserSettings (AuthUser.id u));
          setSettings (fun _ => userSettings);;>
          setError None)
        (fun error => setError (Some "Failed to load settings"%string)))
      (setLoading false)
  end.

Definition updateSettings (user : option AuthUser.t) (updates : UserSettingsUpdate.t)
  : L State unit :=
  match user with
  | None => lthrow (JsError "No authenticated user")
  | Some u =>
      ltry_catch (
        lift (SupabaseService.updateUserSettings (AuthUser.id u) updates);;>
        (* prev => prev ? { ...prev, ...updates } : null *)
        setSettings (fun prev =>
                       match prev with
                       | Some p => Some (merge_settings updates p)
                       | None => None
                       end))
      (fun error => lthrow error)
  end.

Definition refreshSettings (user : option AuthUser.t) : L State unit :=
  loadSettings user;;>
  lret tt.

(** The effect that runs when the user changes. *)
Definition onUser (user : option AuthUser.t) : L State unit :=
  match user with
  | None => setSettings (fun _ => None);;> setLoading false
  | Some _ => loadSettings user
  end.

End FirebaseSettingsProvider.

(** *** The hook [useFirebaseSettings]

    Its [updateSettings] spreads the previous state without a null
    check, so the state can be an object that lacks fields: it is
    modelled as a partial settings object, or null. *)

Module useFirebaseSettings.

Record State := mkState {
  settings : option UserSettingsUpdate.t;
  loading : bool;
  error : option string
}.

(** A complete settings object. *)
Definition whole (s : UserSettings.t) : UserSettingsUpdate.t :=
  UserSettingsUpdate.mk
    (Some (UserSettings.user_id s)) (Some (UserSettings.notifications s))
    (Some (UserSettings.reminder_time s)) (Some (UserSettings.daily_goal s))
    (Some (UserSettings.weekly_goal s)) (Some (UserSettings.theme s))
    (Some (UserSettings.language s)) (Some (UserSettings.created_at s))
    (Some (UserSettings.updated_at s)).

(** The initial state, for the instant [now] of the first render. *)
Definition initial (now : Z) : State :=
  mkState
    (Some (whole (UserSettings.mk "" true "09:00" 2 14 light en
                    (JSDate.toISOString now) (JSDate.toISOString now))))
    true None.

Definition over {A} (new old : option A) : option A :=
  match new with
  | Some v => Some v
  | None => old
  end.

(** [{ ...prev, ...updates }], where [prev] may be null. *)
Definition spread (prev : option UserSettingsUpdate.t) (updates : UserSettingsUpdate.t)
  : UserSettingsUpdate.t :=
  UserSettingsUpdate.mk
    (over (UserSettingsUpdate.user_id updates) (prev ≫= UserSettingsUpdate.user_id))
    (over (UserSettingsUpdate.notifications updates) (prev ≫= UserSettingsUpdate.notifications))
    (over (UserSettingsUpdate.reminder_time updates) (prev ≫= UserSettingsUpdate.reminder_time))
    (over (UserSettingsUpdate.daily_goal updates) (prev ≫= UserSettingsUpdate.daily_goal))
    (over (UserSettingsUpdate.weekly_goal updates) (prev ≫= UserSettingsUpdate.weekly_goal))
    (over (UserSettingsUpdate.theme updates) (prev ≫= UserSettingsUpdate.theme))
    (over (UserSettingsUpdate.language updates) (prev ≫= UserSettingsUpdate.language))
    (over (UserSettingsUpdate.created_at updates) (prev ≫= UserSettingsUpdate.created_at))
    (over (UserSettingsUpdate.updated_at updates) (prev ≫= UserSettingsUpdate.updated_at)).

Definition setSettings (f : option UserSettingsUpdate.t -> option UserSettingsUpdate.t)
  : L State unit :=
  update (fun st => mkState (f (settings st)) (loading st) (error st)).
Definition setLoading (b : bool) : L State unit :=
  update (fun st => mkState (settings st) b (error st)).
Definition setError (e : option string) : L State unit :=
  update (fun st => mkState (settings st) (loading st) e).

Definition loadSettings (user : option AuthUser.t) : L State unit :=
  match user with
  | None => lret tt
  | Some u =>
      ltry_finally (
        ltry_catch (
          setLoading true;;>
          run userSettings <- lift (SupabaseService.getUserSettings (AuthUser.id u));
          match userSettings with
          | Some s => setSettings (fun _ => Some (whole s))
          | None => lret tt
          end;;>
          setError None)
        (fun error => setError (Some "Failed to load settings"%string)))
      (setLoading false)
  end.

Definition updateSettings (user : option AuthUser.t) (updates : UserSettingsUpdate.t)
  : L State unit :=
  match user with
  | None => lthrow (JsError "No authenticated user")
  | Some u =>
      ltry_catch (
        lift (SupabaseService.updateUserSettings (AuthUser.id u) updates);;>
        setSettings (fun prev => Some (spread prev updates)))
      (fun error => lthrow error)
  end.

(** The effect that runs when the user changes. *)
Definition onUser (user : option AuthUser.t) : L State unit :=
  match user with
  | None => setSettings (fun _ => None);;> setLoading false
  | Some _ => loadSettings user
  end.

End useFirebaseSettings.

(** ** Password rules ([PasswordRecoveryService])

    A JavaScript string is the sequence of its UTF-16 code units; the
    regular expressions of the service have no [u] flag and test code
    units. *)

Module PasswordRecoveryService.

Inductive Strength := weak | medium | strong.

Record PasswordCheck := mkCheck {
  isValid : bool;
  errors : list string;
  strength : Strength
}.

(** The code units of a string of ASCII characters. *)
Definition codeUnits (s : string) : list N :=
  map N_of_ascii (list_ascii_of_string s).

(** [/[a-z]/], [/[A-Z]/], [/\d/] *)
Definition lowercase (c : N) : bool := ((97 <=? c) && (c <=? 122))%N.
Definition uppercase (c : N) : bool := ((65 <=? c) && (c <=? 90))%N.
Definition digit (c : N) : bool := ((48 <=? c) && (c <=? 57))%N.

(** The class of special characters: [! @ # $ % ^ & * ( ) _ + - = [ ] { } ; ' :]
    the double quote, the backslash, and [| , . < > / ?]. *)
Definition special (c : N) : bool :=
  existsb (N.eqb c)
    [33; 64; 35; 36; 37; 94; 38; 42; 40; 41; 95; 43; 45; 61; 91; 93; 123; 125; 59; 39; 58;
     34; 92; 124; 44; 46; 60; 62; 47; 63]%N.

(** [/[class]/.test(s)] *)
Definition test (class : N -> bool) (s : list N) : bool := existsb class s.

Definition tooShort : string := "Password must be at least 6 characters long".
Definition noLowercase : string := "Password must contain lowercase letters".

Definition validatePasswordStrength (password : list N) : PasswordCheck :=
  let errors : list string := [] in
  let score : nat := 0%nat in
  let '(errors, score) :=
    if (length password <? 6)%nat then (errors ++ [tooShort], score)
    else (errors, score + 1)%nat in
  let score := if (8 <=? length password)%nat then (score + 1)%nat else score in
  let '(errors, score) :=
    if test lowercase password then (errors, score + 1)%nat
    else (errors ++ [noLowercase], score) in
  let score := if test uppercase password then (score + 1)%nat else score in
  let score := if test digit password then (score + 1)%nat else score in
  let score := if test special password then (score + 1)%nat else score in
  let strength :=
    if (score <=? 2)%nat then weak
    else if (score <=? 4)%nat then medium
    else strong in
  {| isValid := (length errors =? 0)%nat && (6 <=? length password)%nat;
     errors := errors;
     strength := strength |}.

(** The order of the three strengths. *)
Definition rank (s : Strength) : nat :=
  match s with
  | weak => 0%nat
  | medium => 1%nat
  | strong => 2%nat
  end.

(** How many of the four character classes a password has. *)
Definition classes (password : list N) : nat :=
  (Nat.b2n (test lowercase password) + Nat.b2n (test uppercase password)
   + Nat.b2n (test digit password) + Nat.b2n (test special password))%nat.

(** The score the validation computes, and the strength of a score. *)
Definition score (password : list N) : nat :=
  (Nat.b2n (6 <=? length password)%nat + Nat.b2n (8 <=? length password)%nat
   + classes password)%nat.

Definition strengthOf (score : nat) : Strength :=
  if (score <=? 2)%nat then weak
  else if (score <=? 4)%nat then medium
  else strong.

End PasswordRecoveryService.

(** ** The quantities of the specification *)

(** Number of records with [completed = true]. *)
Fixpoint completedCount (l : list DailyRecord.t) : nat :=
  match l with
  | [] => 0
  | r :: l' => ((if DailyRecord.completed r then 1 else 0) + completedCount l')%nat
  end.

(** Sum of [capsules] over the completed records. *)
Fixpoint completedCapsules (l : list DailyRecord.t) : Z :=
  match l with
  | [] => 0
  | r :: l' => (if DailyRecord.completed r then DailyRecord.capsules r else 0) + completedCapsules l'
  end.

Section Calendar.
Variable Date_parse : string -> JSDate.t.
Variable LocalTZA : Z.
Variable now : Z.

(** The local calendar day on which the computation runs. *)
Definition today : Z := JSDate.Day (JSDate.LocalTime LocalTZA now).

(** The calendar day of a record: the local day of [new Date(r.date)]. *)
Definition recordDay (r : DailyRecord.t) : JSDate.DateString :=
  JSDate.toDateString LocalTZA (Date_parse (DailyRecord.date r)).

(** A record whose date is a valid instant, that instant, and its
    local day. *)
Definition validDate (r : DailyRecord.t) : Prop :=
  is_Some (Date_parse (DailyRecord.date r)).
Definition timeOf (r : DailyRecord.t) : Z :=
  default 0 (Date_parse (DailyRecord.date r)).
Definition dayOf (r : DailyRecord.t) : Z :=
  JSDate.Day (JSDate.LocalTime LocalTZA (timeOf r)).

(** A record dated by the calendar date [d] alone: [Date.parse] reads a
    date-only string as midnight UTC of that day. *)
Definition datedOn (r : DailyRecord.t) (d : Z) : Prop :=
  Date_parse (DailyRecord.date r) = Some (JSDate.MakeDate d 0).

(** The [n] consecutive calendar days ending on day [d], latest first. *)
Definition daysEnding (d : Z) (n : nat) : list Z :=
  map (fun k => d - Z.of_nat k) (seq 0 n).

(** The test of the code: the date is a valid instant on or after thirty
    days before now. *)
Definition sinceThirtyDaysAgo (r : DailyRecord.t) : bool :=
  match Date_parse (DailyRecord.date r) with
  | Some tv => now - 30 * JSDate.msPerDay <=? tv
  | None => false
  end.

(** Number of completed records that pass that test. *)
Fixpoint completedSinceThirtyDaysAgo (l : list DailyRecord.t) : nat :=
  match l with
  | [] => 0
  | r :: l' =>
      ((if DailyRecord.completed r && sinceThirtyDaysAgo r then 1 else 0)
       + completedSinceThirtyDaysAgo l')%nat
  end.

(** The trailing 30-day window of the specification: the thirty days
    that end now, both ends included. *)
Definition inTrailing30Days (r : DailyRecord.t) : bool :=
  match Date_parse (DailyRecord.date r) with
  | Some tv => (now - 30 * JSDate.msPerDay <=? tv) && (tv <=? now)
  | None => false
  end.

(** Number of completed records in the trailing 30-day window. *)
Fixpoint completedInTrailing30Days (l : list DailyRecord.t) : nat :=
  match l with
  | [] => 0
  | r :: l' =>
      ((if DailyRecord.completed r && inTrailing30Days r then 1 else 0)
       + completedInTrailing30Days l')%nat
  end.

(** No completed record is dated after now. *)
Definition noneAhead (l : list DailyRecord.t) : Prop :=
  forall r tv, In r l -> DailyRecord.completed r = true ->
               Date_parse (DailyRecord.date r) = Some tv -> tv <= now.
End Calendar.

(** ** Vocabulary for the asynchronous code *)

(** The world in which a mutation is in flight. *)
Definition inFlight (w : World) : World :=
  with_store (fun s => mkRecordsState (records s) (loading s) (error s) SyncStatus.syncing) w.

(** The fault that the next backend request will meet, and the one that
    the request after [k] others will meet. *)
Definition nextFault (w : World) : Fault := hd NoFault (faults (backend w)).
Definition fault_at (k : nat) (w : World) : Fault := nth k (faults (backend w)) NoFault.

(** A read fails when the request rejects or is answered with an error
    other than "no single row". *)
Definition readFails (f : Fault) : Prop :=
  match f with
  | NoFault => False
  | ErrorResponse code => code <> "PGRST116"%string
  | Rejects _ => True
  end.

(** Two worlds that differ in the backend at most. *)
Definition same_client (w w' : World) : Prop :=
  clock w' = clock w /\ store w' = store w /\ tutorial w' = tutorial w
  /\ timers w' = timers w /\ alerts w' = alerts w.

(** A program that touches nothing but the backend. *)
Definition gateway_call {A} (m : M A) : Prop := forall w, same_client w (snd (m w)).

(** The persisted tutorial flag of a user: absent when the profile row
    or its [has_seen_tutorial] field is. *)
Definition flagIn (profiles : gmap string UserProfile.t) (uid : string) : option bool :=
  match profiles !! uid with
  | Some p => UserProfile.has_seen_tutorial p
  | None => None
  end.

Definition storedFlag (w : World) (uid : string) : option bool :=
  flagIn (user_profiles (backend w)) uid.

(** What [hasUserSeenTutorial] answers, by the fate of its request. *)
Definition seenAnswer (w : World) (userId : string) : bool :=
  match nextFault w with
  | NoFault =>
      match storedFlag w userId with
      | Some true => true
      | _ => false
      end
  | ErrorResponse code => negb (String.eqb code "PGRST116")
  | Rejects _ => true
  end.

(** The state of the onboarding gate. *)
Inductive Gate := pending | completed.

Definition gateOf (w : World) (uid : string) : Gate :=
  match storedFlag w uid with
  | Some true => completed
  | _ => pending
  end.

(** The alert of a failed retry. *)
Definition syncErrorAlert : AlertBox :=
  mkAlert "Sync Error"
    "Failed to save your data. Please check your internet connection and try again."
    ["OK"%string].

(** The uniqueness constraint of [daily_records]: no two rows for the
    same user and date. *)
Definition uniqueDates (b : Backend) : Prop :=
  Postgres.unique_user_date (daily_records b) = true.

(** Two backends with the same tables. *)
Definition same_tables (b b' : Backend) : Prop :=
  user_profiles b' = user_profiles b /\ user_settings b' = user_settings b
  /\ daily_records b' = daily_records b /\ next_uuid b' = next_uuid b.

(** The rows of a user for a date. *)
Definition rowsFor (uid d : string) (b : Backend) : list DailyRecord.t :=
  List.filter (Postgres.same_user_date uid d) (daily_records b).

(** The rows of a user. *)
Definition rowsOf (uid : string) (b : Backend) : list DailyRecord.t :=
  List.filter (Postgres.of_user uid) (daily_records b).

(** [a] is dated no earlier than [b], in the order of the text column. *)
Definition latestFirst (a b : DailyRecord.t) : Prop :=
  String.compare (DailyRecord.date b) (DailyRecord.date a) <> Gt.

(** ** Sample data *)

Module Samples.

Definition brasilia : Z := -10800000.
Definition utc : Z := 0.

(** 2024-01-15T15:30:00.000Z *)
Definition noon : Z := 1705332600000.

Definition alice : AuthUser.t := AuthUser.mk "alice".

Definition day (d : string) (n : Z) (done : bool) : DailyRecord.t :=
  DailyRecord.mk (Some ("r-" +:+ d)) "alice" d n "09:00" None done
    "2024-01-01T00:00:00.000Z" "2024-01-01T00:00:00.000Z".

(** Five completed days ending on 2024-01-15, dated with a local time
    of day, and one day that was not completed. *)
Definition fiveDays : list DailyRecord.t :=
  [ day "2024-01-13T08:00:00" 2 true;
    day "2024-01-15T07:45:00" 2 true;
    day "2024-01-10T08:00:00" 2 false;
    day "2024-01-11T21:10:00" 3 true;
    day "2024-01-14T08:00:00" 1 true;
    day "2024-01-12T23:59:59" 2 true ].

(** The same history without a record for 2024-01-15. *)
Definition noRecordToday : list DailyRecord.t :=
  [ day "2024-01-13T08:00:00" 2 true;
    day "2024-01-11T21:10:00" 3 true;
    day "2024-01-14T08:00:00" 1 true;
    day "2024-01-12T23:59:59" 2 true ].

(** Thirty-one completed records, all dated after now. *)
Definition thirtyOneAhead : list DailyRecord.t :=
  map (fun k => day ("2024-03-" +:+ JSDate.pad 2 (Z.of_nat k) "") 2 true) (seq 1 31).

(** Eleven completed days, from 2024-01-05 to 2024-01-15, with fifteen
    capsules in all. *)
Definition elevenDays : list DailyRecord.t :=
  map (fun k => day ("2024-01-" +:+ JSDate.pad 2 (Z.of_nat k) "" +:+ "T08:00:00")
                    (if (k <=? 8)%nat then 2 else 1) true)
      (seq 5 11).

Definition newRecord : RecordData.t :=
  RecordData.mk "2024-01-15" 2 "09:00" None true.

Definition profile (seen : option bool) : UserProfile.t :=
  UserProfile.mk "alice" "Alice" None None "alice@example.org" None None None seen
    "2024-01-01T00:00:00.000Z" "2024-01-01T00:00:00.000Z".

Definition settings : UserSettings.t :=
  UserSettings.mk "alice" false "21:30" 3 21 dark pt
    "2024-01-01T00:00:00.000Z" "2024-01-02T00:00:00.000Z".

Definition emptyBackend : Backend := mkBackend ∅ ∅ [] 0 [].

Definition bob : AuthUser.t := AuthUser.mk "bob".

(** A record of bob. *)
Definition bobsDay (d : string) : DailyRecord.t :=
  DailyRecord.mk (Some ("b-" +:+ d)) "bob" d 1 "08:00" None true
    "2024-01-01T00:00:00.000Z" "2024-01-01T00:00:00.000Z".

(** A backend that holds data of alice and of bob. *)
Definition shared : Backend :=
  mkBackend {[ "alice"%string := profile (Some true) ]}
            {[ "alice"%string := settings ]}
            [ day "2024-01-13" 2 true; bobsDay "2024-01-14"; day "2024-01-15" 2 true;
              day "2024-01-14" 1 false ]
            4 [].

(** Daily goal 4, dark theme. *)
Definition goalFour : UserSettingsUpdate.t :=
  UserSettingsUpdate.mk None None None (Some 4) None (Some dark) None None None.

(** A backend whose next [n] requests are answered "503". *)
Definition offline (n : nat) : Backend :=
  mkBackend ∅ ∅ [] 0 (repeat (ErrorResponse "503") n).

Definition world (b : Backend) : World :=
  mkWorld b noon (mkRecordsState [] false None SyncStatus.synced)
    (mkTutorialState true false) [] [].

(** A world whose cache holds the five days. *)
Definition cached : World :=
  mkWorld emptyBackend noon (mkRecordsState fiveDays false None SyncStatus.synced)
    (mkTutorialState true false) [] [].

(** A backend that knows alice's profile, with the tutorial not seen. *)
Definition registered : Backend :=
  mkBackend {[ "alice"%string := profile (Some false) ]} ∅ [] 0 [].

End Samples.

(** * Properties *)

(** ** Dates *)

Example parse_iso_date_only :
  JSDate.parse_iso Samples.brasilia "2024-01-15" = Some 1705276800000.
Proof. vm_compute. reflexivity. Qed.

Example parse_iso_local_time :
  JSDate.parse_iso Samples.brasilia "2024-01-15T09:30:00" = Some 1705321800000.
Proof. vm_compute. reflexivity. Qed.

Example toISOString_sample :
  JSDate.toISOString 1705321800000 = "2024-01-15T12:30:00.000Z"%string.
Proof. vm_compute. reflexivity. Qed.

Example fiveDays_stats :
  let s := calculateStats (JSDate.parse_iso Samples.brasilia) Samples.brasilia Samples.noon
             Samples.fiveDays in
  (totalDays s, currentStreak s, totalCapsules s) = (5%nat, 5%nat, 10).
Proof. vm_compute. reflexivity. Qed.

Lemma msPerDay_pos : 0 < JSDate.msPerDay.
Proof. reflexivity. Qed.

Lemma Day_MakeDate (d tv : Z) :
  0 <= tv < JSDate.msPerDay -> JSDate.Day (JSDate.MakeDate d tv) = d.
Proof.
  intros H. unfold JSDate.Day, JSDate.MakeDate.
  rewrite Z.add_comm, Z.div_add by (pose proof msPerDay_pos; lia).
  rewrite Z.div_small by exact H. lia.
Qed.

Lemma Day_monotone (a b : Z) : a <= b -> JSDate.Day a <= JSDate.Day b.
Proof. intros H. apply Z.div_le_mono; [exact msPerDay_pos | exact H]. Qed.

(** With a fixed offset, [setDate(getDate() - k)] moves the instant back
    by [k] whole days. *)
Lemma setDate_getDate_minus_days (tza tv k : Z) :
  JSDate.setDate_getDate_minus tza tv k = tv - k * JSDate.msPerDay.
Proof.
  unfold JSDate.setDate_getDate_minus, JSDate.UTC, JSDate.MakeDate, JSDate.Day,
    JSDate.TimeWithinDay, JSDate.LocalTime.
  pose proof (Z.div_mod (tv + tza) JSDate.msPerDay) as E.
  pose proof msPerDay_pos. lia.
Qed.

(** The day that [expectedDate] prints is today minus [i]. *)
Lemma toDateString_daysAgo (tza now i : Z) :
  JSDate.toDateString tza (daysAgo tza now i) = JSDate.CalendarDay (today tza now - i).
Proof.
  unfold daysAgo, today, JSDate.toDateString, JSDate.setDate_getDate_minus.
  f_equal. unfold JSDate.LocalTime at 1, JSDate.UTC.
  replace (_ - tza + tza) with
    (JSDate.MakeDate (JSDate.Day (JSDate.LocalTime tza now) - i)
       (JSDate.TimeWithinDay (JSDate.LocalTime tza now))) by lia.
  apply Day_MakeDate. apply Z.mod_pos_bound, msPerDay_pos.
Qed.

Lemma DateString_eqb_eq (a b : JSDate.DateString) :
  JSDate.DateString_eqb a b = true <-> a = b.
Proof.
  destruct a, b; simpl; try (split; congruence).
  rewrite Z.eqb_eq. split; congruence.
Qed.

(** ** Sorting *)

Section SortFacts.
Context {A : Type} (comparefn : A -> A -> option Z).

Lemma sort_insert_Permutation (x : A) (l : list A) :
  sort_insert comparefn x l ≡ₚ x :: l.
Proof.
  induction l as [|y l IH]; simpl; [reflexivity|].
  destruct (_ <=? 0); [reflexivity|].
  rewrite IH. apply Permutation_swap.
Qed.

Lemma Array_sort_Permutation (l : list A) : Array_sort comparefn l ≡ₚ l.
Proof.
  induction l as [|x l IH]; simpl; [reflexivity|].
  rewrite sort_insert_Permutation. by rewrite IH.
Qed.

(** Where the comparator is the difference of a numeric key, taken
    descending, the result is ordered by that key. *)
Variable key : A -> Z.
Variable valid : A -> Prop.
Hypothesis comparefn_key :
  forall x y, valid x -> valid y -> comparefn x y = Some (key y - key x).

Lemma sort_insert_sorted (x : A) (l : list A) :
  valid x -> Forall valid l ->
  StronglySorted (keyDescending key) l ->
  StronglySorted (keyDescending key) (sort_insert comparefn x l).
Proof.
  intros Hx Hl Hs. induction l as [|y l IH]; simpl.
  - repeat constructor.
  - inversion Hl as [|? ? Hy Hl']; subst.
    inversion Hs as [|? ? Hs' Hall]; subst.
    unfold SortCompare. rewrite (comparefn_key x y Hx Hy). simpl.
    destruct (Z.leb_spec (key y - key x) 0) as [Hle|Hgt].
    + constructor; [exact Hs|].
      constructor; [unfold keyDescending; lia|].
      eapply Forall_impl; [exact Hall|].
      unfold keyDescending. intros z Hz. lia.
    + constructor; [by apply IH|].
      rewrite sort_insert_Permutation.
      constructor; [unfold keyDescending; lia | exact Hall].
Qed.

Lemma Array_sort_sorted (l : list A) :
  Forall valid l -> StronglySorted (keyDescending key) (Array_sort comparefn l).
Proof.
  induction 1 as [|x l Hx Hl IH]; simpl; [constructor|].
  apply sort_insert_sorted; [exact Hx | by rewrite Array_sort_Permutation | exact IH].
Qed.
End SortFacts.

(** ** The streak *)

Section Streak.
Variable Date_parse : string -> JSDate.t.
Variable LocalTZA : Z.
Variable now : Z.

Local Abbreviation validDate := (validDate Date_parse).
Local Abbreviation timeOf := (timeOf Date_parse).
Local Abbreviation dayOf := (dayOf Date_parse LocalTZA).

Lemma byDateDescending_key (x y : DailyRecord.t) :
  validDate x -> validDate y ->
  byDateDescending Date_parse x y = Some (timeOf y - timeOf x).
Proof.
  intros [tx Hx] [ty Hy]. unfold byDateDescending, newDate, JSDate.getTime, timeOf.
  rewrite Hx, Hy. reflexivity.
Qed.

Lemma recordDay_inv (r : DailyRecord.t) (d : Z) :
  recordDay Date_parse LocalTZA r = JSDate.CalendarDay d -> validDate r /\ dayOf r = d.
Proof.
  unfold recordDay, validDate, dayOf, timeOf.
  destruct (Date_parse (DailyRecord.date r)) as [tv|]; simpl; [|discriminate].
  intros [= <-]. split; [by eexists | reflexivity].
Qed.

Lemma dayOf_monotone (x y : DailyRecord.t) : timeOf y <= timeOf x -> dayOf y <= dayOf x.
Proof. intros H. apply Day_monotone. unfold JSDate.LocalTime. lia. Qed.

(** The loop test compares calendar days only. *)
Lemma streakLoop_cons (i : Z) (r : DailyRecord.t) (rest : list DailyRecord.t) (acc : nat) :
  streakLoop Date_parse LocalTZA now i (r :: rest) acc =
  if JSDate.DateString_eqb (recordDay Date_parse LocalTZA r)
                           (JSDate.CalendarDay (today LocalTZA now - i))
  then streakLoop Date_parse LocalTZA now (i + 1) rest (S acc)
  else acc.
Proof. cbn [streakLoop]. rewrite toDateString_daysAgo. reflexivity. Qed.

Lemma daysEnding_S (d : Z) (n : nat) : daysEnding d (S n) = d :: daysEnding (d - 1) n.
Proof.
  unfold daysEnding. simpl. f_equal; [lia|].
  rewrite <- seq_shift, map_map. apply map_ext. intros k. lia.
Qed.

Lemma daysEnding_le (d e : Z) (n : nat) : In e (daysEnding d n) -> e <= d.
Proof. unfold daysEnding. rewrite in_map_iff. intros (k & <- & _). lia. Qed.

Lemma daysEnding_length (d : Z) (n : nat) : length (daysEnding d n) = n.
Proof. unfold daysEnding. by rewrite length_map, length_seq. Qed.

(** Walking a list whose days are today minus [i], today minus [i + 1],
    and so on counts every entry. *)
Lemma streakLoop_run (l : list DailyRecord.t) (i : Z) (acc : nat) :
  map (recordDay Date_parse LocalTZA) l =
    map JSDate.CalendarDay (daysEnding (today LocalTZA now - i) (length l)) ->
  streakLoop Date_parse LocalTZA now i l acc = (acc + length l)%nat.
Proof.
  revert i acc. induction l as [|r l IH]; intros i acc H.
  - simpl. lia.
  - rewrite streakLoop_cons. cbn [length] in H. rewrite daysEnding_S in H.
    cbn [map] in H. injection H as Hr Hl. rewrite Hr.
    replace (JSDate.DateString_eqb _ _) with true
      by (symmetry; by apply DateString_eqb_eq).
    rewrite IH; [cbn [length]; lia|].
    rewrite Hl. by replace (today LocalTZA now - (i + 1)) with (today LocalTZA now - i - 1) by lia.
Qed.

(** Records ordered by time, latest first, whose days are [n]
    consecutive days ending on [d], carry those days in that order. *)
Lemma sorted_days (l : list DailyRecord.t) (d : Z) (n : nat) :
  StronglySorted (keyDescending timeOf) l ->
  map (recordDay Date_parse LocalTZA) l ≡ₚ map JSDate.CalendarDay (daysEnding d n) ->
  map (recordDay Date_parse LocalTZA) l = map JSDate.CalendarDay (daysEnding d n).
Proof.
  revert d n. induction l as [|x l IH]; intros d n Hs Hp.
  - simpl in *. symmetry. by apply Permutation_nil.
  - destruct n as [|n].
    { symmetry in Hp. apply Permutation_nil in Hp. discriminate Hp. }
    rewrite daysEnding_S in *. cbn [map] in *.
    inversion Hs as [|? ? Hs' Hall]; subst.
    assert (Hx : recordDay Date_parse LocalTZA x = JSDate.CalendarDay d).
    { assert (Hin : In (recordDay Date_parse LocalTZA x)
                      (JSDate.CalendarDay d :: map JSDate.CalendarDay (daysEnding (d - 1) n))).
      { eapply Permutation_in; [exact Hp | by left]. }
      change (In (recordDay Date_parse LocalTZA x)
                (map JSDate.CalendarDay (d :: daysEnding (d - 1) n))) in Hin.
      apply in_map_iff in Hin as (e & He & Hin).
      rewrite <- daysEnding_S in Hin. apply daysEnding_le in Hin.
      symmetry in He. destruct (recordDay_inv _ _ He) as [_ Hdx].
      assert (Hd : In (JSDate.CalendarDay d)
                     (recordDay Date_parse LocalTZA x :: map (recordDay Date_parse LocalTZA) l)).
      { eapply Permutation_in; [symmetry; exact Hp | by left]. }
      destruct Hd as [Hd|Hd]; [exact Hd|].
      apply in_map_iff in Hd as (y & Hy & Hyl).
      destruct (recordDay_inv _ _ Hy) as [_ Hdy].
      rewrite Forall_forall in Hall.
      assert (Hle : timeOf y <= timeOf x) by (apply Hall, list_elem_of_In, Hyl).
      apply dayOf_monotone in Hle.
      rewrite He. f_equal. lia. }
    rewrite Hx in *. f_equal.
    apply IH; [exact Hs'|]. by apply Permutation_cons_inv in Hp.
Qed.

(** Exactly [n] completed records, on the [n] consecutive days ending
    today: the streak is [n]. *)
Lemma currentStreak_consecutive (records : list DailyRecord.t) (n : nat) :
  map (recordDay Date_parse LocalTZA) (List.filter DailyRecord.completed records)
    ≡ₚ map JSDate.CalendarDay (daysEnding (today LocalTZA now) n) ->
  currentStreak (calculateStats Date_parse LocalTZA now records) = n.
Proof.
  intros Hp. cbn [calculateStats currentStreak].
  set (completedRecords := List.filter DailyRecord.completed records) in *.
  set (sortedRecords := Array_sort (byDateDescending Date_parse) completedRecords).
  assert (Hvalid : Forall validDate completedRecords).
  { apply Forall_forall. intros r Hr%list_elem_of_In.
    assert (Hin : In (recordDay Date_parse LocalTZA r)
                    (map JSDate.CalendarDay (daysEnding (today LocalTZA now) n))).
    { eapply Permutation_in; [exact Hp|]. by apply in_map. }
    apply in_map_iff in Hin as (e & He & _). symmetry in He.
    by destruct (recordDay_inv _ _ He). }
  assert (Hsorted : StronglySorted (keyDescending timeOf) sortedRecords).
  { eapply Array_sort_sorted; [|exact Hvalid]. apply byDateDescending_key. }
  assert (Hperm : sortedRecords ≡ₚ completedRecords) by apply Array_sort_Permutation.
  assert (Hdays : map (recordDay Date_parse LocalTZA) sortedRecords =
                  map JSDate.CalendarDay (daysEnding (today LocalTZA now) n)).
  { apply sorted_days; [exact Hsorted|].
    etransitivity; [|exact Hp]. by apply Permutation_map. }
  assert (Hlen : length sortedRecords = n).
  { apply (f_equal (@length _)) in Hdays.
    by rewrite !length_map, daysEnding_length in Hdays. }
  rewrite streakLoop_run; [lia|].
  rewrite Hlen, Z.sub_0_r. exact Hdays.
Qed.

(** No completed record dated today: the streak is 0. *)
Lemma currentStreak_broken (records : list DailyRecord.t) :
  (forall r, In r records -> DailyRecord.completed r = true ->
             recordDay Date_parse LocalTZA r <> JSDate.CalendarDay (today LocalTZA now)) ->
  currentStreak (calculateStats Date_parse LocalTZA now records) = 0%nat.
Proof.
  intros H. cbn [calculateStats currentStreak].
  set (completedRecords := List.filter DailyRecord.completed records).
  pose proof (Array_sort_Permutation (byDateDescending Date_parse) completedRecords) as Hperm.
  destruct (Array_sort _ completedRecords) as [|r rest]; [reflexivity|].
  rewrite streakLoop_cons, Z.sub_0_r.
  assert (Hr : In r completedRecords) by (eapply Permutation_in; [exact Hperm | by left]).
  apply filter_In in Hr as [Hin Hc].
  destruct (JSDate.DateString_eqb _ _) eqn:E; [|reflexivity].
  apply DateString_eqb_eq in E. by destruct (H r Hin Hc).
Qed.
End Streak.

(** The streak depends on the current instant through its calendar day
    only. *)
Lemma streakLoop_same_day (Date_parse : string -> JSDate.t) (LocalTZA now now' : Z)
    (l : list DailyRecord.t) (i : Z) (acc : nat) :
  today LocalTZA now' = today LocalTZA now ->
  streakLoop Date_parse LocalTZA now' i l acc = streakLoop Date_parse LocalTZA now i l acc.
Proof.
  intros E. revert i acc. induction l as [|r l IH]; intros i acc; [reflexivity|].
  rewrite !streakLoop_cons, E, IH. reflexivity.
Qed.

(** The streak in terms of the days that the code itself reads off the
    records, the local day of [new Date(r.date)]: when these days are
    the [n] consecutive days ending today the streak is [n]; when none
    of them is today it is 0; the loop test at index [i] holds exactly
    when the record's local day is today minus [i], and the result is
    the same at every instant of today. *)
Lemma currentStreak_spec (Date_parse : string -> JSDate.t) (LocalTZA now : Z)
    (records : list DailyRecord.t) :
  (forall n : nat,
      Permutation
        (map (recordDay Date_parse LocalTZA) (List.filter DailyRecord.completed records))
        (map JSDate.CalendarDay (daysEnding (today LocalTZA now) n)) ->
      currentStreak (calculateStats Date_parse LocalTZA now records) = n)
  /\ ((forall r, In r records -> DailyRecord.completed r = true ->
                 recordDay Date_parse LocalTZA r <> JSDate.CalendarDay (today LocalTZA now)) ->
      currentStreak (calculateStats Date_parse LocalTZA now records) = 0%nat)
  /\ (forall (i : Z) (r : DailyRecord.t) (rest : list DailyRecord.t) (acc : nat),
        streakLoop Date_parse LocalTZA now i (r :: rest) acc =
        if decide (recordDay Date_parse LocalTZA r = JSDate.CalendarDay (today LocalTZA now - i))
        then streakLoop Date_parse LocalTZA now (i + 1) rest (S acc)
        else acc)
  /\ (forall now' : Z,
        today LocalTZA now' = today LocalTZA now ->
        currentStreak (calculateStats Date_parse LocalTZA now' records) =
        currentStreak (calculateStats Date_parse LocalTZA now records)).
Proof.
  split; [|split; [|split]].
  - intros n. apply currentStreak_consecutive.
  - apply currentStreak_broken.
  - intros i r rest acc. rewrite streakLoop_cons.
    destruct (decide _) as [E|E].
    + apply DateString_eqb_eq in E. by rewrite E.
    + destruct (JSDate.DateString_eqb _ _) eqn:E'; [|reflexivity].
      apply DateString_eqb_eq in E'. contradiction.
  - intros now' E. cbn [calculateStats currentStreak]. by apply streakLoop_same_day.
Qed.

Lemma currentStreak_spec_witness :
  currentStreak (calculateStats (JSDate.parse_iso Samples.brasilia) Samples.brasilia
                   Samples.noon Samples.fiveDays) = 5%nat
  /\ currentStreak (calculateStats (JSDate.parse_iso Samples.brasilia) Samples.brasilia
                      Samples.noon Samples.noRecordToday) = 0%nat
  /\ currentStreak (calculateStats (JSDate.parse_iso Samples.brasilia) Samples.brasilia
                      (Samples.noon + 3600000) Samples.fiveDays) =
     currentStreak (calculateStats (JSDate.parse_iso Samples.brasilia) Samples.brasilia
                      Samples.noon Samples.fiveDays).
Proof.
  split; [|split].
  - apply (proj1 (currentStreak_spec (JSDate.parse_iso Samples.brasilia) Samples.brasilia
                    Samples.noon Samples.fiveDays) 5%nat).
    refine (bool_decide_unpack _ _). vm_compute. exact I.
  - apply (proj1 (proj2 (currentStreak_spec (JSDate.parse_iso Samples.brasilia) Samples.brasilia
                    Samples.noon Samples.noRecordToday))).
    intros r Hin Hc. vm_compute in Hin.
    repeat (destruct Hin as [<-|Hin]; [vm_compute; discriminate|]). destruct Hin.
  - apply (proj2 (proj2 (proj2 (currentStreak_spec (JSDate.parse_iso Samples.brasilia)
                    Samples.brasilia Samples.noon Samples.fiveDays)))).
    vm_compute. reflexivity.
Defined.

Lemma datedOn_recordDay (Date_parse : string -> JSDate.t) (LocalTZA : Z)
    (r : DailyRecord.t) (d : Z) :
  datedOn Date_parse r d ->
  (0 <= LocalTZA < JSDate.msPerDay ->
   recordDay Date_parse LocalTZA r = JSDate.CalendarDay d)
  /\ (- JSDate.msPerDay <= LocalTZA < 0 ->
      recordDay Date_parse LocalTZA r = JSDate.CalendarDay (d - 1)).
Proof.
  unfold datedOn, recordDay. intros ->. cbn [JSDate.toDateString]. unfold JSDate.LocalTime.
  split; intros H; f_equal.
  - replace (JSDate.MakeDate d 0 + LocalTZA) with (JSDate.MakeDate d LocalTZA)
      by (unfold JSDate.MakeDate; lia).
    by apply Day_MakeDate.
  - replace (JSDate.MakeDate d 0 + LocalTZA)
      with (JSDate.MakeDate (d - 1) (LocalTZA + JSDate.msPerDay))
      by (unfold JSDate.MakeDate; lia).
    apply Day_MakeDate. lia.
Qed.

Lemma datedOn_days (Date_parse : string -> JSDate.t) (LocalTZA : Z)
    (l : list DailyRecord.t) (days : list Z) :
  Forall2 (datedOn Date_parse) l days ->
  (0 <= LocalTZA < JSDate.msPerDay ->
   map (recordDay Date_parse LocalTZA) l = map JSDate.CalendarDay days)
  /\ (- JSDate.msPerDay <= LocalTZA < 0 ->
      map (recordDay Date_parse LocalTZA) l
      = map (fun d => JSDate.CalendarDay (d - 1)) days).
Proof.
  induction 1 as [|r d l k Hrd _ [IHeast IHwest]]; [by split|].
  destruct (datedOn_recordDay Date_parse LocalTZA r d Hrd) as [Heast Hwest].
  split; intros H; cbn [map]; f_equal; auto.
Qed.

Lemma Forall2_In_l {A B} (P : A -> B -> Prop) (l : list A) (k : list B) (x : A) :
  Forall2 P l k -> In x l -> exists y, In y k /\ P x y.
Proof.
  induction 1 as [|a b l k Hab _ IH]; [by intros []|].
  intros [<-|Hx]; [exists b; by split; [left|]|].
  destruct (IH Hx) as (y & Hy & Hp). exists y. by split; [right|].
Qed.

(** C1. The streak does not compare the calendar dates of the records:
    it compares the local days of the instants [new Date(r.date)], and
    a date-only string is read as midnight UTC. For completed records
    dated by the [n] consecutive calendar dates ending today,
    [calculateStats] reports [currentStreak = n] at UTC and east of it,
    as the specification requires; west of UTC every record falls on
    the day before its date, none on today, and the streak is 0 for
    every [n > 0]. *)
Theorem currentStreak_calendar_dates (Date_parse : string -> JSDate.t) (LocalTZA now : Z)
    (records : list DailyRecord.t) (n : nat) (days : list Z) :
  Forall2 (datedOn Date_parse) (List.filter DailyRecord.completed records) days ->
  days ≡ₚ daysEnding (today LocalTZA now) n ->
  (0 <= LocalTZA < JSDate.msPerDay ->
   currentStreak (calculateStats Date_parse LocalTZA now records) = n)
  /\ (- JSDate.msPerDay <= LocalTZA < 0 ->
      map (recordDay Date_parse LocalTZA) (List.filter DailyRecord.completed records)
        ≡ₚ map JSDate.CalendarDay (daysEnding (today LocalTZA now - 1) n)
      /\ currentStreak (calculateStats Date_parse LocalTZA now records) = 0%nat
      /\ ((0 < n)%nat ->
          currentStreak (calculateStats Date_parse LocalTZA now records) <> n)).
Proof.
  intros Hdated Hdays. split.
  - intros Heast. apply currentStreak_consecutive.
    rewrite <- Hdays. apply Permutation_refl'.
    by apply (datedOn_days Date_parse LocalTZA _ _ Hdated).
  - intros Hwest.
    assert (Hzero : currentStreak (calculateStats Date_parse LocalTZA now records) = 0%nat).
    { apply currentStreak_broken. intros r Hin Hc.
      assert (Hr : In r (List.filter DailyRecord.completed records))
        by (apply filter_In; by split).
      destruct (Forall2_In_l _ _ _ _ Hdated Hr) as (d & Hd & Hrd).
      rewrite (proj2 (datedOn_recordDay Date_parse LocalTZA r d Hrd) Hwest).
      assert (d <= today LocalTZA now).
      { apply (daysEnding_le _ _ n). eapply Permutation_in; [exact Hdays | exact Hd]. }
      intros [= E]. lia. }
    split; [|split; [exact Hzero | intros Hn; rewrite Hzero; lia]].
    assert (Hshift : map JSDate.CalendarDay (daysEnding (today LocalTZA now - 1) n)
                     = map (fun d => JSDate.CalendarDay (d - 1))
                         (daysEnding (today LocalTZA now) n)).
    { unfold daysEnding. rewrite !map_map. apply map_ext. intros k. f_equal. lia. }
    rewrite Hshift, <- Hdays. apply Permutation_refl'.
    by apply (datedOn_days Date_parse LocalTZA _ _ Hdated).
Qed.

Lemma currentStreak_calendar_dates_witness :
  let records := [Samples.day "2024-01-15" 2 true; Samples.day "2024-01-14" 2 true] in
  JSDate.civil_from_days (today Samples.brasilia Samples.noon) = (2024, 1, 15)
  /\ currentStreak (calculateStats (JSDate.parse_iso Samples.brasilia) Samples.brasilia
                      Samples.noon records) = 0%nat
  /\ currentStreak (calculateStats (JSDate.parse_iso Samples.brasilia) Samples.brasilia
                      Samples.noon records) <> 2%nat
  /\ currentStreak (calculateStats (JSDate.parse_iso Samples.utc) Samples.utc
                      Samples.noon records) = 2%nat.
Proof.
  intros records. split; [reflexivity|].
  assert (Hdated : forall tza,
            Forall2 (datedOn (JSDate.parse_iso tza))
              (List.filter DailyRecord.completed records) [19737; 19736]).
  { intros tza. repeat constructor. }
  destruct (currentStreak_calendar_dates (JSDate.parse_iso Samples.brasilia) Samples.brasilia
              Samples.noon records 2 [19737; 19736] (Hdated _)) as [_ Hwest]; [reflexivity|].
  destruct Hwest as (_ & Hzero & Hne); [by vm_compute|].
  destruct (currentStreak_calendar_dates (JSDate.parse_iso Samples.utc) Samples.utc
              Samples.noon records 2 [19737; 19736] (Hdated _)) as [Heast _]; [reflexivity|].
  split; [exact Hzero|]. split; [apply Hne; lia|]. apply Heast. by vm_compute.
Defined.

(** The day of a record is the local day of the instant its date
    denotes. A date-only string denotes UTC midnight: at UTC the records
    below fall on the 15th and the 14th, in Brasilia on the 14th and the
    13th, so that no record falls on the 15th there. *)
Remark date_only_strings_west_of_utc :
  let records := [Samples.day "2024-01-15" 2 true; Samples.day "2024-01-14" 2 true] in
  JSDate.civil_from_days (today Samples.brasilia Samples.noon) = (2024, 1, 15)
  /\ map (recordDay (JSDate.parse_iso Samples.utc) Samples.utc) records
     = map JSDate.CalendarDay (daysEnding (today Samples.utc Samples.noon) 2)
  /\ currentStreak (calculateStats (JSDate.parse_iso Samples.utc) Samples.utc
                      Samples.noon records) = 2%nat
  /\ map (recordDay (JSDate.parse_iso Samples.brasilia) Samples.brasilia) records
     = map JSDate.CalendarDay (daysEnding (today Samples.brasilia Samples.noon - 1) 2)
  /\ currentStreak (calculateStats (JSDate.parse_iso Samples.brasilia) Samples.brasilia
                      Samples.noon records) = 0%nat.
Proof. vm_compute. repeat split. Qed.

(** ** Totals and average *)

Lemma filter_completed_length (l : list DailyRecord.t) :
  length (List.filter DailyRecord.completed l) = completedCount l.
Proof.
  induction l as [|r l IH]; [reflexivity|].
  simpl. destruct (DailyRecord.completed r); simpl; by rewrite IH.
Qed.

Lemma reduce_capsules (l : list DailyRecord.t) (acc : Z) :
  fold_left (fun sum r => sum + DailyRecord.capsules r) (List.filter DailyRecord.completed l) acc
  = acc + completedCapsules l.
Proof.
  revert acc. induction l as [|r l IH]; intros acc; simpl; [lia|].
  destruct (DailyRecord.completed r); simpl; rewrite IH; lia.
Qed.

(** C4, as the specification states it, fails: the average is not
    the exact quotient. Fifteen capsules over eleven completed days give
    the binary64 number nearest to 15/11, which is not 15/11, and which
    times 11 is not 15. *)
Lemma averageCapsules_not_exact :
  let s := calculateStats (JSDate.parse_iso Samples.brasilia) Samples.brasilia Samples.noon
             Samples.elevenDays in
  totalDays s = 11%nat /\ totalCapsules s = 15
  /\ (exists v : Q, JSNumber.value (averageCapsules s) = Some v /\ ~ (v == 15 # 11)%Q)
  /\ JSNumber.mul (averageCapsules s) (JSNumber.of_Z 11) <> JSNumber.of_Z 15.
Proof.
  split; [reflexivity|]. split; [reflexivity|]. split.
  - eexists. split; [vm_compute; reflexivity|]. vm_compute. discriminate.
  - vm_compute. discriminate.
Qed.

(** C4, amended. [totalDays] is the number of completed records,
    [totalCapsules] the sum of [capsules] over them, and
    [averageCapsules] the binary64 quotient of the two (the Number that
    [totalCapsules / totalDays] evaluates to) when [totalDays > 0], and
    the Number 0 when [totalDays = 0]. *)
Theorem totals_and_average (Date_parse : string -> JSDate.t) (LocalTZA now : Z)
    (records : list DailyRecord.t) :
  let s := calculateStats Date_parse LocalTZA now records in
  totalDays s = completedCount records
  /\ totalCapsules s = completedCapsules records
  /\ ((0 < completedCount records)%nat ->
      averageCapsules s
      = JSNumber.div (JSNumber.of_Z (completedCapsules records))
                     (JSNumber.of_Z (Z.of_nat (completedCount records))))
  /\ (completedCount records = 0%nat -> averageCapsules s = JSNumber.of_Z 0).
Proof.
  cbn zeta. cbn [calculateStats totalDays totalCapsules averageCapsules].
  rewrite filter_completed_length, reduce_capsules, Z.add_0_l.
  split; [reflexivity|]. split; [reflexivity|]. split.
  - intros Hpos. apply Nat.ltb_lt in Hpos as Hb. by rewrite Hb.
  - intros ->. reflexivity.
Qed.

Lemma totals_and_average_witness :
  let s := calculateStats (JSDate.parse_iso Samples.brasilia) Samples.brasilia Samples.noon
             Samples.fiveDays in
  let e := calculateStats (JSDate.parse_iso Samples.brasilia) Samples.brasilia Samples.noon
             [Samples.day "2024-01-10T08:00:00" 2 false] in
  averageCapsules s = JSNumber.of_Z 2 /\ averageCapsules e = JSNumber.of_Z 0.
Proof.
  split.
  - rewrite (proj1 (proj2 (proj2 (totals_and_average (JSDate.parse_iso Samples.brasilia)
                                    Samples.brasilia Samples.noon Samples.fiveDays))));
      [vm_compute; reflexivity | vm_compute; lia].
  - apply (proj2 (proj2 (proj2 (totals_and_average (JSDate.parse_iso Samples.brasilia)
                                   Samples.brasilia Samples.noon
                                   [Samples.day "2024-01-10T08:00:00" 2 false])))).
    reflexivity.
Defined.

(** ** Completion rate *)

Lemma inLast30Days_window (Date_parse : string -> JSDate.t) (LocalTZA now : Z)
    (r : DailyRecord.t) :
  inLast30Days Date_parse LocalTZA now r = sinceThirtyDaysAgo Date_parse now r.
Proof.
  unfold inLast30Days, sinceThirtyDaysAgo, daysAgo, newDate.
  rewrite setDate_getDate_minus_days.
  destruct (Date_parse (DailyRecord.date r)); reflexivity.
Qed.

Lemma last30Days_count (Date_parse : string -> JSDate.t) (LocalTZA now : Z)
    (l : list DailyRecord.t) :
  length (List.filter DailyRecord.completed (List.filter (inLast30Days Date_parse LocalTZA now) l))
  = completedSinceThirtyDaysAgo Date_parse now l.
Proof.
  induction l as [|r l IH]; [reflexivity|].
  cbn [List.filter completedSinceThirtyDaysAgo].
  rewrite <- inLast30Days_window with (LocalTZA := LocalTZA).
  destruct (inLast30Days Date_parse LocalTZA now r); cbn [List.filter];
    destruct (DailyRecord.completed r); cbn [length andb]; rewrite IH; reflexivity.
Qed.

Lemma rate_of_five : ((inject_Z (Z.of_nat 5) / 30 * 100 == 5 / 30 * 100)
                      /\ ~ (inject_Z (Z.of_nat 5) / 30 * 100 == 100))%Q.
Proof. split; vm_compute; congruence. Qed.

Lemma rate_above_100 (n : nat) : (30 < n)%nat -> (100 < inject_Z (Z.of_nat n) / 30 * 100)%Q.
Proof. intros H. unfold Qlt, Qdiv, Qmult, Qinv. simpl. lia. Qed.

Lemma completedInTrailing30Days_noneAhead (Date_parse : string -> JSDate.t) (now : Z)
    (l : list DailyRecord.t) :
  noneAhead Date_parse now l ->
  completedInTrailing30Days Date_parse now l = completedSinceThirtyDaysAgo Date_parse now l.
Proof.
  induction l as [|r l IH]; intros H; [reflexivity|].
  cbn [completedInTrailing30Days completedSinceThirtyDaysAgo].
  rewrite IH by (intros x tv Hx; apply H; by right). f_equal.
  unfold inTrailing30Days, sinceThirtyDaysAgo.
  destruct (DailyRecord.completed r) eqn:Hc; [|reflexivity].
  destruct (Date_parse (DailyRecord.date r)) as [tv|] eqn:Hd; [|reflexivity].
  assert (tv <= now) as Hle%Z.leb_le by (apply (H r tv); [by left | exact Hc | exact Hd]).
  by rewrite Hle, andb_true_r.
Qed.

Lemma noneAhead_check (Date_parse : string -> JSDate.t) (now : Z) (l : list DailyRecord.t) :
  forallb (fun r => match Date_parse (DailyRecord.date r) with
                    | Some tv => negb (DailyRecord.completed r) || (tv <=? now)
                    | None => true
                    end) l = true ->
  noneAhead Date_parse now l.
Proof.
  rewrite forallb_forall. intros H r tv Hin Hc Hd.
  specialize (H r Hin). rewrite Hd, Hc in H. by apply Z.leb_le.
Qed.

(** The denominator of the rate is the constant 30, in [calculateStats]
    and in [calculateMonthlyProgress] alike; five counted days give
    (5/30)*100 and not 100. *)
Lemma completionRate_denominator_30 (Date_parse : string -> JSDate.t) (LocalTZA now : Z)
    (records : list DailyRecord.t) :
  let n := completedSinceThirtyDaysAgo Date_parse now records in
  completionRate (calculateStats Date_parse LocalTZA now records)
    = (inject_Z (Z.of_nat n) / 30 * 100)%Q
  /\ mp_completionRate (calculateMonthlyProgress Date_parse LocalTZA now records)
    = (inject_Z (Z.of_nat n) / 30 * 100)%Q
  /\ mp_completedDays (calculateMonthlyProgress Date_parse LocalTZA now records) = n
  /\ mp_totalDays (calculateMonthlyProgress Date_parse LocalTZA now records) = 30%nat
  /\ (noneAhead Date_parse now records ->
      n = completedInTrailing30Days Date_parse now records)
  /\ (n = 5%nat ->
      (completionRate (calculateStats Date_parse LocalTZA now records) == 5 / 30 * 100)%Q
      /\ ~ (completionRate (calculateStats Date_parse LocalTZA now records) == 100)%Q).
Proof.
  cbn zeta.
  cbn [calculateStats calculateMonthlyProgress completionRate mp_completionRate
       mp_completedDays mp_totalDays].
  rewrite last30Days_count.
  repeat (split; [reflexivity|]).
  split; [intros H; symmetry; by apply completedInTrailing30Days_noneAhead|].
  intros ->. exact rate_of_five.
Qed.

Lemma completionRate_denominator_30_witness :
  let parse := JSDate.parse_iso Samples.brasilia in
  let s := calculateStats parse Samples.brasilia Samples.noon Samples.fiveDays in
  completedSinceThirtyDaysAgo parse Samples.noon Samples.fiveDays
    = completedInTrailing30Days parse Samples.noon Samples.fiveDays
  /\ (completionRate s == 5 / 30 * 100)%Q /\ ~ (completionRate s == 100)%Q.
Proof.
  pose proof (completionRate_denominator_30 (JSDate.parse_iso Samples.brasilia)
                Samples.brasilia Samples.noon Samples.fiveDays) as (_ & _ & _ & _ & Hwin & Hfive).
  split.
  - apply Hwin, noneAhead_check. vm_compute. reflexivity.
  - apply Hfive. vm_compute. reflexivity.
Defined.

Lemma completedInTrailing30Days_le (Date_parse : string -> JSDate.t) (now : Z)
    (l : list DailyRecord.t) :
  (completedInTrailing30Days Date_parse now l
   <= completedSinceThirtyDaysAgo Date_parse now l)%nat.
Proof.
  induction l as [|r l IH]; [reflexivity|].
  cbn [completedInTrailing30Days completedSinceThirtyDaysAgo].
  unfold inTrailing30Days, sinceThirtyDaysAgo.
  destruct (DailyRecord.completed r), (Date_parse (DailyRecord.date r)) as [tv|]; cbn;
    try lia.
  destruct (_ <=? tv), (tv <=? now); cbn; lia.
Qed.

Lemma completedInTrailing30Days_ahead (Date_parse : string -> JSDate.t) (now : Z)
    (l : list DailyRecord.t) (r : DailyRecord.t) (tv : Z) :
  In r l -> DailyRecord.completed r = true ->
  Date_parse (DailyRecord.date r) = Some tv -> now < tv ->
  (completedInTrailing30Days Date_parse now l
   < completedSinceThirtyDaysAgo Date_parse now l)%nat.
Proof.
  intros Hin Hc Hd Hlt. induction l as [|x l IH]; [destruct Hin|].
  cbn [completedInTrailing30Days completedSinceThirtyDaysAgo].
  pose proof (completedInTrailing30Days_le Date_parse now l) as Hle.
  destruct Hin as [->|Hin].
  - unfold inTrailing30Days, sinceThirtyDaysAgo. rewrite Hc, Hd. cbn.
    assert ((tv <=? now) = false) as -> by (apply Z.leb_gt; lia).
    assert ((now - 30 * JSDate.msPerDay <=? tv) = true) as ->
      by (apply Z.leb_le; pose proof msPerDay_pos; lia).
    cbn. lia.
  - specialize (IH Hin).
    unfold inTrailing30Days, sinceThirtyDaysAgo.
    destruct (DailyRecord.completed x), (Date_parse (DailyRecord.date x)) as [tx|]; cbn;
      try lia.
    destruct (_ <=? tx), (tx <=? now); cbn; lia.
Qed.

Lemma rate_strict (a b : nat) :
  (a < b)%nat -> (inject_Z (Z.of_nat a) / 30 * 100 < inject_Z (Z.of_nat b) / 30 * 100)%Q.
Proof. intros H. unfold Qlt, Qdiv, Qmult, Qinv. simpl. lia. Qed.

(** C2. The denominator of [completionRate] is the constant 30, but
    the numerator is not the number of completed records of the
    trailing 30-day window: the window test of the code has no upper
    bound, so that every completed record dated after now is counted
    too. With such a record among the records, [calculateStats] and
    [calculateMonthlyProgress] report more than the rate of the
    trailing window; with none, they report that rate. *)
Theorem completionRate_counts_future_records (Date_parse : string -> JSDate.t)
    (LocalTZA now : Z) (records : list DailyRecord.t) :
  let counted := completedSinceThirtyDaysAgo Date_parse now records in
  let inWindow := completedInTrailing30Days Date_parse now records in
  let rate := completionRate (calculateStats Date_parse LocalTZA now records) in
  rate = (inject_Z (Z.of_nat counted) / 30 * 100)%Q
  /\ mp_completionRate (calculateMonthlyProgress Date_parse LocalTZA now records) = rate
  /\ (inWindow <= counted)%nat
  /\ (noneAhead Date_parse now records ->
      rate = (inject_Z (Z.of_nat inWindow) / 30 * 100)%Q)
  /\ (forall (r : DailyRecord.t) (tv : Z),
        In r records -> DailyRecord.completed r = true ->
        Date_parse (DailyRecord.date r) = Some tv -> now < tv ->
        (inWindow < counted)%nat
        /\ (inject_Z (Z.of_nat inWindow) / 30 * 100 < rate)%Q).
Proof.
  cbn zeta.
  cbn [calculateStats calculateMonthlyProgress completionRate mp_completionRate].
  rewrite last30Days_count.
  split; [reflexivity|]. split; [reflexivity|].
  split; [apply completedInTrailing30Days_le|]. split.
  - intros H. by rewrite completedInTrailing30Days_noneAhead.
  - intros r tv Hin Hc Hd Hlt.
    pose proof (completedInTrailing30Days_ahead Date_parse now records r tv Hin Hc Hd Hlt).
    split; [done | by apply rate_strict].
Qed.

Lemma completionRate_counts_future_records_witness :
  let parse := JSDate.parse_iso Samples.brasilia in
  let records := Samples.day "2024-01-16T09:00:00" 2 true :: Samples.fiveDays in
  completedInTrailing30Days parse Samples.noon records = 5%nat
  /\ (inject_Z (Z.of_nat 5) / 30 * 100
      < completionRate (calculateStats parse Samples.brasilia Samples.noon records))%Q
  /\ (completionRate (calculateStats parse Samples.brasilia Samples.noon records)
      == 6 / 30 * 100)%Q.
Proof.
  intros parse records. split; [reflexivity|]. split; [|by vm_compute].
  pose proof (completionRate_counts_future_records parse Samples.brasilia Samples.noon records)
    as (_ & _ & _ & _ & Hahead).
  apply (Hahead (Samples.day "2024-01-16T09:00:00" 2 true) 1705406400000).
  - by left.
  - reflexivity.
  - vm_compute. reflexivity.
  - vm_compute. reflexivity.
Defined.

(** C10. The window test has a lower bound only (a record passes exactly
    when its date is a valid instant on or after now minus 30 days, so a
    record dated in the future passes) and the rate is not capped: more
    than 30 completed records passing the test give a rate above 100. *)
Theorem completionRate_unbounded (Date_parse : string -> JSDate.t) (LocalTZA now : Z) :
  (forall r : DailyRecord.t,
      inLast30Days Date_parse LocalTZA now r = true <->
      exists tv, Date_parse (DailyRecord.date r) = Some tv /\ now - 30 * JSDate.msPerDay <= tv)
  /\ (forall (r : DailyRecord.t) (tv : Z),
        Date_parse (DailyRecord.date r) = Some tv -> now < tv ->
        inLast30Days Date_parse LocalTZA now r = true)
  /\ (forall records : list DailyRecord.t,
        (30 < length (List.filter DailyRecord.completed
                        (List.filter (inLast30Days Date_parse LocalTZA now) records)))%nat ->
        (100 < completionRate (calculateStats Date_parse LocalTZA now records))%Q).
Proof.
  assert (Hiff : forall r : DailyRecord.t,
      inLast30Days Date_parse LocalTZA now r = true <->
      exists tv, Date_parse (DailyRecord.date r) = Some tv /\ now - 30 * JSDate.msPerDay <= tv).
  { intros r. rewrite inLast30Days_window. unfold sinceThirtyDaysAgo.
    destruct (Date_parse (DailyRecord.date r)) as [tv|].
    - rewrite Z.leb_le. split; [intros H; by exists tv|]. by intros (? & [= <-] & H).
    - split; [discriminate|]. by intros (? & [=] & _). }
  split; [exact Hiff|]. split.
  - intros r tv Hr Hlt. apply Hiff. exists tv. split; [exact Hr|].
    pose proof msPerDay_pos. lia.
  - intros records H. cbn [calculateStats completionRate]. by apply rate_above_100.
Qed.

Lemma completionRate_unbounded_witness :
  inLast30Days (JSDate.parse_iso Samples.brasilia) Samples.brasilia Samples.noon
    (Samples.day "2024-03-31" 2 true) = true
  /\ (100 < completionRate (calculateStats (JSDate.parse_iso Samples.brasilia) Samples.brasilia
                              Samples.noon Samples.thirtyOneAhead))%Q.
Proof.
  pose proof (completionRate_unbounded (JSDate.parse_iso Samples.brasilia) Samples.brasilia
                Samples.noon) as (_ & Hfuture & Hrate).
  split.
  - apply (Hfuture _ 1711843200000); [vm_compute; reflexivity | vm_compute; reflexivity].
  - apply Hrate. vm_compute. lia.
Defined.

Arguments JSDate.toISOString : simpl never.

(** ** The gateway touches the backend only *)

Lemma same_client_refl (w : World) : same_client w w.
Proof. by repeat split. Qed.

Lemma same_client_trans (w1 w2 w3 : World) :
  same_client w1 w2 -> same_client w2 w3 -> same_client w1 w3.
Proof. unfold same_client. intros (?&?&?&?&?) (?&?&?&?&?). repeat split; congruence. Qed.

Lemma gateway_ret {A} (a : A) : gateway_call (ret a).
Proof. intros w. apply same_client_refl. Qed.

Lemma gateway_throw {A} (e : Exn) : gateway_call (@throw A e).
Proof. intros w. apply same_client_refl. Qed.

Lemma gateway_bind {A B} (m : M A) (k : A -> M B) :
  gateway_call m -> (forall a, gateway_call (k a)) -> gateway_call (bind m k).
Proof.
  intros Hm Hk w. unfold bind. specialize (Hm w).
  destruct (m w) as [[a|e] w1]; simpl in *; [|exact Hm].
  eapply same_client_trans; [exact Hm | apply Hk].
Qed.

Lemma gateway_try_catch {A} (body : M A) (handler : Exn -> M A) :
  gateway_call body -> (forall e, gateway_call (handler e)) ->
  gateway_call (try_catch body handler).
Proof.
  intros Hm Hk w. unfold try_catch. specialize (Hm w).
  destruct (body w) as [[a|e] w1]; simpl in *; [exact Hm|].
  eapply same_client_trans; [exact Hm | apply Hk].
Qed.

Lemma gateway_request {A} (answer : Z -> Backend -> Response.t A * Backend) :
  gateway_call (request answer).
Proof.
  intros w. unfold request, bind, take_fault.
  destruct (hd NoFault (faults (backend w))) as [|code|reason]; simpl;
    try destruct (answer _ _); by repeat split.
Qed.

Lemma gateway_nowISOString : gateway_call nowISOString.
Proof. intros w. apply same_client_refl. Qed.

Lemma gateway_throw_if_error (error : option string) :
  gateway_call (SupabaseService.throw_if_error error).
Proof. destruct error; [apply gateway_throw | apply gateway_ret]. Qed.

Lemma gateway_throw_unless_no_rows (error : option string) :
  gateway_call (SupabaseService.throw_unless_no_rows error).
Proof.
  destruct error as [code|]; simpl; [|apply gateway_ret].
  destruct (negb _); [apply gateway_throw | apply gateway_ret].
Qed.

Create HintDb gateway.
#[local] Hint Resolve gateway_ret gateway_throw gateway_request gateway_nowISOString
  gateway_throw_if_error gateway_throw_unless_no_rows : gateway.

Ltac gateway :=
  repeat first
    [ solve [auto with gateway]
    | apply gateway_try_catch; [|intros ?]
    | apply gateway_bind; [|intros ?]
    | match goal with |- gateway_call (match ?x with _ => _ end) => destruct x end ].

Lemma gateway_createDailyRecord (record : DailyRecordInsert.t) :
  gateway_call (SupabaseService.createDailyRecord record).
Proof. unfold SupabaseService.createDailyRecord, SupabaseService.rethrow. gateway. Qed.

Lemma gateway_getDailyRecordByDate (userId date : string) :
  gateway_call (SupabaseService.getDailyRecordByDate userId date).
Proof. unfold SupabaseService.getDailyRecordByDate, SupabaseService.rethrow. gateway. Qed.

Lemma gateway_updateDailyRecord (recordId : string) (updates : DailyRecordUpdate.t) :
  gateway_call (SupabaseService.updateDailyRecord recordId updates).
Proof. unfold SupabaseService.updateDailyRecord, SupabaseService.rethrow. gateway. Qed.

Lemma gateway_deleteDailyRecord (recordId : string) :
  gateway_call (SupabaseService.deleteDailyRecord recordId).
Proof. unfold SupabaseService.deleteDailyRecord, SupabaseService.rethrow. gateway. Qed.

Lemma gateway_markTutorialAsSeen (userId : string) :
  gateway_call (SupabaseService.markTutorialAsSeen userId).
Proof. unfold SupabaseService.markTutorialAsSeen, SupabaseService.rethrow. gateway. Qed.

Lemma gateway_hasUserSeenTutorial (userId : string) :
  gateway_call (SupabaseService.hasUserSeenTutorial userId).
Proof. unfold SupabaseService.hasUserSeenTutorial. gateway. Qed.

Lemma gateway_getUserSettings (userId : string) :
  gateway_call (SupabaseService.getUserSettings userId).
Proof.
  unfold SupabaseService.getUserSettings, SupabaseService.createUserSettings,
    SupabaseService.rethrow. gateway.
Qed.

(** What a gateway call leaves behind, as equations on the new world. *)
Lemma gateway_call_inv {A} (m : M A) (w w' : World) (c : Completion A) :
  gateway_call m -> m w = (c, w') -> same_client w w'.
Proof. intros H E. specialize (H w). by rewrite E in H. Qed.

(** ** Running the record stores *)

Lemma Array_find_Some {A} (p : A -> bool) (l : list A) (x : A) :
  Array_find p l = Some x -> In x l /\ p x = true.
Proof.
  induction l as [|y l IH]; simpl; [discriminate|].
  destruct (p y) eqn:E.
  - intros [= <-]. by split; [left|].
  - intros H. destruct (IH H). by split; [right|].
Qed.

Lemma Array_find_None {A} (p : A -> bool) (l : list A) :
  Array_find p l = None -> forall x, In x l -> p x = false.
Proof.
  induction l as [|y l IH]; simpl; [by intros _ x []|].
  destruct (p y) eqn:E; [discriminate|].
  intros H x [<-|Hx]; [exact E | by apply IH].
Qed.

(** Case analysis on the outcome of the gateway call the goal is waiting
    for, recording that it left the client state alone. *)
Ltac gateway_step :=
  match goal with
  | |- context [SupabaseService.createDailyRecord ?r ?w] =>
      let E := fresh "E" in let F := fresh "F" in
      destruct (SupabaseService.createDailyRecord r w) as [[?|?] ?] eqn:E;
      pose proof (gateway_call_inv _ _ _ _ (gateway_createDailyRecord r) E) as F
  | |- context [SupabaseService.getDailyRecordByDate ?u ?d ?w] =>
      let E := fresh "E" in let F := fresh "F" in
      destruct (SupabaseService.getDailyRecordByDate u d w) as [[?|?] ?] eqn:E;
      pose proof (gateway_call_inv _ _ _ _ (gateway_getDailyRecordByDate u d) E) as F
  | |- context [SupabaseService.updateDailyRecord ?i ?u ?w] =>
      let E := fresh "E" in let F := fresh "F" in
      destruct (SupabaseService.updateDailyRecord i u w) as [[?|?] ?] eqn:E;
      pose proof (gateway_call_inv _ _ _ _ (gateway_updateDailyRecord i u) E) as F
  | |- context [SupabaseService.deleteDailyRecord ?i ?w] =>
      let E := fresh "E" in let F := fresh "F" in
      destruct (SupabaseService.deleteDailyRecord i w) as [[?|?] ?] eqn:E;
      pose proof (gateway_call_inv _ _ _ _ (gateway_deleteDailyRecord i) E) as F
  end.

Ltac run_store :=
  cbv [useFirebaseDailyRecords.createRecord useFirebaseDailyRecords.updateRecord
       useFirebaseDailyRecords.deleteRecord useFirebaseDailyRecords.retryCreate
       FirebaseRecordsProvider.createRecord FirebaseRecordsProvider.updateRecord
       FirebaseRecordsProvider.deleteRecord runTask
       try_catch bind ret throw modify setSyncStatus setTimeout sleep Alert_alert];
  change (with_store (fun s => mkRecordsState (records s) (loading s) (error s) SyncStatus.syncing) ?w)
    with (inFlight w).

Ltac client_facts :=
  repeat match goal with
  | H : same_client _ _ |- _ => destruct H as (? & ? & ? & ? & ?)
  end;
  cbn [clock store tutorial timers alerts with_store with_timers with_alerts with_clock
       with_backend inFlight syncStatus fst snd] in *.

Ltac status_done :=
  client_facts;
  repeat match goal with
  | H : store _ = _ |- _ => rewrite H
  | H : timers _ = _ |- _ => rewrite H
  | H : alerts _ = _ |- _ => rewrite H
  | H : clock _ = _ |- _ => rewrite H
  end;
  cbn [syncStatus]; try reflexivity.

(** What each mutation leaves in [syncStatus], by outcome. *)
Lemma hook_createRecord_status (u : AuthUser.t) (recordData : RecordData.t) (w w' : World)
    (c : Completion unit) :
  useFirebaseDailyRecords.createRecord (Some u) recordData w = (c, w') ->
  syncStatus (store w') =
    match c with Normal _ => SyncStatus.synced | Throw _ => SyncStatus.error end.
Proof.
  run_store. gateway_step; [gateway_step|]; intros [= <- <-]; status_done.
Qed.

Lemma hook_updateRecord_status (recordId : string) (updates : DailyRecordUpdate.t)
    (w w' : World) (c : Completion unit) :
  useFirebaseDailyRecords.updateRecord recordId updates w = (c, w') ->
  syncStatus (store w') =
    match c with Normal _ => SyncStatus.synced | Throw _ => SyncStatus.error end.
Proof. run_store. gateway_step; intros [= <- <-]; status_done. Qed.

Lemma hook_deleteRecord_status (recordId : string) (w w' : World) (c : Completion unit) :
  useFirebaseDailyRecords.deleteRecord recordId w = (c, w') ->
  syncStatus (store w') =
    match c with Normal _ => SyncStatus.synced | Throw _ => SyncStatus.error end.
Proof. run_store. gateway_step; intros [= <- <-]; status_done. Qed.

Lemma provider_updateRecord_status (recordId : string) (updates : DailyRecordUpdate.t)
    (w w' : World) (c : Completion unit) :
  FirebaseRecordsProvider.updateRecord recordId updates w = (c, w') ->
  syncStatus (store w') =
    match c with Normal _ => SyncStatus.synced | Throw _ => SyncStatus.error end.
Proof. run_store. gateway_step; intros [= <- <-]; status_done. Qed.

Lemma provider_deleteRecord_status (recordId : string) (w w' : World) (c : Completion unit) :
  FirebaseRecordsProvider.deleteRecord recordId w = (c, w') ->
  syncStatus (store w') =
    match c with Normal _ => SyncStatus.synced | Throw _ => SyncStatus.error end.
Proof. run_store. gateway_step; intros [= <- <-]; status_done. Qed.

(** The context's [createRecord] never writes [synced]: after a
    successful creation the status is still [syncing]. *)
Lemma provider_createRecord_status (u : AuthUser.t) (recordData : RecordData.t)
    (w w' : World) (c : Completion unit) :
  FirebaseRecordsProvider.createRecord (Some u) recordData w = (c, w') ->
  syncStatus (store w') =
    match c with Normal _ => SyncStatus.syncing | Throw _ => SyncStatus.error end.
Proof.
  run_store. gateway_step; intros [= <- <-]; status_done.
Qed.

Lemma nth_1_hd_tl {A} (l : list A) (d : A) : nth 1 l d = hd d (tl l).
Proof. by destruct l as [|? [|? ?]]. Qed.

Lemma request_run {A} (answer : Z -> Backend -> Response.t A * Backend) (w : World) :
  request answer w =
    let w0 := with_backend (Postgres.set_faults (tl (faults (backend w)))) w in
    match nextFault w with
    | NoFault =>
        (Normal (fst (answer (clock w) (backend w0))),
         with_backend (fun _ => snd (answer (clock w) (backend w0))) w0)
    | ErrorResponse code => (Normal (Response.mk None (Some code)), w0)
    | Rejects reason => (Throw (Rejection reason), w0)
    end.
Proof.
  unfold request, bind, take_fault, nextFault.
  destruct (hd NoFault (faults (backend w))); cbn; [|reflexivity..].
  by destruct (answer _ _).
Qed.

Lemma existsb_false_filter {A} (p : A -> bool) (l : list A) :
  existsb p l = false -> List.filter p l = [].
Proof.
  induction l as [|x l IH]; cbn; [done|].
  destruct (p x); cbn; [done | exact IH].
Qed.

Lemma filter_nil_existsb {A} (p : A -> bool) (l : list A) :
  List.filter p l = [] -> existsb p l = false.
Proof.
  induction l as [|x l IH]; cbn; [done|].
  destruct (p x); cbn; [done | exact IH].
Qed.

Lemma createDailyRecord_outcome (record : DailyRecordInsert.t) (w : World) :
  let rows := daily_records (backend w) in
  let taken :=
    existsb (Postgres.same_user_date (DailyRecordInsert.user_id record)
               (DailyRecordInsert.date record)) rows in
  let row :=
    DailyRecord.mk (Some (Postgres.gen_random_uuid (next_uuid (backend w))))
      (DailyRecordInsert.user_id record) (DailyRecordInsert.date record)
      (DailyRecordInsert.capsules record) (DailyRecordInsert.time record)
      (Some (default ""%string (DailyRecordInsert.notes record)))
      (DailyRecordInsert.completed record)
      (JSDate.toISOString (clock w)) (JSDate.toISOString (clock w)) in
  let w' := snd (SupabaseService.createDailyRecord record w) in
  faults (backend w') = tl (faults (backend w))
  /\ match fst (SupabaseService.createDailyRecord record w) with
     | Normal i =>
         nextFault w = NoFault /\ taken = false /\ i = DailyRecord.id row
         /\ daily_records (backend w') = rows ++ [row]
     | Throw e =>
         daily_records (backend w') = rows
         /\ (nextFault w = NoFault -> taken = true /\ e = PostgrestError "23505")
     end.
Proof.
  cbn zeta.
  unfold SupabaseService.createDailyRecord, SupabaseService.rethrow, try_catch, bind.
  rewrite request_run. cbn zeta. unfold Postgres.insert_daily_record.
  destruct (nextFault w) as [|code|reason] eqn:Hf; cbn.
  - destruct (existsb _ _) eqn:E; cbn; by repeat split.
  - by repeat split.
  - by repeat split.
Qed.

(** C3. When the creation request of [createRecord] fails, the caller is
    rejected at once with that error and exactly one retry of the same
    creation is scheduled 2000 ms later. The retry issues that creation
    again: the backend is left as the creation request for the same
    data and user leaves it, so that when the request gets through and
    the user has no record for the date, the table gains the row with
    the data, the status is [synced] and no alert is raised; when the
    retry fails (a failed request, or a row that exists already) it
    raises one alert, the status is [error] and the table is unchanged;
    it schedules nothing in either case. [updateRecord] and
    [deleteRecord] schedule nothing and reject at once with the first
    error. *)
Theorem createRecord_retry_policy :
  (forall (u : AuthUser.t) (recordData : RecordData.t) (w w1 : World) (e : Exn),
      SupabaseService.createDailyRecord (with_user_id recordData (AuthUser.id u)) (inFlight w)
        = (Throw e, w1) ->
      exists w',
        useFirebaseDailyRecords.createRecord (Some u) recordData w = (Throw e, w')
        /\ clock w' = clock w
        /\ timers w' = timers w ++ [mkTimer (clock w + 2000) (RetryCreate u recordData)]
        /\ alerts w' = alerts w
        /\ syncStatus (store w') = SyncStatus.error
        /\ backend w' = backend w1)
  /\ (forall (u : AuthUser.t) (recordData : RecordData.t) (w : World),
      exists w',
        runTask (RetryCreate u recordData) w = (Normal tt, w')
        /\ timers w' = timers w
        /\ clock w' = clock w
        /\ backend w'
           = backend (snd (SupabaseService.createDailyRecord
                             (with_user_id recordData (AuthUser.id u)) (inFlight w)))
        /\ match SupabaseService.createDailyRecord
                   (with_user_id recordData (AuthUser.id u)) (inFlight w) with
           | (Normal _, _) =>
               alerts w' = alerts w /\ syncStatus (store w') = SyncStatus.synced
           | (Throw _, _) =>
               alerts w' = alerts w ++ [syncErrorAlert]
               /\ syncStatus (store w') = SyncStatus.error
           end)
  /\ (forall (u : AuthUser.t) (recordData : RecordData.t) (w : World),
        nextFault w = NoFault ->
        exists w',
          runTask (RetryCreate u recordData) w = (Normal tt, w')
          /\ match rowsFor (AuthUser.id u) (RecordData.date recordData) (backend w) with
             | [] =>
                 (exists row,
                     daily_records (backend w') = daily_records (backend w) ++ [row]
                     /\ DailyRecord.user_id row = AuthUser.id u
                     /\ DailyRecord.date row = RecordData.date recordData
                     /\ DailyRecord.capsules row = RecordData.capsules recordData
                     /\ DailyRecord.time row = RecordData.time recordData
                     /\ DailyRecord.completed row = RecordData.completed recordData)
                 /\ alerts w' = alerts w
                 /\ syncStatus (store w') = SyncStatus.synced
             | _ :: _ =>
                 daily_records (backend w') = daily_records (backend w)
                 /\ alerts w' = alerts w ++ [syncErrorAlert]
                 /\ syncStatus (store w') = SyncStatus.error
             end)
  /\ (forall (u : AuthUser.t) (recordData : RecordData.t) (w : World),
        nextFault w <> NoFault ->
        exists w',
          runTask (RetryCreate u recordData) w = (Normal tt, w')
          /\ daily_records (backend w') = daily_records (backend w)
          /\ alerts w' = alerts w ++ [syncErrorAlert]
          /\ syncStatus (store w') = SyncStatus.error)
  /\ (forall (recordId : string) (updates : DailyRecordUpdate.t) (w : World),
        timers (snd (useFirebaseDailyRecords.updateRecord recordId updates w)) = timers w
        /\ alerts (snd (useFirebaseDailyRecords.updateRecord recordId updates w)) = alerts w
        /\ forall (e : Exn) (w1 : World),
             SupabaseService.updateDailyRecord recordId updates (inFlight w) = (Throw e, w1) ->
             exists w',
               useFirebaseDailyRecords.updateRecord recordId updates w = (Throw e, w')
               /\ clock w' = clock w)
  /\ (forall (recordId : string) (w : World),
        timers (snd (useFirebaseDailyRecords.deleteRecord recordId w)) = timers w
        /\ alerts (snd (useFirebaseDailyRecords.deleteRecord recordId w)) = alerts w
        /\ forall (e : Exn) (w1 : World),
             SupabaseService.deleteDailyRecord recordId (inFlight w) = (Throw e, w1) ->
             exists w',
               useFirebaseDailyRecords.deleteRecord recordId w = (Throw e, w')
               /\ clock w' = clock w).
Proof.
  assert (Hretry : forall (u : AuthUser.t) (recordData : RecordData.t) (w : World),
      exists w',
        runTask (RetryCreate u recordData) w = (Normal tt, w')
        /\ timers w' = timers w
        /\ clock w' = clock w
        /\ backend w'
           = backend (snd (SupabaseService.createDailyRecord
                             (with_user_id recordData (AuthUser.id u)) (inFlight w)))
        /\ match SupabaseService.createDailyRecord
                   (with_user_id recordData (AuthUser.id u)) (inFlight w) with
           | (Normal _, _) =>
               alerts w' = alerts w /\ syncStatus (store w') = SyncStatus.synced
           | (Throw _, _) =>
               alerts w' = alerts w ++ [syncErrorAlert]
               /\ syncStatus (store w') = SyncStatus.error
           end).
  { intros u recordData w. run_store.
    gateway_step; (eexists; split; [reflexivity|]); repeat split; status_done. }
  split; [|split; [exact Hretry|split; [|split; [|split]]]].
  - intros u recordData w w1 e H.
    pose proof (gateway_call_inv _ _ _ _ (gateway_createDailyRecord _) H) as F.
    run_store. rewrite H. eexists. split; [reflexivity|]. repeat split; status_done.
  - intros u recordData w Hf. destruct (Hretry u recordData w) as (w' & E & _ & _ & Hb & Hc).
    exists w'. split; [exact E|].
    pose proof (createDailyRecord_outcome (with_user_id recordData (AuthUser.id u))
                  (inFlight w)) as Hout.
    cbn zeta in Hout. cbn [backend inFlight with_store clock] in Hout.
    change (nextFault (inFlight w)) with (nextFault w) in Hout.
    unfold rowsFor.
    destruct (SupabaseService.createDailyRecord _ (inFlight w)) as [[i|e] w0];
      cbn [fst snd] in *; rewrite Hb.
    + destruct Hout as (_ & _ & Hfree & _ & Hrows). cbn in Hfree.
      rewrite (existsb_false_filter _ _ Hfree).
      split; [|exact Hc]. eexists. split; [exact Hrows|]. by repeat split.
    + destruct Hout as (_ & Hrows & Htaken). destruct (Htaken Hf) as [Htaken' _].
      cbn in Htaken'.
      destruct (List.filter _ _) eqn:Efilter;
        [apply filter_nil_existsb in Efilter; congruence|].
      by split.
  - intros u recordData w Hf. destruct (Hretry u recordData w) as (w' & E & _ & _ & Hb & Hc).
    exists w'. split; [exact E|].
    pose proof (createDailyRecord_outcome (with_user_id recordData (AuthUser.id u))
                  (inFlight w)) as Hout.
    cbn zeta in Hout. cbn [backend inFlight with_store clock] in Hout.
    change (nextFault (inFlight w)) with (nextFault w) in Hout.
    destruct (SupabaseService.createDailyRecord _ (inFlight w)) as [[i|e] w0];
      cbn [fst snd] in *; rewrite Hb.
    + by destruct Hout as (_ & Hnone & _).
    + destruct Hout as (_ & Hrows & _). by split.
  - intros recordId updates w. run_store. repeat split.
    + gateway_step; status_done.
    + gateway_step; status_done.
    + intros e w1 H.
      pose proof (gateway_call_inv _ _ _ _ (gateway_updateDailyRecord _ _) H) as F.
      rewrite H. eexists. split; [reflexivity|]. status_done.
  - intros recordId w. run_store. repeat split.
    + gateway_step; status_done.
    + gateway_step; status_done.
    + intros e w1 H.
      pose proof (gateway_call_inv _ _ _ _ (gateway_deleteDailyRecord _) H) as F.
      rewrite H. eexists. split; [reflexivity|]. status_done.
Qed.

Lemma createRecord_retry_policy_witness :
  let w := Samples.world (Samples.offline 1) in
  exists (w' w'' : World) (row : DailyRecord.t),
    useFirebaseDailyRecords.createRecord (Some Samples.alice) Samples.newRecord w
      = (Throw (PostgrestError "503"), w')
    /\ clock w' = clock w
    /\ timers w' = [mkTimer (clock w + 2000) (RetryCreate Samples.alice Samples.newRecord)]
    /\ daily_records (backend w') = []
    /\ runTask (RetryCreate Samples.alice Samples.newRecord) w' = (Normal tt, w'')
    /\ daily_records (backend w'') = [row]
    /\ DailyRecord.date row = "2024-01-15"%string
    /\ DailyRecord.capsules row = 2
    /\ alerts w'' = []
    /\ syncStatus (store w'') = SyncStatus.synced.
Proof.
  intros w.
  destruct createRecord_retry_policy as (Hfirst & _ & Hagain & _).
  destruct (Hfirst Samples.alice Samples.newRecord w
              (snd (SupabaseService.createDailyRecord
                      (with_user_id Samples.newRecord (AuthUser.id Samples.alice))
                      (inFlight w)))
              (PostgrestError "503"))
    as (w' & E & Hclock & Htimers & Halerts & _ & Hbackend); [vm_compute; reflexivity|].
  destruct (Hagain Samples.alice Samples.newRecord w') as (w'' & E' & Hcase).
  { unfold nextFault. by rewrite Hbackend. }
  unfold rowsFor in Hcase. rewrite Hbackend in Hcase. cbn in Hcase.
  destruct Hcase as ((row & Hrows & _ & Hdate & Hcapsules & _) & Halerts' & Hstatus).
  exists w', w'', row. split; [exact E|]. split; [exact Hclock|]. split; [exact Htimers|].
  split; [by rewrite Hbackend|]. split; [exact E'|]. split; [exact Hrows|].
  split; [exact Hdate|]. split; [exact Hcapsules|]. split; [by rewrite Halerts', Halerts|].
  exact Hstatus.
Defined.

(** The scenario of the specification: the creation fails once and the
    retry succeeds; the status ends as [synced] and the table holds one
    record for that date. *)
Example retry_succeeds :
  let w := Samples.world (Samples.offline 1) in
  let w1 := snd (useFirebaseDailyRecords.createRecord (Some Samples.alice) Samples.newRecord w) in
  let w2 := snd (runNextTimer w1) in
  syncStatus (store w1) = SyncStatus.error
  /\ syncStatus (store w2) = SyncStatus.synced
  /\ clock w2 = clock w + 2000
  /\ map DailyRecord.date (daily_records (backend w2)) = ["2024-01-15"%string]
  /\ timers w2 = [] /\ alerts w2 = [].
Proof. vm_compute. repeat split. Qed.

(** The context's [createRecord] has no retry. *)
Remark provider_createRecord_no_retry (u : AuthUser.t) (recordData : RecordData.t) (w : World) :
  timers (snd (FirebaseRecordsProvider.createRecord (Some u) recordData w)) = timers w.
Proof. run_store. gateway_step; status_done. Qed.

(** C5. The status is one of [synced], [syncing], [error]; a mutation
    in flight sets [syncing], its success [synced], its failure [error].
    The context's [createRecord] breaks this: after a successful
    creation the status is [syncing], not [synced]. *)
Theorem provider_createRecord_stays_syncing :
  let w := Samples.world Samples.emptyBackend in
  exists w',
    FirebaseRecordsProvider.createRecord (Some Samples.alice) Samples.newRecord w
      = (Normal tt, w')
    /\ map DailyRecord.date (daily_records (backend w')) = ["2024-01-15"%string]
    /\ syncStatus (store w') = SyncStatus.syncing
    /\ syncStatus (store w') <> SyncStatus.synced.
Proof.
  intros w. eexists. split; [vm_compute; reflexivity|].
  split; [reflexivity|]. split; [reflexivity|]. discriminate.
Qed.

(** ** Looking a record up by date *)

Lemma getDailyRecordByDate_answered (userId date : string) (w : World) :
  nextFault w = NoFault ->
  fst (SupabaseService.getDailyRecordByDate userId date w) =
    Normal (match List.filter (Postgres.same_user_date userId date) (daily_records (backend w)) with
            | [x] => Some x
            | _ => None
            end).
Proof.
  unfold nextFault. intros H.
  unfold SupabaseService.getDailyRecordByDate, SupabaseService.rethrow, request, take_fault,
    try_catch, bind, Postgres.select_daily_record.
  rewrite H. simpl. destruct (List.filter _ _) as [|x [|y l]]; reflexivity.
Qed.

(** C6. [getRecordByDate] never throws, in either record store: it
    returns the cached record with that date when there is one;
    otherwise what the backend lookup returns (the record, or null when
    there is none), and null when the lookup fails or when no user is
    authenticated. *)
Theorem getRecordByDate_never_throws (user : option AuthUser.t) (date : string) (w : World) :
  FirebaseRecordsProvider.getRecordByDate user date w
    = useFirebaseDailyRecords.getRecordByDate user date w
  /\ exists (r : option DailyRecord.t) (w' : World),
      useFirebaseDailyRecords.getRecordByDate user date w = (Normal r, w')
      /\ match user with
         | None => r = None /\ w' = w
         | Some u =>
             match Array_find (fun x => String.eqb (DailyRecord.date x) date) (records (store w)) with
             | Some x =>
                 r = Some x /\ w' = w /\ In x (records (store w)) /\ DailyRecord.date x = date
             | None =>
                 (forall x, In x (records (store w)) -> DailyRecord.date x <> date)
                 /\ match SupabaseService.getDailyRecordByDate (AuthUser.id u) date w with
                    | (Normal found, w1) => r = found /\ w' = w1
                    | (Throw _, w1) => r = None /\ w' = w1
                    end
                 /\ (nextFault w = NoFault ->
                     r = match List.filter (Postgres.same_user_date (AuthUser.id u) date)
                                 (daily_records (backend w)) with
                         | [x] => Some x
                         | _ => None
                         end)
             end
         end.
Proof.
  split; [reflexivity|].
  destruct user as [u|]; [|by exists None, w].
  cbv [useFirebaseDailyRecords.getRecordByDate try_catch bind gets ret].
  destruct (Array_find _ _) as [x|] eqn:Hfind.
  - exists (Some x), w. split; [reflexivity|].
    apply Array_find_Some in Hfind as [Hin Hx]. apply String.eqb_eq in Hx. by repeat split.
  - pose proof (Array_find_None _ _ Hfind) as Hnone.
    pose proof (getDailyRecordByDate_answered (AuthUser.id u) date w) as Hans.
    destruct (SupabaseService.getDailyRecordByDate (AuthUser.id u) date w) as [[found|e] w1];
      (eexists _, _; split; [reflexivity|]); (split; [|split; [by split|]]).
    + intros x Hx E. specialize (Hnone x Hx). apply String.eqb_neq in Hnone. contradiction.
    + intros Hf. specialize (Hans Hf). simpl in Hans. congruence.
    + intros x Hx E. specialize (Hnone x Hx). apply String.eqb_neq in Hnone. contradiction.
    + intros Hf. specialize (Hans Hf). discriminate Hans.
Qed.

Lemma getRecordByDate_never_throws_witness :
  fst (useFirebaseDailyRecords.getRecordByDate (Some Samples.alice) "2024-01-16"
         (Samples.world Samples.emptyBackend)) = Normal None
  /\ fst (useFirebaseDailyRecords.getRecordByDate (Some Samples.alice) "2024-01-14T08:00:00"
            Samples.cached) = Normal (Some (Samples.day "2024-01-14T08:00:00" 1 true)).
Proof.
  split.
  - destruct (getRecordByDate_never_throws (Some Samples.alice) "2024-01-16"
                (Samples.world Samples.emptyBackend)) as (_ & r & w' & E & H).
    rewrite E. cbn [fst]. f_equal.
    change (Array_find _ _) with (@None DailyRecord.t) in H.
    destruct H as (_ & _ & H). apply H. reflexivity.
  - destruct (getRecordByDate_never_throws (Some Samples.alice) "2024-01-14T08:00:00"
                Samples.cached) as (_ & r & w' & E & H).
    rewrite E. cbn [fst]. f_equal.
    change (Array_find _ _) with (Some (Samples.day "2024-01-14T08:00:00" 1 true)) in H.
    by destruct H as (-> & _).
Defined.

(** ** The onboarding gate *)

Ltac run_gateway :=
  cbv [SupabaseService.hasUserSeenTutorial SupabaseService.markTutorialAsSeen
       SupabaseService.getUserSettings SupabaseService.createUserSettings
       SupabaseService.rethrow SupabaseService.throw_if_error
       SupabaseService.throw_unless_no_rows SupabaseService.defaultSettings
       Postgres.select_has_seen_tutorial Postgres.update_has_seen_tutorial
       Postgres.select_user_settings Postgres.insert_user_settings
       request take_fault nowISOString gets
       try_catch try_finally bind ret throw modify setShowTutorial setTutorialLoading].

Lemma hasUserSeenTutorial_answer (userId : string) (w : World) :
  fst (SupabaseService.hasUserSeenTutorial userId w) = Normal (seenAnswer w userId).
Proof.
  unfold seenAnswer, nextFault, storedFlag, flagIn. run_gateway.
  destruct (hd NoFault (faults (backend w))) as [|code|reason]; cbn.
  - destruct (user_profiles (backend w) !! userId) as [p|]; cbn; [|reflexivity].
    by destruct (UserProfile.has_seen_tutorial p) as [[]|].
  - by destruct (String.eqb code "PGRST116").
  - reflexivity.
Qed.

Lemma checkTutorialStatus_shows (u : AuthUser.t) (w : World) :
  exists w',
    useTutorial.checkTutorialStatus (Some u) true w = (Normal tt, w')
    /\ showTutorial (tutorial w') = negb (seenAnswer w (AuthUser.id u)).
Proof.
  pose proof (hasUserSeenTutorial_answer (AuthUser.id u)
                (with_tutorial (fun s => mkTutorialState (showTutorial s) true) w)) as H.
  change (seenAnswer (with_tutorial _ w) (AuthUser.id u)) with (seenAnswer w (AuthUser.id u)) in H.
  pose proof (gateway_hasUserSeenTutorial (AuthUser.id u)
                (with_tutorial (fun s => mkTutorialState (showTutorial s) true) w)) as F.
  cbv [useTutorial.checkTutorialStatus useTutorial.checkTutorialStatus_with
       try_finally try_catch bind modify setShowTutorial setTutorialLoading].
  destruct (SupabaseService.hasUserSeenTutorial _ _) as [[b|e] w1]; cbn [fst snd] in *;
    [|discriminate H].
  injection H as ->.
  destruct (seenAnswer w (AuthUser.id u)); eexists; (split; [reflexivity|]); reflexivity.
Qed.

(** C7. When the read of the tutorial flag fails the tutorial is not
    shown: the error handler of [hasUserSeenTutorial] answers [true] and
    the error handler of [checkTutorialStatus] sets [showTutorial] to
    [false]. The tutorial is shown exactly when the read does not fail
    and the stored flag is not [true]; in particular an absent profile
    row or an absent [has_seen_tutorial] field is read as [false] and
    the tutorial is shown. *)
Theorem tutorial_gate_read_failure :
  (forall (userId : string) (w : World),
      readFails (nextFault w) ->
      fst (SupabaseService.hasUserSeenTutorial userId w) = Normal true)
  /\ (forall (u : AuthUser.t) (w : World),
        readFails (nextFault w) ->
        exists w',
          useTutorial.checkTutorialStatus (Some u) true w = (Normal tt, w')
          /\ showTutorial (tutorial w') = false)
  /\ (forall (hasUserSeenTutorial : string -> M bool) (u : AuthUser.t) (w w1 : World) (e : Exn),
        hasUserSeenTutorial (AuthUser.id u) (snd (setTutorialLoading true w)) = (Throw e, w1) ->
        exists w',
          useTutorial.checkTutorialStatus_with hasUserSeenTutorial (Some u) true w
            = (Normal tt, w')
          /\ showTutorial (tutorial w') = false)
  /\ (forall (u : AuthUser.t) (w : World),
        exists w',
          useTutorial.checkTutorialStatus (Some u) true w = (Normal tt, w')
          /\ (showTutorial (tutorial w') = true <->
              ~ readFails (nextFault w)
              /\ (nextFault w = NoFault -> storedFlag w (AuthUser.id u) <> Some true)))
  /\ (forall (u : AuthUser.t) (w : World),
        nextFault w = NoFault ->
        storedFlag w (AuthUser.id u) = None ->
        exists w',
          useTutorial.checkTutorialStatus (Some u) true w = (Normal tt, w')
          /\ showTutorial (tutorial w') = true).
Proof.
  assert (Hfail : forall w userId, readFails (nextFault w) -> seenAnswer w userId = true).
  { intros w userId. unfold seenAnswer. destruct (nextFault w) as [|code|reason]; simpl;
      [intros [] | | reflexivity].
    intros Hne. apply String.eqb_neq in Hne. by rewrite Hne. }
  split; [|split; [|split; [|split]]].
  - intros userId w Hf. rewrite hasUserSeenTutorial_answer. f_equal. by apply Hfail.
  - intros u w Hf. destruct (checkTutorialStatus_shows u w) as (w' & E & Hs).
    exists w'. split; [exact E|]. rewrite Hs, Hfail; [reflexivity | exact Hf].
  - intros callee u w w1 e H.
    cbv [useTutorial.checkTutorialStatus_with try_finally try_catch bind modify
         setShowTutorial setTutorialLoading snd] in *.
    rewrite H. eexists. split; reflexivity.
  - intros u w. destruct (checkTutorialStatus_shows u w) as (w' & E & Hs).
    exists w'. split; [exact E|]. rewrite Hs. unfold seenAnswer.
    destruct (nextFault w) as [|code|reason]; simpl.
    + destruct (storedFlag w (AuthUser.id u)) as [[]|]; simpl.
      * split; [discriminate|]. intros [_ H]. by destruct H.
      * split; [|reflexivity]. intros _. split; [tauto | intros _; discriminate].
      * split; [|reflexivity]. intros _. split; [tauto | intros _; discriminate].
    + destruct (String.eqb_spec code "PGRST116") as [->|Hne]; simpl.
      * split; [|reflexivity]. intros _. split; [intros H; by apply H | discriminate].
      * split; [discriminate|]. intros [H _]. by destruct H.
    + split; [discriminate|]. intros [H _]. by destruct H.
  - intros u w Hf Hflag. destruct (checkTutorialStatus_shows u w) as (w' & E & Hs).
    exists w'. split; [exact E|]. rewrite Hs. unfold seenAnswer. by rewrite Hf, Hflag.
Qed.

Lemma tutorial_gate_read_failure_witness :
  fst (SupabaseService.hasUserSeenTutorial "alice" (Samples.world (Samples.offline 1)))
    = Normal true
  /\ (exists w',
        useTutorial.checkTutorialStatus (Some Samples.alice) true
          (Samples.world (Samples.offline 1)) = (Normal tt, w')
        /\ showTutorial (tutorial w') = false)
  /\ (exists w',
        useTutorial.checkTutorialStatus (Some Samples.alice) true
          (Samples.world Samples.emptyBackend) = (Normal tt, w')
        /\ showTutorial (tutorial w') = true).
Proof.
  destruct tutorial_gate_read_failure as (H1 & H2 & _ & _ & H5).
  split; [|split].
  - apply H1. vm_compute. discriminate.
  - apply H2. vm_compute. discriminate.
  - apply H5; reflexivity.
Defined.

Lemma flagIn_alter (m : gmap string UserProfile.t) (k uid stamp : string) (v : bool) :
  flagIn (alter (Postgres.set_has_seen_tutorial v stamp) k m) uid =
    if decide (k = uid)
    then match m !! uid with Some _ => Some v | None => None end
    else flagIn m uid.
Proof.
  unfold flagIn. rewrite lookup_alter. case_decide as E; [subst k|reflexivity].
  by destruct (m !! uid).
Qed.

(** [completeTutorial] always completes normally and hides the
    tutorial; the flag is written when the update reaches the backend. *)
Lemma completeTutorial_run (u : AuthUser.t) (w : World) :
  exists w',
    useTutorial.completeTutorial (Some u) w = (Normal tt, w')
    /\ showTutorial (tutorial w') = false
    /\ user_profiles (backend w') =
         match nextFault w with
         | NoFault =>
             alter (Postgres.set_has_seen_tutorial true (JSDate.toISOString (clock w)))
                   (AuthUser.id u) (user_profiles (backend w))
         | _ => user_profiles (backend w)
         end.
Proof.
  unfold nextFault. cbv [useTutorial.completeTutorial]. run_gateway.
  destruct (hd NoFault (faults (backend w))) as [|code|reason]; cbn;
    eexists; (split; [reflexivity|]); split; reflexivity.
Qed.

Lemma skipTutorial_completeTutorial (user : option AuthUser.t) (w : World) :
  useTutorial.skipTutorial user w = useTutorial.completeTutorial user w.
Proof.
  unfold useTutorial.skipTutorial, bind, ret.
  destruct user as [u|]; [|reflexivity].
  destruct (completeTutorial_run u w) as (w' & -> & _). reflexivity.
Qed.




(** ** Settings *)

(** C9. Reading the settings of a user who has no row creates the row
    with the fixed defaults and returns those defaults; a stored row is
    returned as it is; and the result is never null: [getUserSettings]
    returns settings or throws. *)
Theorem getUserSettings_lazy_defaults (userId : string) (w : World) :
  (forall (c : Completion (option UserSettings.t)) (w' : World),
      SupabaseService.getUserSettings userId w = (c, w') -> c <> Normal None)
  /\ (user_settings (backend w) !! userId = None ->
      fault_at 0 w = NoFault -> fault_at 1 w = NoFault ->
      let stamp := JSDate.toISOString (clock w) in
      let defaults := UserSettings.mk userId true "09:00" 2 14 light en stamp stamp in
      exists w',
        SupabaseService.getUserSettings userId w = (Normal (Some defaults), w')
        /\ user_settings (backend w') = <[userId := defaults]> (user_settings (backend w)))
  /\ (forall s : UserSettings.t,
        user_settings (backend w) !! userId = Some s ->
        nextFault w = NoFault ->
        exists w',
          SupabaseService.getUserSettings userId w = (Normal (Some s), w')
          /\ user_settings (backend w') = user_settings (backend w)).
Proof.
  unfold nextFault, fault_at. split; [|split].
  - intros c w'. run_gateway.
    destruct (hd NoFault (faults (backend w))) as [|code|reason]; cbn.
    + destruct (user_settings (backend w) !! userId); cbn; [by intros [= <- _]|].
      destruct (hd NoFault (tl (faults (backend w)))) as [|code|reason]; cbn;
        rewrite ?lookup_insert_eq; try destruct (user_settings (backend w) !! userId);
        by intros [= <- _].
    + destruct (String.eqb code "PGRST116"); cbn; [|by intros [= <- _]].
      destruct (hd NoFault (tl (faults (backend w)))) as [|code'|reason]; cbn;
        try destruct (user_settings (backend w) !! userId); by intros [= <- _].
    + by intros [= <- _].
  - intros Hnone H0 H1. cbn zeta. run_gateway.
    assert (H0' : hd NoFault (faults (backend w)) = NoFault)
      by (destruct (faults (backend w)); exact H0).
    assert (H1' : hd NoFault (tl (faults (backend w))) = NoFault)
      by (destruct (faults (backend w)) as [|? [|? ?]]; exact H1).
    rewrite H0'. cbn. rewrite Hnone. cbn. rewrite H1'. cbn. rewrite Hnone. cbn.
    eexists. split; reflexivity.
  - intros s Hs H0. run_gateway. rewrite H0. cbn. rewrite Hs. cbn.
    eexists. split; reflexivity.
Qed.

Lemma getUserSettings_lazy_defaults_witness :
  (exists w',
      SupabaseService.getUserSettings "alice" (Samples.world Samples.emptyBackend)
        = (Normal (Some (UserSettings.mk "alice" true "09:00" 2 14 light en
                           "2024-01-15T15:30:00.000Z" "2024-01-15T15:30:00.000Z")), w')
      /\ user_settings (backend w') !! "alice"%string
         = Some (UserSettings.mk "alice" true "09:00" 2 14 light en
                   "2024-01-15T15:30:00.000Z" "2024-01-15T15:30:00.000Z"))
  /\ fst (SupabaseService.getUserSettings "alice"
            (Samples.world (mkBackend ∅ {[ "alice"%string := Samples.settings ]} [] 0 [])))
     = Normal (Some Samples.settings).
Proof.
  split.
  - destruct (getUserSettings_lazy_defaults "alice" (Samples.world Samples.emptyBackend))
      as (_ & Hcreate & _).
    destruct Hcreate as (w' & E & Hrow); [reflexivity..|].
    exists w'. split; [exact E|]. rewrite Hrow. apply lookup_insert_eq.
  - destruct (getUserSettings_lazy_defaults "alice"
                (Samples.world (mkBackend ∅ {[ "alice"%string := Samples.settings ]} [] 0 [])))
      as (_ & _ & Hkeep).
    destruct (Hkeep Samples.settings) as (w' & E & _); [reflexivity..|].
    by rewrite E.
Defined.

(** * Further properties of the code *)

(** ** Password rules *)

Section PasswordRules.
Import PasswordRecoveryService.

Lemma validatePasswordStrength_strength (password : list N) :
  strength (validatePasswordStrength password) = strengthOf (score password).
Proof.
  unfold validatePasswordStrength, score, classes, strengthOf.
  destruct (Nat.ltb_spec (length password) 6), (Nat.leb_spec 8 (length password)),
    (Nat.leb_spec 6 (length password)); try lia;
    destruct (test lowercase password), (test uppercase password), (test digit password),
      (test special password); reflexivity.
Qed.

Lemma validatePasswordStrength_errors (password : list N) :
  errors (validatePasswordStrength password) =
    (if (length password <? 6)%nat then [tooShort] else [])
    ++ (if test lowercase password then [] else [noLowercase]).
Proof.
  unfold validatePasswordStrength.
  destruct (length password <? 6)%nat, (test lowercase password); reflexivity.
Qed.

Lemma validatePasswordStrength_isValid (password : list N) :
  isValid (validatePasswordStrength password)
  = (6 <=? length password)%nat && test lowercase password.
Proof.
  unfold validatePasswordStrength.
  destruct (Nat.ltb_spec (length password) 6), (Nat.leb_spec 6 (length password));
    try lia; destruct (test lowercase password); reflexivity.
Qed.

Lemma isValid_iff (password : list N) :
  isValid (validatePasswordStrength password) = true
  <-> (6 <= length password)%nat /\ test lowercase password = true.
Proof. by rewrite validatePasswordStrength_isValid, andb_true_iff, Nat.leb_le. Qed.

(** X1. A password is valid exactly when it has at least 6 code units
    and a lowercase letter (upper case, digits and special characters
    play no part), and exactly then the list of errors is empty. *)
Theorem validatePasswordStrength_valid (password : list N) :
  let r := validatePasswordStrength password in
  (isValid r = true <-> (6 <= length password)%nat /\ test lowercase password = true)
  /\ (errors r = [] <-> isValid r = true)
  /\ (forall e, In e (errors r) -> e = tooShort \/ e = noLowercase).
Proof.
  cbn zeta.
  rewrite validatePasswordStrength_isValid, validatePasswordStrength_errors,
    andb_true_iff, Nat.leb_le.
  split; [reflexivity|]. split.
  - destruct (Nat.ltb_spec (length password) 6), (test lowercase password); simpl;
      (split;
       [ first [discriminate | intros _; split; [lia | reflexivity]]
       | first [intros [? ?]; (lia || discriminate) | intros; reflexivity] ]).
  - intros e. destruct (length password <? 6)%nat, (test lowercase password); simpl;
      intuition (subst; auto).
Qed.

Lemma validatePasswordStrength_valid_witness :
  isValid (validatePasswordStrength (codeUnits "abcdef")) = true
  /\ errors (validatePasswordStrength (codeUnits "ABCDEF12!")) = [noLowercase].
Proof.
  split.
  - apply (proj1 (validatePasswordStrength_valid (codeUnits "abcdef"))).
    split; [vm_compute; lia | reflexivity].
  - reflexivity.
Defined.

(** X2. A password shorter than 6 is never valid and never strong; a
    strong password has at least 6 code units and three of the four
    character classes, and all four when it is shorter than 8; a
    password with 8 code units and three classes is strong; validity is
    no condition of strength. *)
Theorem validatePasswordStrength_strong (password : list N) :
  let r := validatePasswordStrength password in
  ((length password < 6)%nat -> isValid r = false /\ strength r <> strong)
  /\ (strength r = strong -> (6 <= length password)%nat /\ (3 <= classes password)%nat)
  /\ ((length password < 8)%nat -> strength r = strong -> classes password = 4%nat)
  /\ ((8 <= length password)%nat -> (3 <= classes password)%nat -> strength r = strong)
  /\ (test lowercase password = false -> isValid r = false).
Proof.
  cbn zeta. rewrite validatePasswordStrength_strength.
  pose proof (isValid_iff password) as Hv.
  assert (Hc : (classes password <= 4)%nat).
  { unfold classes. destruct (test lowercase password), (test uppercase password),
      (test digit password), (test special password); simpl; lia. }
  assert (Hstrong : strengthOf (score password) = strong <-> (5 <= score password)%nat).
  { unfold strengthOf.
    destruct (Nat.leb_spec (score password) 2), (Nat.leb_spec (score password) 4);
      split; (discriminate || lia || reflexivity). }
  assert (Hinvalid : ~ ((6 <= length password)%nat /\ test lowercase password = true) ->
                     isValid (validatePasswordStrength password) = false).
  { intros Hn. apply not_true_is_false. intros E. by apply Hv in E. }
  rewrite Hstrong. unfold score.
  destruct (Nat.leb_spec 6 (length password)), (Nat.leb_spec 8 (length password));
    cbn [Nat.b2n]; (split; [|split; [|split; [|split]]]); try lia.
  all: try (intros Hlt; split; [apply Hinvalid; lia | lia]).
  all: try (intros Hlow; apply Hinvalid; rewrite Hlow; intros [_ ?]; discriminate).
Qed.

Lemma validatePasswordStrength_strong_witness :
  strength (validatePasswordStrength (codeUnits "ABCDEF12!")) = strong
  /\ isValid (validatePasswordStrength (codeUnits "ABCDEF12!")) = false
  /\ strength (validatePasswordStrength (codeUnits "aB1!x")) <> strong.
Proof.
  pose proof (validatePasswordStrength_strong (codeUnits "ABCDEF12!")) as (_ & _ & _ & H4 & H5).
  pose proof (validatePasswordStrength_strong (codeUnits "aB1!x")) as (H1 & _).
  split; [|split].
  - apply H4; vm_compute; lia.
  - apply H5. reflexivity.
  - apply H1. vm_compute. lia.
Defined.

Lemma test_app (class : N -> bool) (s1 s2 : list N) :
  test class (s1 ++ s2) = test class s1 || test class s2.
Proof. apply existsb_app. Qed.

Lemma score_app_l (s1 s2 : list N) : (score s1 <= score (s1 ++ s2))%nat.
Proof.
  unfold score, classes. rewrite !test_app, length_app.
  assert (Hb : forall a b : bool, (Nat.b2n a <= Nat.b2n (a || b))%nat) by (by intros [] []; simpl; lia).
  pose proof (Hb (test lowercase s1) (test lowercase s2)).
  pose proof (Hb (test uppercase s1) (test uppercase s2)).
  pose proof (Hb (test digit s1) (test digit s2)).
  pose proof (Hb (test special s1) (test special s2)).
  destruct (Nat.leb_spec 6 (length s1)), (Nat.leb_spec 8 (length s1)),
    (Nat.leb_spec 6 (length s1 + length s2)), (Nat.leb_spec 8 (length s1 + length s2));
    simpl; lia.
Qed.

Lemma score_app_r (s1 s2 : list N) : (score s2 <= score (s1 ++ s2))%nat.
Proof.
  unfold score, classes. rewrite !test_app, length_app.
  assert (Hb : forall a b : bool, (Nat.b2n b <= Nat.b2n (a || b))%nat) by (by intros [] []; simpl; lia).
  pose proof (Hb (test lowercase s1) (test lowercase s2)).
  pose proof (Hb (test uppercase s1) (test uppercase s2)).
  pose proof (Hb (test digit s1) (test digit s2)).
  pose proof (Hb (test special s1) (test special s2)).
  destruct (Nat.leb_spec 6 (length s2)), (Nat.leb_spec 8 (length s2)),
    (Nat.leb_spec 6 (length s1 + length s2)), (Nat.leb_spec 8 (length s1 + length s2));
    simpl; lia.
Qed.

Lemma rank_strengthOf_mono (a b : nat) :
  (a <= b)%nat -> (rank (strengthOf a) <= rank (strengthOf b))%nat.
Proof.
  intros H. unfold strengthOf.
  destruct (Nat.leb_spec a 2), (Nat.leb_spec a 4), (Nat.leb_spec b 2), (Nat.leb_spec b 4);
    simpl; lia.
Qed.

(** X3. Adding characters to a password, in front or behind, never
    lowers its strength and never makes a valid password invalid. *)
Theorem validatePasswordStrength_extension (before password after : list N) :
  let r := validatePasswordStrength password in
  let r' := validatePasswordStrength (before ++ password ++ after) in
  (rank (strength r) <= rank (strength r'))%nat
  /\ (isValid r = true -> isValid r' = true).
Proof.
  cbn zeta. split.
  - rewrite !validatePasswordStrength_strength. apply rank_strengthOf_mono.
    etransitivity; [apply (score_app_l password after) | apply score_app_r].
  - intros H. apply isValid_iff in H as [Hlen Hlow]. apply isValid_iff.
    rewrite !length_app, !test_app, Hlow. split; [lia|].
    by rewrite orb_true_r.
Qed.

Lemma validatePasswordStrength_extension_witness :
  isValid (validatePasswordStrength (codeUnits "Xabcdef9")) = true.
Proof.
  apply (proj2 (validatePasswordStrength_extension
                  (codeUnits "X") (codeUnits "abcdef") (codeUnits "9"))).
  reflexivity.
Defined.

End PasswordRules.

(** ** Bounds of the statistics *)

Lemma streakLoop_bound (Date_parse : string -> JSDate.t) (LocalTZA now : Z)
    (l : list DailyRecord.t) (i : Z) (acc : nat) :
  (acc <= streakLoop Date_parse LocalTZA now i l acc <= acc + length l)%nat.
Proof.
  revert i acc. induction l as [|r l IH]; intros i acc; cbn [streakLoop length]; [lia|].
  destruct (JSDate.DateString_eqb _ _); [|lia].
  specialize (IH (i + 1) (S acc)). lia.
Qed.

Lemma filter_filter_length {A} (p q : A -> bool) (l : list A) :
  (length (List.filter p (List.filter q l)) <= length (List.filter p l))%nat.
Proof.
  induction l as [|x l IH]; [reflexivity|].
  cbn [List.filter]. destruct (q x); cbn [List.filter]; destruct (p x); cbn [length]; lia.
Qed.

Lemma rate_mono (a b : nat) :
  (a <= b)%nat -> (inject_Z (Z.of_nat a) / 30 * 100 <= inject_Z (Z.of_nat b) / 30 * 100)%Q.
Proof. intros H. unfold Qle, Qdiv, Qmult, Qinv. simpl. lia. Qed.

(** X4. The streak never exceeds the number of completed days, which
    never exceeds the number of records; the completion rate never
    exceeds what the completed days alone would give; and with no
    completed record the streak, the average and the rate are all 0. *)
Theorem calculateStats_bounds (Date_parse : string -> JSDate.t) (LocalTZA now : Z)
    (records : list DailyRecord.t) :
  let s := calculateStats Date_parse LocalTZA now records in
  (currentStreak s <= totalDays s <= length records)%nat
  /\ (completionRate s <= inject_Z (Z.of_nat (totalDays s)) / 30 * 100)%Q
  /\ (0 <= completionRate s)%Q
  /\ (totalDays s = 0%nat ->
      currentStreak s = 0%nat /\ averageCapsules s = JSNumber.of_Z 0 /\ totalCapsules s = 0
      /\ (completionRate s == 0)%Q).
Proof.
  cbn zeta. cbn [calculateStats currentStreak totalDays completionRate averageCapsules
                 totalCapsules].
  set (completedRecords := List.filter DailyRecord.completed records).
  pose proof (streakLoop_bound Date_parse LocalTZA now
                (Array_sort (byDateDescending Date_parse) completedRecords) 0 0) as Hs.
  rewrite (Permutation_length (Array_sort_Permutation _ completedRecords)) in Hs.
  pose proof (filter_filter_length DailyRecord.completed
                (inLast30Days Date_parse LocalTZA now) records) as Hw.
  fold completedRecords in Hw.
  split; [split; [lia | unfold completedRecords; apply List.filter_length_le]|].
  split; [by apply rate_mono|].
  split; [unfold Qle, Qdiv, Qmult, Qinv; simpl; lia|].
  intros H0.
  assert (Hz : length (List.filter DailyRecord.completed
                         (List.filter (inLast30Days Date_parse LocalTZA now) records)) = 0%nat)
    by lia.
  rewrite Hz. split; [lia|].
  apply length_zero_iff_nil in H0. rewrite H0. cbn. done.
Qed.

Lemma calculateStats_bounds_witness :
  let s := calculateStats (JSDate.parse_iso Samples.brasilia) Samples.brasilia Samples.noon
             [Samples.day "2024-01-15T07:45:00" 2 false] in
  currentStreak s = 0%nat /\ averageCapsules s = JSNumber.of_Z 0 /\ totalCapsules s = 0
  /\ (completionRate s == 0)%Q.
Proof.
  apply (proj2 (proj2 (proj2 (calculateStats_bounds (JSDate.parse_iso Samples.brasilia)
           Samples.brasilia Samples.noon [Samples.day "2024-01-15T07:45:00" 2 false])))).
  reflexivity.
Defined.

(** X5. A completed record dated on a later day than today brings the
    streak to 0, whatever else is recorded, today included (all
    completed records having valid dates). *)
Theorem currentStreak_record_ahead (Date_parse : string -> JSDate.t) (LocalTZA now : Z)
    (records : list DailyRecord.t) (r : DailyRecord.t) (d : Z) :
  (forall x, In x records -> DailyRecord.completed x = true -> validDate Date_parse x) ->
  In r records -> DailyRecord.completed r = true ->
  recordDay Date_parse LocalTZA r = JSDate.CalendarDay d ->
  today LocalTZA now < d ->
  currentStreak (calculateStats Date_parse LocalTZA now records) = 0%nat.
Proof.
  intros Hvalid Hin Hc Hd Hlt. cbn [calculateStats currentStreak].
  set (completedRecords := List.filter DailyRecord.completed records).
  assert (Hv : Forall (validDate Date_parse) completedRecords).
  { apply Forall_forall. intros x Hx%list_elem_of_In. apply filter_In in Hx as [? ?]. auto. }
  pose proof (Array_sort_sorted (byDateDescending Date_parse) (timeOf Date_parse)
                (validDate Date_parse) (byDateDescending_key Date_parse)
                completedRecords Hv) as Hs.
  pose proof (Array_sort_Permutation (byDateDescending Date_parse) completedRecords) as Hp.
  assert (Hr : In r (Array_sort (byDateDescending Date_parse) completedRecords)).
  { eapply Permutation_in; [symmetry; exact Hp|]. apply filter_In. by split. }
  destruct (Array_sort _ completedRecords) as [|h rest]; [destruct Hr|].
  rewrite streakLoop_cons, Z.sub_0_r.
  destruct (JSDate.DateString_eqb _ _) eqn:E; [|reflexivity].
  apply DateString_eqb_eq in E.
  destruct (recordDay_inv _ _ _ _ E) as [_ Hh].
  destruct (recordDay_inv _ _ _ _ Hd) as [_ Hrd].
  assert (Hle : timeOf Date_parse r <= timeOf Date_parse h).
  { destruct Hr as [->|Hr]; [lia|].
    inversion Hs as [|? ? _ Hall]; subst. rewrite Forall_forall in Hall.
    apply Hall, list_elem_of_In, Hr. }
  apply (dayOf_monotone Date_parse LocalTZA) in Hle. lia.
Qed.

Lemma currentStreak_record_ahead_witness :
  currentStreak (calculateStats (JSDate.parse_iso Samples.brasilia) Samples.brasilia
                   Samples.noon
                   (Samples.day "2024-01-16T09:00:00" 2 true :: Samples.fiveDays)) = 0%nat.
Proof.
  apply (currentStreak_record_ahead _ _ _ _ (Samples.day "2024-01-16T09:00:00" 2 true) 19738).
  - intros x Hx _.
    repeat (destruct Hx as [<-|Hx]; [vm_compute; eauto|]). destruct Hx.
  - by left.
  - reflexivity.
  - vm_compute. reflexivity.
  - vm_compute. reflexivity.
Defined.

(** ** Requests and the tables *)

Lemma same_tables_refl (b : Backend) : same_tables b b.
Proof. by repeat split. Qed.

Lemma same_tables_trans (b1 b2 b3 : Backend) :
  same_tables b1 b2 -> same_tables b2 b3 -> same_tables b1 b3.
Proof. unfold same_tables. intros (?&?&?&?) (?&?&?&?). repeat split; congruence. Qed.

(** ** Reading all the records of a user *)

Lemma string_le_trans (a b c : string) :
  String.compare a b <> Gt -> String.compare b c <> Gt -> String.compare a c <> Gt.
Proof.
  intros Hab Hbc.
  destruct (String.compare a b) eqn:Eab; [|clear Hab|done].
  - apply String.compare_eq_iff in Eab. by subst b.
  - destruct (String.compare b c) eqn:Ebc; [|clear Hbc|done].
    + apply String.compare_eq_iff in Ebc. subst c. by rewrite Eab.
    + apply OrderedTypeEx.String_as_OT.cmp_lt in Eab, Ebc.
      pose proof (OrderedTypeEx.String_as_OT.lt_trans _ _ _ Eab Ebc) as H.
      apply OrderedTypeEx.String_as_OT.cmp_lt in H.
      unfold OrderedTypeEx.String_as_OT.cmp in H. by rewrite H.
Qed.

Lemma sort_insert_ordered {A} (comparefn : A -> A -> option Z) (R : A -> A -> Prop) :
  (forall x y, SortCompare comparefn x y <= 0 -> R x y) ->
  (forall x y, 0 < SortCompare comparefn x y -> R y x) ->
  (forall x y z, R x y -> R y z -> R x z) ->
  forall (x : A) (l : list A),
    StronglySorted R l -> StronglySorted R (sort_insert comparefn x l).
Proof.
  intros Hle Hgt Htrans x l Hs. induction l as [|y l IH]; simpl.
  - repeat constructor.
  - inversion Hs as [|? ? Hs' Hall]; subst.
    destruct (Z.leb_spec (SortCompare comparefn x y) 0) as [H|H].
    + constructor; [exact Hs|].
      constructor; [by apply Hle|].
      eapply Forall_impl; [exact Hall|].
      intros z Hz. eapply Htrans; [by apply Hle | exact Hz].
    + constructor; [by apply IH|].
      rewrite sort_insert_Permutation.
      constructor; [by apply Hgt | exact Hall].
Qed.

Lemma Array_sort_dateDescending (l : list DailyRecord.t) :
  StronglySorted latestFirst (Array_sort Postgres.dateDescending l).
Proof.
  induction l as [|x l IH]; simpl; [constructor|].
  apply sort_insert_ordered; [| | |exact IH]; unfold latestFirst.
  - intros a b. unfold SortCompare, Postgres.dateDescending. cbn.
    destruct (String.compare _ _); [done|done|lia].
  - intros a b. unfold SortCompare, Postgres.dateDescending. cbn.
    rewrite (String.compare_antisym (DailyRecord.date a) (DailyRecord.date b)).
    destruct (String.compare (DailyRecord.date b) (DailyRecord.date a)); cbn; [lia|lia|done].
  - intros a b c Hab Hbc. by eapply string_le_trans.
Qed.

(** X6. [getDailyRecords] never throws and never changes a table. When
    its request fails in any way it returns the empty list. Otherwise it
    returns rows of that user only, the latest date first; without a
    limit, or with the limit 0, all of them; with a positive limit, that
    many of the latest (all of them when there are fewer). *)
Theorem getDailyRecords_swallows_errors (userId : string) (limitCount : option nat)
    (w : World) :
  exists (l : list DailyRecord.t) (w' : World),
    SupabaseService.getDailyRecords userId limitCount w = (Normal l, w')
    /\ same_tables (backend w) (backend w')
    /\ same_client w w'
    /\ (nextFault w <> NoFault -> l = [])
    /\ (nextFault w = NoFault ->
        exists rest : list DailyRecord.t,
          l ++ rest ≡ₚ rowsOf userId (backend w)
          /\ StronglySorted latestFirst (l ++ rest)
          /\ match limitCount with
             | Some (S n) => length l = Nat.min (S n) (length (rowsOf userId (backend w)))
             | _ => rest = []
             end).
Proof.
  unfold SupabaseService.getDailyRecords, try_catch, bind. rewrite request_run. cbn zeta.
  destruct (nextFault w) as [|code|reason] eqn:Hf; cbn.
  - eexists _, _. split; [reflexivity|]. split; [by repeat split|].
    split; [by repeat split|]. split; [done|]. intros _.
    fold (rowsOf userId (backend w)).
    set (rows := Array_sort Postgres.dateDescending (rowsOf userId (backend w))).
    assert (Hp : rows ≡ₚ rowsOf userId (backend w)) by apply Array_sort_Permutation.
    assert (Hs : StronglySorted latestFirst rows) by apply Array_sort_dateDescending.
    destruct limitCount as [[|n]|]; cbn.
    + exists []. by rewrite app_nil_r.
    + exists (drop (S n) rows). rewrite take_drop. split; [exact Hp|]. split; [exact Hs|].
      by rewrite length_take, Hp.
    + exists []. by rewrite app_nil_r.
  - eexists _, _. split; [reflexivity|]. split; [by repeat split|].
    split; [by repeat split|]. split; [done|]. done.
  - eexists _, _. split; [reflexivity|]. split; [by repeat split|].
    split; [by repeat split|]. split; [done|]. done.
Qed.

Lemma getDailyRecords_swallows_errors_witness :
  fst (SupabaseService.getDailyRecords "alice" (Some 2%nat)
         (Samples.world (Samples.offline 1))) = Normal [].
Proof.
  destruct (getDailyRecords_swallows_errors "alice" (Some 2%nat)
              (Samples.world (Samples.offline 1))) as (l & w' & E & _ & _ & Hfail & _).
  rewrite E. cbn [fst]. f_equal. apply Hfail. vm_compute. discriminate.
Defined.

(** ** The uniqueness constraint of the records *)

Lemma same_user_date_sym (r x : DailyRecord.t) :
  Postgres.same_user_date (DailyRecord.user_id r) (DailyRecord.date r) x
  = Postgres.same_user_date (DailyRecord.user_id x) (DailyRecord.date x) r.
Proof.
  unfold Postgres.same_user_date.
  by rewrite (String.eqb_sym (DailyRecord.user_id x)), (String.eqb_sym (DailyRecord.date x)).
Qed.

(** Under the constraint a row is the only one of its user and date. *)
Lemma unique_user_date_single (rows : list DailyRecord.t) (r : DailyRecord.t) :
  Postgres.unique_user_date rows = true -> In r rows ->
  List.filter (Postgres.same_user_date (DailyRecord.user_id r) (DailyRecord.date r)) rows = [r].
Proof.
  assert (Hrefl : Postgres.same_user_date (DailyRecord.user_id r) (DailyRecord.date r) r = true)
    by (unfold Postgres.same_user_date; by rewrite !String.eqb_refl).
  induction rows as [|x rows IH]; cbn; [done|].
  intros [Hx Hrows]%andb_prop [->|Hin].
  - rewrite Hrefl. apply negb_true_iff in Hx. by rewrite existsb_false_filter.
  - destruct (Postgres.same_user_date _ _ x) eqn:E; [|by apply IH].
    apply negb_true_iff in Hx. exfalso.
    assert (existsb (Postgres.same_user_date (DailyRecord.user_id x) (DailyRecord.date x)) rows
            = true); [|congruence].
    apply existsb_exists. exists r. split; [exact Hin|]. by rewrite same_user_date_sym.
Qed.

(** ** Creating a record and finding it again *)

Lemma getDailyRecordByDate_read_only (userId date : string) (w : World) :
  let w' := snd (SupabaseService.getDailyRecordByDate userId date w) in
  same_tables (backend w) (backend w') /\ faults (backend w') = tl (faults (backend w)).
Proof.
  cbn zeta.
  unfold SupabaseService.getDailyRecordByDate, SupabaseService.rethrow, try_catch, bind.
  rewrite request_run. cbn zeta. unfold Postgres.select_daily_record.
  destruct (nextFault w) as [|code|reason] eqn:Hf; cbn.
  - by destruct (List.filter _ _) as [|? [|? ?]]; cbn.
  - by destruct (negb _); cbn.
  - by repeat split.
Qed.

Lemma getDailyRecordByDate_found (userId date : string) (w : World) (r : DailyRecord.t) :
  nextFault w = NoFault ->
  rowsFor userId date (backend w) = [r] ->
  fst (SupabaseService.getDailyRecordByDate userId date w) = Normal (Some r).
Proof.
  intros Hf Hr. rewrite getDailyRecordByDate_answered by exact Hf.
  unfold rowsFor in Hr. by rewrite Hr.
Qed.

Lemma getDailyRecordByDate_missing (userId date : string) (w : World) :
  nextFault w = NoFault ->
  rowsFor userId date (backend w) = [] ->
  fst (SupabaseService.getDailyRecordByDate userId date w) = Normal None.
Proof.
  intros Hf Hr. rewrite getDailyRecordByDate_answered by exact Hf.
  unfold rowsFor in Hr. by rewrite Hr.
Qed.

Lemma Array_find_absent {A} (p : A -> bool) (l : list A) :
  (forall x, In x l -> p x = false) -> Array_find p l = None.
Proof.
  induction l as [|y l IH]; cbn; [done|]. intros H.
  rewrite (H y) by (by left). apply IH. intros x Hx. apply H. by right.
Qed.

Lemma getRecordByDate_uncached (u : AuthUser.t) (date : string) (w : World) :
  (forall x, In x (records (store w)) -> DailyRecord.date x <> date) ->
  fst (useFirebaseDailyRecords.getRecordByDate (Some u) date w) =
    match fst (SupabaseService.getDailyRecordByDate (AuthUser.id u) date w) with
    | Normal r => Normal r
    | Throw _ => Normal None
    end.
Proof.
  intros Hnone.
  cbv [useFirebaseDailyRecords.getRecordByDate try_catch bind gets ret].
  rewrite Array_find_absent.
  - by destruct (SupabaseService.getDailyRecordByDate _ _ _) as [[?|?] ?].
  - intros x Hx. apply String.eqb_neq. by apply Hnone.
Qed.

Lemma validateRecordSaved_run (u : AuthUser.t) (date : string) (w : World) :
  useFirebaseDailyRecords.validateRecordSaved (Some u) date w =
    let after := SupabaseService.getDailyRecordByDate (AuthUser.id u) date
                   (with_clock (fun c => c + 1000) w) in
    (Normal match fst after with
            | Normal (Some _) => true
            | _ => false
            end, snd after).
Proof.
  cbv [useFirebaseDailyRecords.validateRecordSaved useFirebaseDailyRecords.user_id_asserted
       try_catch bind ret sleep modify].
  by destruct (SupabaseService.getDailyRecordByDate _ _ _) as [[[?|]|?] ?].
Qed.

(** X8. When [createRecord] of the hook resolves, the table has gained
    exactly one row, which carries the data that was passed in, the id
    of the user, a generated id, and the empty string for absent notes;
    there was no row of that user for that date before; one second has
    passed. Looking the date up afterwards finds that row, through the
    gateway, through [validateRecordSaved], and through
    [getRecordByDate] unless the cache holds a record of that date. *)
Theorem createRecord_round_trip (u : AuthUser.t) (recordData : RecordData.t) (w w1 : World) :
  useFirebaseDailyRecords.createRecord (Some u) recordData w = (Normal tt, w1) ->
  exists row : DailyRecord.t,
    daily_records (backend w1) = daily_records (backend w) ++ [row]
    /\ rowsFor (AuthUser.id u) (RecordData.date recordData) (backend w) = []
    /\ (is_Some (DailyRecord.id row)
        /\ DailyRecord.user_id row = AuthUser.id u
        /\ DailyRecord.date row = RecordData.date recordData
        /\ DailyRecord.capsules row = RecordData.capsules recordData
        /\ DailyRecord.time row = RecordData.time recordData
        /\ DailyRecord.notes row = Some (default ""%string (RecordData.notes recordData))
        /\ DailyRecord.completed row = RecordData.completed recordData
        /\ DailyRecord.created_at row = JSDate.toISOString (clock w))
    /\ clock w1 = clock w + 1000
    /\ records (store w1) = records (store w)
    /\ (nextFault w1 = NoFault ->
        fst (SupabaseService.getDailyRecordByDate (AuthUser.id u) (RecordData.date recordData) w1)
          = Normal (Some row)
        /\ fst (useFirebaseDailyRecords.validateRecordSaved (Some u)
                  (RecordData.date recordData) w1) = Normal true
        /\ ((forall x, In x (records (store w)) ->
               DailyRecord.date x <> RecordData.date recordData) ->
            fst (useFirebaseDailyRecords.getRecordByDate (Some u)
                   (RecordData.date recordData) w1) = Normal (Some row))).
Proof.
  run_store.
  pose proof (createDailyRecord_outcome (with_user_id recordData (AuthUser.id u)) (inFlight w))
    as Hcreate.
  cbn zeta in Hcreate. gateway_step; [|by intros [= ]].
  cbn [fst snd] in Hcreate. destruct Hcreate as (Hfaults & _ & Htaken & _ & Hrows).
  match goal with
  | |- context [SupabaseService.getDailyRecordByDate ?a ?d ?w0] =>
      pose proof (getDailyRecordByDate_read_only a d w0) as Hread
  end.
  cbn zeta in Hread. gateway_step; [|by intros [= ]].
  cbn [snd] in Hread. destruct Hread as ((_ & _ & Hsame & _) & _).
  intros [= <-]. cbn [backend with_clock with_store clock inFlight] in *.
  match type of Hsame with daily_records (backend ?wf) = _ => rename wf into w3 end.
  assert (Hrec : records (store w3) = records (store w)) by status_done.
  eexists. split; [by rewrite Hsame, Hrows|].
  split; [by apply existsb_false_filter|].
  split; [cbn; by repeat split|].
  split; [status_done|]. split; [status_done|].
  intros Hnext.
  assert (Hfor : rowsFor (AuthUser.id u) (RecordData.date recordData) (backend w3)
                 = [DailyRecord.mk (Some (Postgres.gen_random_uuid (next_uuid (backend w))))
                      (AuthUser.id u) (RecordData.date recordData)
                      (RecordData.capsules recordData) (RecordData.time recordData)
                      (Some (default ""%string (RecordData.notes recordData)))
                      (RecordData.completed recordData)
                      (JSDate.toISOString (clock w)) (JSDate.toISOString (clock w))]).
  { unfold rowsFor. rewrite Hsame, Hrows, List.filter_app.
    cbn in Htaken. rewrite (existsb_false_filter _ _ Htaken). cbn.
    unfold Postgres.same_user_date. cbn. by rewrite !String.eqb_refl. }
  split; [by apply getDailyRecordByDate_found|]. split.
  - rewrite validateRecordSaved_run. cbn zeta. cbn [fst].
    by rewrite (getDailyRecordByDate_found _ _ (with_clock (fun c => c + 1000) w3) _ Hnext Hfor).
  - intros Hcache. rewrite getRecordByDate_uncached.
    + by rewrite (getDailyRecordByDate_found _ _ _ _ Hnext Hfor).
    + intros x Hx. apply Hcache. by rewrite <- Hrec.
Qed.

Lemma createRecord_round_trip_witness :
  let w := Samples.world Samples.emptyBackend in
  let w1 := snd (useFirebaseDailyRecords.createRecord (Some Samples.alice) Samples.newRecord w) in
  length (daily_records (backend w1)) = 1%nat
  /\ fst (useFirebaseDailyRecords.validateRecordSaved (Some Samples.alice) "2024-01-15" w1)
     = Normal true.
Proof.
  intros w w1.
  destruct (createRecord_round_trip Samples.alice Samples.newRecord w w1)
    as (row & Hrows & _ & _ & _ & _ & Hfind).
  { vm_compute. reflexivity. }
  split.
  - rewrite Hrows. reflexivity.
  - apply Hfind. reflexivity.
Defined.

(** ** A creation that is saved and rejected all the same *)

Lemma getDailyRecordByDate_fails (userId date : string) (w : World) :
  readFails (nextFault w) ->
  exists e, fst (SupabaseService.getDailyRecordByDate userId date w) = Throw e.
Proof.
  unfold SupabaseService.getDailyRecordByDate, SupabaseService.rethrow, try_catch, bind.
  rewrite request_run. cbn zeta.
  destruct (nextFault w) as [|code|reason]; cbn; [done| |by eauto].
  intros Hne. apply String.eqb_neq in Hne. rewrite Hne. cbn. by eauto.
Qed.

(** X9. [createRecord] of the hook can reject although the record is
    saved: when the insert succeeds and the read that follows it fails,
    the row is in the table, the status is [error], the caller is
    rejected, and a retry is scheduled (3000 ms after the call began).
    That retry cannot succeed, since the row exists: it raises the
    "Sync Error" alert that the data could not be saved, and leaves the
    table as it is. *)
Theorem createRecord_rejects_after_saving (u : AuthUser.t) (recordData : RecordData.t)
    (w : World) :
  fault_at 0 w = NoFault ->
  rowsFor (AuthUser.id u) (RecordData.date recordData) (backend w) = [] ->
  readFails (fault_at 1 w) ->
  exists (e : Exn) (w1 : World) (row : DailyRecord.t),
    useFirebaseDailyRecords.createRecord (Some u) recordData w = (Throw e, w1)
    /\ daily_records (backend w1) = daily_records (backend w) ++ [row]
    /\ DailyRecord.user_id row = AuthUser.id u
    /\ DailyRecord.date row = RecordData.date recordData
    /\ syncStatus (store w1) = SyncStatus.error
    /\ timers w1 = timers w ++ [mkTimer (clock w + 3000) (RetryCreate u recordData)]
    /\ alerts w1 = alerts w
    /\ exists w2 : World,
         runTask (RetryCreate u recordData) w1 = (Normal tt, w2)
         /\ daily_records (backend w2) = daily_records (backend w1)
         /\ alerts w2 = alerts w ++ [syncErrorAlert]
         /\ syncStatus (store w2) = SyncStatus.error.
Proof.
  intros H0 Hfree H1.
  assert (H0' : nextFault w = NoFault)
    by (unfold nextFault, fault_at in *; by destruct (faults (backend w))).
  unfold fault_at in H1. rewrite nth_1_hd_tl in H1.
  apply filter_nil_existsb in Hfree.
  run_store.
  pose proof (createDailyRecord_outcome (with_user_id recordData (AuthUser.id u)) (inFlight w))
    as Hcreate.
  cbn zeta in Hcreate. gateway_step; cbn [fst snd] in Hcreate.
  2:{ destruct Hcreate as (_ & _ & Htaken). destruct (Htaken H0') as [Htaken' _].
      cbn in Htaken'. congruence. }
  destruct Hcreate as (Hfaults & _ & _ & _ & Hrows).
  match goal with
  | |- context [SupabaseService.getDailyRecordByDate ?a ?d ?w0] =>
      pose proof (getDailyRecordByDate_read_only a d w0) as Hread;
      destruct (getDailyRecordByDate_fails a d w0) as [e He]
  end.
  { unfold nextFault. cbn. by rewrite Hfaults. }
  cbn zeta in Hread. gateway_step; cbn [fst snd] in *; [discriminate He|].
  destruct Hread as ((_ & _ & Hsame & _) & _).
  match type of Hsame with daily_records (backend ?wf) = _ => rename wf into w3 end.
  cbn [backend with_clock with_store clock inFlight] in *.
  eexists _, _, _. split; [reflexivity|].
  split; [cbn; by rewrite Hsame, Hrows|].
  split; [reflexivity|]. split; [reflexivity|].
  split; [reflexivity|].
  split; [status_done; f_equal; f_equal; f_equal; lia|].
  split; [status_done|].
  match goal with
  | |- context [SupabaseService.createDailyRecord ?r ?w0] =>
      pose proof (createDailyRecord_outcome r w0) as Hretry
  end.
  cbn zeta in Hretry. gateway_step; cbn [fst snd] in Hretry.
  - exfalso. destruct Hretry as (_ & _ & Htaken & _). cbn in Htaken.
    rewrite Hsame, Hrows, existsb_app in Htaken. cbn in Htaken.
    unfold Postgres.same_user_date in Htaken. cbn in Htaken.
    rewrite !String.eqb_refl in Htaken. cbn in Htaken.
    by rewrite orb_true_r in Htaken.
  - destruct Hretry as (_ & Hkeep & _). cbn in Hkeep.
    eexists. split; [reflexivity|]. split; [exact Hkeep|].
    split; status_done.
Qed.

Lemma createRecord_rejects_after_saving_witness :
  let w := Samples.world (mkBackend ∅ ∅ [] 0 [NoFault; Rejects "offline"]) in
  exists (e : Exn) (w1 : World),
    useFirebaseDailyRecords.createRecord (Some Samples.alice) Samples.newRecord w = (Throw e, w1)
    /\ map DailyRecord.date (daily_records (backend w1)) = ["2024-01-15"%string]
    /\ alerts (snd (runTask (RetryCreate Samples.alice Samples.newRecord) w1)) = [syncErrorAlert].
Proof.
  intros w.
  destruct (createRecord_rejects_after_saving Samples.alice Samples.newRecord w)
    as (e & w1 & row & E & Hrows & _ & Hdate & _ & _ & _ & w2 & Eretry & _ & Halerts & _).
  - reflexivity.
  - reflexivity.
  - exact I.
  - exists e, w1. split; [exact E|]. split.
    + rewrite Hrows. cbn. by rewrite Hdate.
    + by rewrite Eretry.
Defined.

(** ** Updating and deleting by id *)

Lemma updateDailyRecord_outcome (recordId : string) (updates : DailyRecordUpdate.t)
    (w : World) :
  let rows := daily_records (backend w) in
  let rows' :=
    map (fun r => if Postgres.has_id recordId r
                  then Postgres.apply_update updates (clock w) r else r) rows in
  let w' := snd (SupabaseService.updateDailyRecord recordId updates w) in
  faults (backend w') = tl (faults (backend w))
  /\ match fst (SupabaseService.updateDailyRecord recordId updates w) with
     | Normal _ =>
         nextFault w = NoFault /\ Postgres.unique_user_date rows' = true
         /\ daily_records (backend w') = rows'
     | Throw e =>
         daily_records (backend w') = rows
         /\ (nextFault w = NoFault ->
             Postgres.unique_user_date rows' = false /\ e = PostgrestError "23505")
     end.
Proof.
  cbn zeta.
  unfold SupabaseService.updateDailyRecord, SupabaseService.rethrow, try_catch, bind.
  rewrite request_run. cbn zeta. unfold Postgres.update_daily_record.
  destruct (nextFault w) as [|code|reason] eqn:Hf; cbn.
  - destruct (Postgres.unique_user_date _) eqn:E; cbn; by repeat split.
  - by repeat split.
  - by repeat split.
Qed.

Lemma deleteDailyRecord_outcome (recordId : string) (w : World) :
  let rows := daily_records (backend w) in
  let w' := snd (SupabaseService.deleteDailyRecord recordId w) in
  faults (backend w') = tl (faults (backend w))
  /\ match fst (SupabaseService.deleteDailyRecord recordId w) with
     | Normal _ =>
         nextFault w = NoFault
         /\ daily_records (backend w')
            = List.filter (fun r => negb (Postgres.has_id recordId r)) rows
     | Throw e => daily_records (backend w') = rows /\ nextFault w <> NoFault
     end.
Proof.
  cbn zeta.
  unfold SupabaseService.deleteDailyRecord, SupabaseService.rethrow, try_catch, bind.
  rewrite request_run. cbn zeta. unfold Postgres.delete_daily_record.
  destruct (nextFault w) as [|code|reason] eqn:Hf; cbn; by repeat split.
Qed.

Lemma has_id_spec (recordId : string) (r : DailyRecord.t) :
  Postgres.has_id recordId r = true <-> DailyRecord.id r = Some recordId.
Proof.
  unfold Postgres.has_id. destruct (DailyRecord.id r) as [i|]; [|done].
  rewrite String.eqb_eq. split; congruence.
Qed.

Lemma no_row_has_id (recordId : string) (rows : list DailyRecord.t) :
  (forall x, In x rows -> DailyRecord.id x <> Some recordId) ->
  forall x, In x rows -> Postgres.has_id recordId x = false.
Proof.
  intros H x Hx. apply not_true_is_false. rewrite has_id_spec. by apply H.
Qed.

Lemma filter_comm {A} (p q : A -> bool) (l : list A) :
  List.filter p (List.filter q l) = List.filter q (List.filter p l).
Proof.
  induction l as [|x l IH]; cbn; [done|].
  destruct (q x) eqn:Eq, (p x) eqn:Ep; cbn; rewrite ?Eq, ?Ep, IH; done.
Qed.

Lemma filter_all {A} (p : A -> bool) (l : list A) :
  (forall x, In x l -> p x = true) -> List.filter p l = l.
Proof.
  induction l as [|x l IH]; cbn; [done|]. intros H.
  rewrite (H x) by (by left). f_equal. apply IH. intros y Hy. apply H. by right.
Qed.

Lemma map_unless {A} (p : A -> bool) (f : A -> A) (l : list A) :
  (forall x, In x l -> p x = false) -> map (fun x => if p x then f x else x) l = l.
Proof.
  induction l as [|x l IH]; cbn; [done|]. intros H.
  rewrite (H x) by (by left). f_equal. apply IH. intros y Hy. apply H. by right.
Qed.

Lemma hook_deleteRecord_resolved (recordId : string) (w w1 : World) :
  useFirebaseDailyRecords.deleteRecord recordId w = (Normal tt, w1) ->
  daily_records (backend w1)
  = List.filter (fun r => negb (Postgres.has_id recordId r)) (daily_records (backend w))
  /\ records (store w1) = records (store w).
Proof.
  run_store.
  pose proof (deleteDailyRecord_outcome recordId (inFlight w)) as Hdel. cbn zeta in Hdel.
  gateway_step; [|by intros [= ]]. cbn [fst snd] in Hdel.
  destruct Hdel as (_ & _ & Hrows). intros [= <-].
  split; [exact Hrows | status_done].
Qed.

(** X10. No mutation of either record store touches the cached
    records. So after [deleteRecord] has removed a record from the
    table (no row has its id, and the gateway finds nothing for its
    user and date), [getRecordByDate] still answers with that record
    when the cache holds it, without asking the backend. *)
Theorem deleted_record_still_answered :
  (forall user recordData w,
      records (store (snd (useFirebaseDailyRecords.createRecord user recordData w)))
      = records (store w))
  /\ (forall recordId updates w,
        records (store (snd (useFirebaseDailyRecords.updateRecord recordId updates w)))
        = records (store w))
  /\ (forall recordId w,
        records (store (snd (useFirebaseDailyRecords.deleteRecord recordId w)))
        = records (store w))
  /\ (forall user recordData w,
        records (store (snd (FirebaseRecordsProvider.createRecord user recordData w)))
        = records (store w))
  /\ (forall recordId updates w,
        records (store (snd (FirebaseRecordsProvider.updateRecord recordId updates w)))
        = records (store w))
  /\ (forall recordId w,
        records (store (snd (FirebaseRecordsProvider.deleteRecord recordId w)))
        = records (store w))
  /\ (forall t w, records (store (snd (runTask t w))) = records (store w))
  /\ (forall (u : AuthUser.t) (r : DailyRecord.t) (recordId : string) (w w1 : World),
        DailyRecord.id r = Some recordId ->
        In r (daily_records (backend w)) ->
        uniqueDates (backend w) ->
        Array_find (fun x => String.eqb (DailyRecord.date x) (DailyRecord.date r))
                   (records (store w)) = Some r ->
        useFirebaseDailyRecords.deleteRecord recordId w = (Normal tt, w1) ->
        (forall x, In x (daily_records (backend w1)) -> DailyRecord.id x <> Some recordId)
        /\ rowsFor (DailyRecord.user_id r) (DailyRecord.date r) (backend w1) = []
        /\ (nextFault w1 = NoFault ->
            fst (SupabaseService.getDailyRecordByDate (DailyRecord.user_id r)
                   (DailyRecord.date r) w1) = Normal None)
        /\ useFirebaseDailyRecords.getRecordByDate (Some u) (DailyRecord.date r) w1
           = (Normal (Some r), w1)).
Proof.
  repeat apply conj.
  - intros [u|] recordData w; [|reflexivity].
    run_store. gateway_step; [gateway_step|]; status_done.
  - intros recordId updates w. run_store. gateway_step; status_done.
  - intros recordId w. run_store. gateway_step; status_done.
  - intros [u|] recordData w; [|reflexivity]. run_store. gateway_step; status_done.
  - intros recordId updates w. run_store. gateway_step; status_done.
  - intros recordId w. run_store. gateway_step; status_done.
  - intros [u recordData|] w; [|reflexivity]. run_store. gateway_step; status_done.
  - intros u r recordId w w1 Hid Hin Huniq Hcached Hdel.
    apply hook_deleteRecord_resolved in Hdel as [Hrows Hrec].
    assert (Hfor : rowsFor (DailyRecord.user_id r) (DailyRecord.date r) (backend w1) = []).
    { unfold rowsFor. rewrite Hrows, filter_comm.
      rewrite (unique_user_date_single _ _ Huniq Hin). cbn.
      by rewrite (proj2 (has_id_spec recordId r) Hid). }
    split; [|split; [exact Hfor|split]].
    + intros x Hx. rewrite Hrows in Hx. apply filter_In in Hx as [_ Hx].
      apply negb_true_iff in Hx. intros Hx'. apply has_id_spec in Hx'. congruence.
    + intros Hnext. by apply getDailyRecordByDate_missing.
    + cbv [useFirebaseDailyRecords.getRecordByDate try_catch bind gets ret].
      by rewrite Hrec, Hcached.
Qed.

Lemma deleted_record_still_answered_witness :
  let r := Samples.day "2024-01-15" 2 true in
  let w := mkWorld Samples.shared Samples.noon
             (mkRecordsState [r] false None SyncStatus.synced)
             (mkTutorialState false false) [] [] in
  let w1 := snd (useFirebaseDailyRecords.deleteRecord "r-2024-01-15" w) in
  rowsFor "alice" "2024-01-15" (backend w1) = []
  /\ useFirebaseDailyRecords.getRecordByDate (Some Samples.alice) "2024-01-15" w1
     = (Normal (Some r), w1).
Proof.
  intros r w w1.
  destruct deleted_record_still_answered as (_ & _ & _ & _ & _ & _ & _ & H).
  destruct (H Samples.alice r "r-2024-01-15"%string w w1) as (_ & Hrows & _ & Hget).
  - reflexivity.
  - right. right. by left.
  - reflexivity.
  - reflexivity.
  - vm_compute. reflexivity.
  - by split.
Defined.

(** X11. Updating or deleting with an id that no row has is reported as
    a success: the call resolves, the status is [synced], and the table
    is as it was. *)
Theorem unknown_id_reports_success (recordId : string) (w : World) :
  nextFault w = NoFault ->
  (forall x, In x (daily_records (backend w)) -> DailyRecord.id x <> Some recordId) ->
  (forall updates : DailyRecordUpdate.t,
      uniqueDates (backend w) ->
      exists w',
        useFirebaseDailyRecords.updateRecord recordId updates w = (Normal tt, w')
        /\ daily_records (backend w') = daily_records (backend w)
        /\ syncStatus (store w') = SyncStatus.synced)
  /\ (forall updates : DailyRecordUpdate.t,
        uniqueDates (backend w) ->
        exists w',
          FirebaseRecordsProvider.updateRecord recordId updates w = (Normal tt, w')
          /\ daily_records (backend w') = daily_records (backend w)
          /\ syncStatus (store w') = SyncStatus.synced)
  /\ (exists w',
        useFirebaseDailyRecords.deleteRecord recordId w = (Normal tt, w')
        /\ daily_records (backend w') = daily_records (backend w)
        /\ syncStatus (store w') = SyncStatus.synced)
  /\ (exists w',
        FirebaseRecordsProvider.deleteRecord recordId w = (Normal tt, w')
        /\ daily_records (backend w') = daily_records (backend w)
        /\ syncStatus (store w') = SyncStatus.synced).
Proof.
  intros Hf Hnone. pose proof (no_row_has_id _ _ Hnone) as Hno.
  assert (Hupd : forall updates, uniqueDates (backend w) ->
            exists w0, SupabaseService.updateDailyRecord recordId updates (inFlight w)
                       = (Normal tt, w0)
                       /\ daily_records (backend w0) = daily_records (backend w)).
  { intros updates Huniq.
    pose proof (updateDailyRecord_outcome recordId updates (inFlight w)) as H.
    cbn zeta in H. cbn [backend inFlight with_store clock] in H.
    rewrite (map_unless _ _ _ Hno) in H.
    destruct (SupabaseService.updateDailyRecord recordId updates (inFlight w))
      as [[[]|e] w0]; cbn [fst snd] in H.
    - exists w0. split; [reflexivity|]. by destruct H as (_ & _ & _ & H).
    - destruct H as (_ & _ & H). destruct (H Hf) as [H' _].
      unfold uniqueDates in Huniq. congruence. }
  assert (Hdel : exists w0, SupabaseService.deleteDailyRecord recordId (inFlight w)
                            = (Normal tt, w0)
                            /\ daily_records (backend w0) = daily_records (backend w)).
  { pose proof (deleteDailyRecord_outcome recordId (inFlight w)) as H.
    cbn zeta in H. cbn [backend inFlight with_store clock] in H.
    destruct (SupabaseService.deleteDailyRecord recordId (inFlight w))
      as [[[]|e] w0]; cbn [fst snd] in H.
    - exists w0. split; [reflexivity|]. destruct H as (_ & _ & ->).
      apply filter_all. intros x Hx. by rewrite (Hno x Hx).
    - by destruct H as (_ & _ & H). }
  split; [|split; [|split]].
  - intros updates Huniq. destruct (Hupd updates Huniq) as (w0 & E & Hrows).
    run_store. rewrite E. eexists. split; [reflexivity|]. by split.
  - intros updates Huniq. destruct (Hupd updates Huniq) as (w0 & E & Hrows).
    run_store. rewrite E. eexists. split; [reflexivity|]. by split.
  - destruct Hdel as (w0 & E & Hrows).
    run_store. rewrite E. eexists. split; [reflexivity|]. by split.
  - destruct Hdel as (w0 & E & Hrows).
    run_store. rewrite E. eexists. split; [reflexivity|]. by split.
Qed.

Lemma unknown_id_reports_success_witness :
  exists w',
    useFirebaseDailyRecords.deleteRecord "no-such-id" (Samples.world Samples.shared)
      = (Normal tt, w')
    /\ daily_records (backend w') = daily_records Samples.shared
    /\ syncStatus (store w') = SyncStatus.synced.
Proof.
  apply (unknown_id_reports_success "no-such-id" (Samples.world Samples.shared)).
  - reflexivity.
  - intros x Hx. cbn in Hx.
    repeat (destruct Hx as [<-|Hx]; [vm_compute; discriminate|]). destruct Hx.
Defined.

(** ** Fetching the records *)

Lemma getDailyRecords_all (userId : string) (w : World) :
  exists w',
    SupabaseService.getDailyRecords userId None w =
      (Normal (match nextFault w with
               | NoFault => Array_sort Postgres.dateDescending (rowsOf userId (backend w))
               | _ => []
               end), w')
    /\ same_client w w' /\ same_tables (backend w) (backend w').
Proof.
  unfold SupabaseService.getDailyRecords, try_catch, bind. rewrite request_run. cbn zeta.
  destruct (nextFault w) as [|code|reason]; cbn; eexists; by repeat split.
Qed.

(** X13. A fetch of the records cannot report a failure, since the
    gateway answers a failed request with the empty list: whatever
    happens to the request, [refreshRecords] resolves with no error
    message, the status [synced] and [loading] off (its error handler
    is never entered), and so does the subscription of either store.
    When the request fails the cache is emptied; when it succeeds the
    cache holds the rows of the user, and nothing else. No table
    changes. *)
Theorem failed_fetch_empties_cache (u : AuthUser.t) (w : World) :
  let fetched :=
    match nextFault w with
    | NoFault => Array_sort Postgres.dateDescending (rowsOf (AuthUser.id u) (backend w))
    | _ => []
    end in
  (exists w',
      FirebaseRecordsProvider.refreshRecords (Some u) w = (Normal tt, w')
      /\ store w' = mkRecordsState fetched false None SyncStatus.synced
      /\ timers w' = timers w
      /\ same_tables (backend w) (backend w'))
  /\ (exists w',
        FirebaseRecordsProvider.subscribe (Some u) w = (Normal tt, w')
        /\ store w' = mkRecordsState fetched false None SyncStatus.synced
        /\ timers w' = timers w ++ [mkTimer (clock w + 100) LogPropagated]
        /\ same_tables (backend w) (backend w'))
  /\ (exists w',
        useFirebaseDailyRecords.subscribe (Some u) w = (Normal tt, w')
        /\ store w' = mkRecordsState fetched false None SyncStatus.synced
        /\ timers w' = timers w ++ [mkTimer (clock w + 100) LogPropagated]
        /\ same_tables (backend w) (backend w'))
  /\ (nextFault w <> NoFault -> fetched = [])
  /\ fetched ≡ₚ match nextFault w with
               | NoFault => rowsOf (AuthUser.id u) (backend w)
               | _ => []
               end.
Proof.
  cbn zeta.
  destruct (getDailyRecords_all (AuthUser.id u)
              (with_store (fun s => mkRecordsState (records s) true (error s) (syncStatus s)) w))
    as (w0 & E & F & T).
  change (nextFault (with_store _ w)) with (nextFault w) in E.
  change (backend (with_store _ w)) with (backend w) in E, T.
  repeat apply conj.
  - cbv [FirebaseRecordsProvider.refreshRecords try_finally try_catch bind modify
         setRecords setLoading setError setSyncStatus].
    rewrite E. eexists. split; [reflexivity|]. client_facts.
    split; [|split; [congruence | exact T]].
    cbn. f_equal.
  - cbv [FirebaseRecordsProvider.subscribe FirebaseRecordsProvider.onRecords
         SupabaseService.fetchAndNotify bind modify setTimeout
         setRecords setLoading setError setSyncStatus].
    rewrite E. eexists. split; [reflexivity|]. client_facts.
    split; [|split; [|exact T]].
    + cbn. f_equal.
    + cbn. congruence.
  - cbv [useFirebaseDailyRecords.subscribe useFirebaseDailyRecords.onRecords
         SupabaseService.fetchAndNotify bind modify setTimeout
         setRecords setLoading setError setSyncStatus].
    rewrite E. eexists. split; [reflexivity|]. client_facts.
    split; [|split; [|exact T]].
    + cbn. f_equal.
    + cbn. congruence.
  - by destruct (nextFault w).
  - destruct (nextFault w); [apply Array_sort_Permutation | done..].
Qed.

Lemma failed_fetch_empties_cache_witness :
  let w := mkWorld (mkBackend ∅ ∅ Samples.fiveDays 6 [Rejects "offline"]) Samples.noon
             (mkRecordsState Samples.fiveDays false None SyncStatus.synced)
             (mkTutorialState false false) [] [] in
  exists w',
    FirebaseRecordsProvider.refreshRecords (Some Samples.alice) w = (Normal tt, w')
    /\ store w' = mkRecordsState [] false None SyncStatus.synced
    /\ daily_records (backend w') = Samples.fiveDays.
Proof.
  intros w.
  destruct (failed_fetch_empties_cache Samples.alice w)
    as ((w' & E & Hstore & _ & (_ & _ & Hrows & _)) & _ & _ & Hfail & _).
  exists w'. split; [exact E|]. split; [|exact Hrows].
  rewrite Hstore, Hfail; [reflexivity|]. vm_compute. discriminate.
Defined.

(** ** Checking that a record was saved *)

Lemma getDailyRecordByDate_faulted (userId date : string) (w : World) :
  nextFault w <> NoFault ->
  match fst (SupabaseService.getDailyRecordByDate userId date w) with
  | Normal r => r = None
  | Throw _ => True
  end.
Proof.
  unfold SupabaseService.getDailyRecordByDate, SupabaseService.rethrow, try_catch, bind.
  rewrite request_run. cbn zeta.
  destruct (nextFault w) as [|code|reason]; cbn; [done| |done].
  by destruct (negb _).
Qed.

(** X14. With a user signed in, [validateRecordSaved] never throws and
    changes nothing but the clock, which it advances by one second; it
    answers [false] whenever its request fails, and when the request
    gets through it answers [true] exactly when the table holds a
    single row of the user for the date. With no user signed in it does
    not answer [false]: it rejects with the [TypeError] of [user!.id],
    which the message of its error handler raises again, one second
    after the call and without any request. *)
Theorem validateRecordSaved_answer (date : string) (w : World) :
  (forall u : AuthUser.t,
      exists (b : bool) (w' : World),
        useFirebaseDailyRecords.validateRecordSaved (Some u) date w = (Normal b, w')
        /\ clock w' = clock w + 1000
        /\ store w' = store w /\ timers w' = timers w /\ alerts w' = alerts w
        /\ same_tables (backend w) (backend w')
        /\ (nextFault w <> NoFault -> b = false)
        /\ (nextFault w = NoFault ->
            (b = true <-> exists r, rowsFor (AuthUser.id u) date (backend w) = [r])))
  /\ useFirebaseDailyRecords.validateRecordSaved None date w
     = (Throw (JsError "TypeError"), with_clock (fun c => c + 1000) w).
Proof.
  split; [|reflexivity]. intros u.
  rewrite validateRecordSaved_run. cbn zeta.
  set (w0 := with_clock (fun c => c + 1000) w).
  pose proof (gateway_getDailyRecordByDate (AuthUser.id u) date w0) as F.
  pose proof (getDailyRecordByDate_read_only (AuthUser.id u) date w0) as [T _].
  pose proof (getDailyRecordByDate_faulted (AuthUser.id u) date w0) as Hfail.
  pose proof (getDailyRecordByDate_answered (AuthUser.id u) date w0) as Hans.
  change (nextFault w0) with (nextFault w) in Hfail, Hans.
  change (backend w0) with (backend w) in T, Hans.
  destruct (SupabaseService.getDailyRecordByDate (AuthUser.id u) date w0) as [c w1].
  cbn [fst snd] in *. destruct F as (Hc & Hs & _ & Ht & Ha).
  eexists _, w1. split; [reflexivity|].
  split; [by rewrite Hc|]. split; [by rewrite Hs|]. split; [by rewrite Ht|].
  split; [by rewrite Ha|]. split; [exact T|]. split.
  - intros Hf. specialize (Hfail Hf). destruct c as [[r|]|e]; done.
  - intros Hf. rewrite (Hans Hf). unfold rowsFor.
    destruct (List.filter _ _) as [|x [|y l]]; split; try done; try by intros [r [=]].
    intros _. by exists x.
Qed.

Lemma validateRecordSaved_answer_witness :
  fst (useFirebaseDailyRecords.validateRecordSaved (Some Samples.alice) "2024-01-15"
         (Samples.world (mkBackend ∅ ∅ [Samples.day "2024-01-15" 2 true] 1
                           [ErrorResponse "503"]))) = Normal false
  /\ fst (useFirebaseDailyRecords.validateRecordSaved (Some Samples.alice) "2024-01-15"
            (Samples.world Samples.shared)) = Normal true.
Proof.
  split.
  - destruct (proj1 (validateRecordSaved_answer "2024-01-15"
                (Samples.world (mkBackend ∅ ∅ [Samples.day "2024-01-15" 2 true] 1
                                  [ErrorResponse "503"]))) Samples.alice)
      as (b & w' & E & _ & _ & _ & _ & _ & Hfail & _).
    rewrite E. cbn [fst]. f_equal. apply Hfail. vm_compute. discriminate.
  - destruct (proj1 (validateRecordSaved_answer "2024-01-15"
                (Samples.world Samples.shared)) Samples.alice)
      as (b & w' & E & _ & _ & _ & _ & _ & _ & Hfound).
    rewrite E. cbn [fst]. f_equal.
    apply Hfound; [reflexivity|].
    exists (Samples.day "2024-01-15" 2 true). reflexivity.
Defined.

(** ** Clearing the data of a user *)

Lemma rowsOf_filter_others (userId other : string) (rows : list DailyRecord.t) :
  other <> userId ->
  List.filter (Postgres.of_user other)
    (List.filter (fun r => negb (Postgres.of_user userId r)) rows)
  = List.filter (Postgres.of_user other) rows.
Proof.
  intros Hne. induction rows as [|x rows IH]; cbn; [done|].
  destruct (Postgres.of_user userId x) eqn:E; cbn; rewrite IH; [|done].
  apply String.eqb_eq in E.
  assert (Postgres.of_user other x = false) as ->; [|done].
  apply String.eqb_neq. congruence.
Qed.

Lemma rowsOf_filter_self (userId : string) (rows : list DailyRecord.t) :
  List.filter (Postgres.of_user userId)
    (List.filter (fun r => negb (Postgres.of_user userId r)) rows) = [].
Proof.
  induction rows as [|x rows IH]; cbn; [done|].
  destruct (Postgres.of_user userId x) eqn:E; cbn; [exact IH|]. by rewrite E.
Qed.

Ltac clear_cases w :=
  unfold fault_at, rowsOf;
  cbv [SupabaseService.clearAllUserData SupabaseService.rethrow try_catch bind ret throw
       request take_fault Postgres.delete_user_profile Postgres.delete_user_settings
       Postgres.delete_daily_records_of];
  destruct (faults (backend w)) as [|[|?|?] [|[|?|?] [|[|?|?] ?]]]; cbn.

(** X15. [clearAllUserData] never touches the data of another user.
    It does not look at the errors of its three deletions: when none of
    the requests rejects it resolves, and each table has lost the data
    of the user exactly when its own request got through, so it can
    resolve with all the data still there. It throws only when a
    request rejects. *)
Theorem clearAllUserData_ignores_errors (userId : string) (w : World) :
  let w' := snd (SupabaseService.clearAllUserData userId w) in
  (forall other, other <> userId ->
      user_profiles (backend w') !! other = user_profiles (backend w) !! other
      /\ user_settings (backend w') !! other = user_settings (backend w) !! other
      /\ rowsOf other (backend w') = rowsOf other (backend w))
  /\ ((forall k reason, (k < 3)%nat -> fault_at k w <> Rejects reason) ->
      fst (SupabaseService.clearAllUserData userId w) = Normal tt
      /\ user_profiles (backend w') !! userId
         = match fault_at 0 w with
           | NoFault => None
           | _ => user_profiles (backend w) !! userId
           end
      /\ user_settings (backend w') !! userId
         = match fault_at 1 w with
           | NoFault => None
           | _ => user_settings (backend w) !! userId
           end
      /\ rowsOf userId (backend w')
         = match fault_at 2 w with
           | NoFault => []
           | _ => rowsOf userId (backend w)
           end)
  /\ (forall c, fst (SupabaseService.clearAllUserData userId w) = Throw c ->
      exists k reason, (k < 3)%nat /\ fault_at k w = Rejects reason /\ c = Rejection reason).
Proof.
  cbn zeta. repeat apply conj.
  - intros other Hne. clear_cases w;
      rewrite ?lookup_delete_ne by done; rewrite ?rowsOf_filter_others by done; done.
  - intros Hok.
    assert (H0 := fun reason => Hok 0%nat reason ltac:(lia)).
    assert (H1 := fun reason => Hok 1%nat reason ltac:(lia)).
    assert (H2 := fun reason => Hok 2%nat reason ltac:(lia)).
    clear Hok. revert H0 H1 H2. clear_cases w; intros H0 H1 H2;
      try (by exfalso; eapply H0); try (by exfalso; eapply H1); try (by exfalso; eapply H2);
      rewrite ?lookup_delete_eq, ?rowsOf_filter_self; done.
  - intros c. clear_cases w; intros [= <-];
      first [ by exists 0%nat; eexists; split; [lia|]
            | by exists 1%nat; eexists; split; [lia|]
            | by exists 2%nat; eexists; split; [lia|] ].
Qed.

Lemma clearAllUserData_ignores_errors_witness :
  let w := Samples.world
             (mkBackend {[ "alice"%string := Samples.profile (Some true) ]}
                        {[ "alice"%string := Samples.settings ]}
                        [Samples.day "2024-01-15" 2 true] 1
                        [ErrorResponse "503"; ErrorResponse "503"; ErrorResponse "503"]) in
  let w' := snd (SupabaseService.clearAllUserData "alice" w) in
  fst (SupabaseService.clearAllUserData "alice" w) = Normal tt
  /\ user_profiles (backend w') !! "alice"%string = Some (Samples.profile (Some true))
  /\ user_settings (backend w') !! "alice"%string = Some Samples.settings
  /\ rowsOf "alice" (backend w') = [Samples.day "2024-01-15" 2 true].
Proof.
  intros w w'.
  apply (proj1 (proj2 (clearAllUserData_ignores_errors "alice" w))).
  intros k reason Hk. unfold fault_at.
  destruct k as [|[|[|k]]]; cbn; [discriminate..|lia].
Defined.

(** ** The settings stores *)

Lemma getUserSettings_stored (userId : string) (s : UserSettings.t) (w : World) :
  nextFault w = NoFault ->
  user_settings (backend w) !! userId = Some s ->
  exists w',
    SupabaseService.getUserSettings userId w = (Normal (Some s), w')
    /\ user_settings (backend w') = user_settings (backend w)
    /\ clock w' = clock w
    /\ faults (backend w') = tl (faults (backend w)).
Proof.
  unfold nextFault. intros Hf Hs. run_gateway. rewrite Hf. cbn. rewrite Hs. cbn.
  eexists. by repeat split.
Qed.

Lemma getUserSettings_created (userId : string) (w : World) :
  fault_at 0 w = NoFault -> fault_at 1 w = NoFault ->
  user_settings (backend w) !! userId = None ->
  let stamp := JSDate.toISOString (clock w) in
  let defaults := UserSettings.mk userId true "09:00" 2 14 light en stamp stamp in
  exists w',
    SupabaseService.getUserSettings userId w = (Normal (Some defaults), w')
    /\ user_settings (backend w') = <[userId := defaults]> (user_settings (backend w))
    /\ clock w' = clock w.
Proof.
  unfold fault_at. intros H0 H1 Hnone. cbn zeta. run_gateway.
  assert (H0' : hd NoFault (faults (backend w)) = NoFault)
    by (destruct (faults (backend w)); exact H0).
  rewrite nth_1_hd_tl in H1.
  rewrite H0'. cbn. rewrite Hnone. cbn. rewrite H1. cbn. rewrite Hnone. cbn.
  eexists. by repeat split.
Qed.


Lemma updateUserSettings_stored (userId : string) (updates : UserSettingsUpdate.t)
    (s : UserSettings.t) (w : World) :
  nextFault w = NoFault ->
  user_settings (backend w) !! userId = Some s ->
  UserSettings.user_id s = userId ->
  UserSettingsUpdate.user_id updates = None ->
  exists w',
    SupabaseService.updateUserSettings userId updates w = (Normal tt, w')
    /\ user_settings (backend w')
       = <[userId := Postgres.stamp_settings (JSDate.toISOString (clock w))
                       (merge_settings updates s)]> (user_settings (backend w))
    /\ same_client w w'
    /\ faults (backend w') = tl (faults (backend w)).
Proof.
  intros Hf Hs Hid Hnone.
  unfold SupabaseService.updateUserSettings, SupabaseService.rethrow, try_catch, bind.
  rewrite request_run, Hf. cbn zeta. unfold Postgres.update_user_settings. cbn.
  rewrite Hs. cbn. rewrite Hnone. cbn. rewrite Hid, String.eqb_refl. cbn.
  eexists. by repeat split.
Qed.

Lemma updateUserSettings_no_row (userId : string) (updates : UserSettingsUpdate.t) (w : World) :
  nextFault w = NoFault ->
  user_settings (backend w) !! userId = None ->
  exists w',
    SupabaseService.updateUserSettings userId updates w = (Normal tt, w')
    /\ same_tables (backend w) (backend w')
    /\ same_client w w'
    /\ faults (backend w') = tl (faults (backend w)).
Proof.
  intros Hf Hs.
  unfold SupabaseService.updateUserSettings, SupabaseService.rethrow, try_catch, bind.
  rewrite request_run, Hf. cbn zeta. unfold Postgres.update_user_settings. cbn.
  rewrite Hs. cbn. eexists. by repeat split.
Qed.

Ltac run_settings :=
  cbv [FirebaseSettingsProvider.loadSettings FirebaseSettingsProvider.updateSettings
       FirebaseSettingsProvider.refreshSettings FirebaseSettingsProvider.onUser
       FirebaseSettingsProvider.setSettings FirebaseSettingsProvider.setLoading
       FirebaseSettingsProvider.setError
       useFirebaseSettings.loadSettings useFirebaseSettings.updateSettings
       useFirebaseSettings.onUser
       useFirebaseSettings.setSettings useFirebaseSettings.setLoading
       useFirebaseSettings.setError
       ltry_catch ltry_finally lbind lret lthrow lift update].



(** X17. An update of the settings that gets through, for a user whose
    row is the one the context holds: the call resolves; the stored row
    is the old row with the updates over it and [updated_at] set to the
    time of the call; the context holds the old row with the updates
    over it, so the two agree except for [updated_at]; and a reload
    that gets through brings exactly the stored row into the context. *)
Theorem updateSettings_round_trip (u : AuthUser.t) (updates : UserSettingsUpdate.t)
    (s : UserSettings.t) (ss : Session FirebaseSettingsProvider.State) :
  fault_at 0 (world ss) = NoFault ->
  user_settings (backend (world ss)) !! AuthUser.id u = Some s ->
  UserSettings.user_id s = AuthUser.id u ->
  FirebaseSettingsProvider.settings (local ss) = Some s ->
  UserSettingsUpdate.user_id updates = None ->
  let stored :=
    Postgres.stamp_settings (JSDate.toISOString (clock (world ss))) (merge_settings updates s) in
  exists ss',
    FirebaseSettingsProvider.updateSettings (Some u) updates ss = (Normal tt, ss')
    /\ user_settings (backend (world ss')) !! AuthUser.id u = Some stored
    /\ (forall other, other <> AuthUser.id u ->
          user_settings (backend (world ss')) !! other
          = user_settings (backend (world ss)) !! other)
    /\ FirebaseSettingsProvider.settings (local ss') = Some (merge_settings updates s)
    /\ Postgres.stamp_settings (UserSettings.updated_at stored) (merge_settings updates s)
       = stored
    /\ (fault_at 1 (world ss) = NoFault ->
        exists ss'',
          FirebaseSettingsProvider.loadSettings (Some u) ss' = (Normal tt, ss'')
          /\ FirebaseSettingsProvider.settings (local ss'') = Some stored
          /\ FirebaseSettingsProvider.error (local ss'') = None
          /\ FirebaseSettingsProvider.loading (local ss'') = false).
Proof.
  intros H0 Hrow Hid Hlocal Hnone. cbn zeta.
  assert (H0' : nextFault (world ss) = NoFault)
    by (unfold nextFault, fault_at in *; by destruct (faults (backend (world ss)))).
  destruct (updateUserSettings_stored _ updates s _ H0' Hrow Hid Hnone)
    as (w1 & E & Hset & F & Hfaults).
  run_settings. rewrite E. eexists. split; [reflexivity|]. cbn [world local].
  split; [by rewrite Hset, lookup_insert_eq|].
  split; [intros other Hne; by rewrite Hset, lookup_insert_ne|].
  split; [cbn; by rewrite Hlocal|]. split; [reflexivity|].
  intros H1. unfold fault_at in H1. rewrite nth_1_hd_tl, <- Hfaults in H1.
  destruct (getUserSettings_stored (AuthUser.id u)
              (Postgres.stamp_settings (JSDate.toISOString (clock (world ss)))
                 (merge_settings updates s)) w1 H1) as (w2 & E2 & _).
  { by rewrite Hset, lookup_insert_eq. }
  rewrite E2. eexists. by repeat split.
Qed.

Lemma updateSettings_round_trip_witness :
  let ss := mkSession (Samples.world Samples.shared)
              (FirebaseSettingsProvider.mkState (Some Samples.settings) false None) in
  exists ss',
    FirebaseSettingsProvider.updateSettings (Some Samples.alice) Samples.goalFour ss
      = (Normal tt, ss')
    /\ (UserSettings.daily_goal <$> user_settings (backend (world ss')) !! "alice"%string)
       = Some 4
    /\ (UserSettings.daily_goal <$> FirebaseSettingsProvider.settings (local ss')) = Some 4.
Proof.
  intros ss.
  destruct (updateSettings_round_trip Samples.alice Samples.goalFour Samples.settings ss)
    as (ss' & E & Hrow & _ & Hlocal & _); [reflexivity..|].
  exists ss'. split; [exact E|]. split.
  - exact (f_equal (fmap UserSettings.daily_goal) Hrow).
  - by rewrite Hlocal.
Defined.

(** X18. An update of the settings of a user who has no row yet is
    lost without a trace: the call resolves and nothing is stored; the
    context that held no settings still holds none; and the next load
    creates the row with the fixed defaults and shows those, not the
    update. *)
Theorem updateSettings_without_row_is_lost (u : AuthUser.t) (updates : UserSettingsUpdate.t)
    (ss : Session FirebaseSettingsProvider.State) :
  fault_at 0 (world ss) = NoFault ->
  fault_at 1 (world ss) = NoFault ->
  fault_at 2 (world ss) = NoFault ->
  user_settings (backend (world ss)) !! AuthUser.id u = None ->
  FirebaseSettingsProvider.settings (local ss) = None ->
  let stamp := JSDate.toISOString (clock (world ss)) in
  let defaults := UserSettings.mk (AuthUser.id u) true "09:00" 2 14 light en stamp stamp in
  exists ss' ss'',
    FirebaseSettingsProvider.updateSettings (Some u) updates ss = (Normal tt, ss')
    /\ same_tables (backend (world ss)) (backend (world ss'))
    /\ FirebaseSettingsProvider.settings (local ss') = None
    /\ FirebaseSettingsProvider.loadSettings (Some u) ss' = (Normal tt, ss'')
    /\ FirebaseSettingsProvider.settings (local ss'') = Some defaults
    /\ user_settings (backend (world ss'')) !! AuthUser.id u = Some defaults.
Proof.
  intros H0 H1 H2 Hrow Hlocal. cbn zeta.
  assert (H0' : nextFault (world ss) = NoFault)
    by (unfold nextFault, fault_at in *; by destruct (faults (backend (world ss)))).
  destruct (updateUserSettings_no_row _ updates _ H0' Hrow) as (w1 & E & T & F & Hfaults).
  pose proof T as (_ & Hset & _). destruct F as (Hclock & _).
  destruct (getUserSettings_created (AuthUser.id u) w1) as (w2 & E2 & Hset2 & _).
  { unfold fault_at in *. rewrite Hfaults.
    by destruct (faults (backend (world ss))) as [|? [|? ?]]. }
  { unfold fault_at in *. rewrite Hfaults.
    by destruct (faults (backend (world ss))) as [|? [|? [|? ?]]]. }
  { by rewrite Hset. }
  run_settings. rewrite E. cbn [world local]. rewrite Hlocal.
  eexists _, _. split; [reflexivity|]. cbn [world local].
  split; [exact T|]. split; [reflexivity|].
  rewrite E2. split; [reflexivity|]. cbn [world local FirebaseSettingsProvider.settings].
  rewrite Hclock. split; [reflexivity|].
  by rewrite Hset2, lookup_insert_eq, Hclock.
Qed.

Lemma updateSettings_without_row_is_lost_witness :
  let ss := mkSession (Samples.world Samples.emptyBackend)
              (FirebaseSettingsProvider.mkState None false None) in
  let ss' := snd (FirebaseSettingsProvider.updateSettings (Some Samples.alice)
                    Samples.goalFour ss) in
  let ss'' := snd (FirebaseSettingsProvider.loadSettings (Some Samples.alice) ss') in
  (UserSettings.daily_goal <$> FirebaseSettingsProvider.settings (local ss'')) = Some 2.
Proof.
  intros ss ss' ss''.
  destruct (updateSettings_without_row_is_lost Samples.alice Samples.goalFour ss)
    as (s1 & s2 & E1 & _ & _ & E2 & Hlocal & _); [reflexivity..|].
  unfold ss'', ss'. rewrite E1. cbn [snd]. rewrite E2. cbn [snd]. by rewrite Hlocal.
Defined.

Lemma spread_whole (updates : UserSettingsUpdate.t) (s : UserSettings.t) :
  useFirebaseSettings.spread (Some (useFirebaseSettings.whole s)) updates
  = useFirebaseSettings.whole (merge_settings updates s).
Proof.
  unfold useFirebaseSettings.spread, useFirebaseSettings.whole, merge_settings. cbn.
  f_equal; by match goal with |- useFirebaseSettings.over ?o _ = _ => destruct o end.
Qed.

Lemma spread_null (updates : UserSettingsUpdate.t) :
  useFirebaseSettings.spread None updates = updates.
Proof.
  unfold useFirebaseSettings.spread. destruct updates. cbn.
  f_equal; by match goal with |- useFirebaseSettings.over ?o _ = _ => destruct o end.
Qed.

(** X19. The two settings stores differ when the settings they hold
    are null. After an update that resolves, the hook holds an object
    with the fields of the update and no others, where the context
    still holds null. Where they hold a whole settings object both
    hold that object with the updates over it. When the update is
    rejected, both reject with the same error and keep their state;
    without a user both throw before any request is made. *)
Theorem updateSettings_over_null (u : AuthUser.t) (updates : UserSettingsUpdate.t)
    (w : World) (hook : useFirebaseSettings.State) (context : FirebaseSettingsProvider.State) :
  let call := SupabaseService.updateUserSettings (AuthUser.id u) updates w in
  let hook' := useFirebaseSettings.updateSettings (Some u) updates (mkSession w hook) in
  let context' :=
    FirebaseSettingsProvider.updateSettings (Some u) updates (mkSession w context) in
  fst hook' = fst call /\ fst context' = fst call
  /\ world (snd hook') = snd call /\ world (snd context') = snd call
  /\ (forall e, fst call = Throw e ->
      local (snd hook') = hook /\ local (snd context') = context)
  /\ (fst call = Normal tt ->
      (useFirebaseSettings.settings hook = None ->
       useFirebaseSettings.settings (local (snd hook')) = Some updates)
      /\ (FirebaseSettingsProvider.settings context = None ->
          FirebaseSettingsProvider.settings (local (snd context')) = None)
      /\ (forall s,
            useFirebaseSettings.settings hook = Some (useFirebaseSettings.whole s) ->
            FirebaseSettingsProvider.settings context = Some s ->
            useFirebaseSettings.settings (local (snd hook'))
            = Some (useFirebaseSettings.whole (merge_settings updates s))
            /\ FirebaseSettingsProvider.settings (local (snd context'))
               = Some (merge_settings updates s)))
  /\ (forall (hs : Session useFirebaseSettings.State)
             (cs : Session FirebaseSettingsProvider.State),
        useFirebaseSettings.updateSettings None updates hs
          = (Throw (JsError "No authenticated user"), hs)
        /\ FirebaseSettingsProvider.updateSettings None updates cs
           = (Throw (JsError "No authenticated user"), cs)).
Proof.
  cbn zeta. run_settings. cbn [world local].
  destruct (SupabaseService.updateUserSettings (AuthUser.id u) updates w) as [[[]|e] w1];
    cbn [fst snd world local].
  - repeat apply conj; try done. intros _. repeat apply conj.
    + intros Hnull. cbn. by rewrite Hnull, spread_null.
    + intros Hnull. cbn. by rewrite Hnull.
    + intros s Hhook Hcontext. cbn. by rewrite Hhook, Hcontext, spread_whole.
  - by repeat apply conj.
Qed.

Lemma updateSettings_over_null_witness :
  let hook' :=
    useFirebaseSettings.updateSettings (Some Samples.alice) Samples.goalFour
      (mkSession (Samples.world Samples.shared) (useFirebaseSettings.mkState None false None)) in
  useFirebaseSettings.settings (local (snd hook')) = Some Samples.goalFour
  /\ (useFirebaseSettings.settings (local (snd hook')) ≫= UserSettingsUpdate.notifications)
     = None.
Proof.
  intros hook'.
  destruct (updateSettings_over_null Samples.alice Samples.goalFour
              (Samples.world Samples.shared) (useFirebaseSettings.mkState None false None)
              FirebaseSettingsProvider.initial) as (_ & _ & _ & _ & _ & Hok & _).
  destruct Hok as (Hnull & _); [reflexivity|].
  assert (H : useFirebaseSettings.settings (local (snd hook')) = Some Samples.goalFour)
    by (apply Hnull; reflexivity).
  split; [exact H|]. by rewrite H.
Defined.

(** ** Resetting the tutorial *)

(** X20. [resetTutorial] never throws. When its update gets through,
    the tutorial is shown, and for a user who has a profile the stored
    flag is [false]: the gate is pending, also when the tutorial had
    been completed before, and the next check of the status that gets
    through shows the tutorial. When the update fails the failure is
    swallowed and nothing changes, neither the stored flag nor what is
    shown. *)
Theorem resetTutorial_round_trip (u : AuthUser.t) (w : World) :
  exists w',
    useTutorial.resetTutorial (Some u) w = (Normal tt, w')
    /\ (nextFault w <> NoFault ->
        tutorial w' = tutorial w /\ user_profiles (backend w') = user_profiles (backend w))
    /\ (nextFault w = NoFault ->
        showTutorial (tutorial w') = true
        /\ (forall other, other <> AuthUser.id u -> storedFlag w' other = storedFlag w other)
        /\ (is_Some (user_profiles (backend w) !! AuthUser.id u) ->
            storedFlag w' (AuthUser.id u) = Some false
            /\ gateOf w' (AuthUser.id u) = pending
            /\ (nextFault w' = NoFault ->
                showTutorial
                  (tutorial (snd (useTutorial.checkTutorialStatus (Some u) true w'))) = true))).
Proof.
  cbv [useTutorial.resetTutorial SupabaseService.resetTutorialStatus SupabaseService.rethrow
       SupabaseService.throw_if_error try_catch bind ret throw modify setShowTutorial].
  rewrite request_run. cbn zeta.
  destruct (nextFault w) as [|code|reason] eqn:Hf; cbn;
    (eexists; split; [reflexivity|]); (split; [done|]); [|done..].
  intros _. split; [reflexivity|]. unfold storedFlag. cbn. split.
  - intros other Hne. rewrite flagIn_alter. by case_decide.
  - intros [p Hp].
    assert (Hflag : flagIn (alter (Postgres.set_has_seen_tutorial false
                                     (JSDate.toISOString (clock w))) (AuthUser.id u)
                              (user_profiles (backend w))) (AuthUser.id u) = Some false).
    { rewrite flagIn_alter, Hp. by case_decide. }
    split; [exact Hflag|]. split.
    + unfold gateOf, storedFlag. cbn. by rewrite Hflag.
    + intros Hnext.
      match goal with
      | |- context [useTutorial.checkTutorialStatus (Some u) true ?w0] =>
          destruct (checkTutorialStatus_shows u w0) as (w2 & E2 & Hs);
          rewrite E2; cbn [snd]; rewrite Hs;
          unfold seenAnswer, storedFlag; rewrite Hnext
      end.
      cbn. by rewrite Hflag.
Qed.

Lemma resetTutorial_round_trip_witness :
  let w := Samples.world Samples.registered in
  let w1 := snd (useTutorial.completeTutorial (Some Samples.alice) w) in
  let w2 := snd (useTutorial.resetTutorial (Some Samples.alice) w1) in
  gateOf w1 "alice" = completed
  /\ gateOf w2 "alice" = pending
  /\ showTutorial (tutorial w2) = true.
Proof.
  intros w w1 w2.
  destruct (resetTutorial_round_trip Samples.alice w1) as (w' & E & _ & Hok).
  destruct Hok as (Hshow & _ & Hgate); [reflexivity|].
  destruct Hgate as (_ & Hgate & _); [by eexists|].
  unfold w2. rewrite E. cbn [snd]. split; [reflexivity|]. by split.
Defined.

(** ** The statistics and the order of the records *)

Lemma List_filter_Permutation {A} (p : A -> bool) (l l' : list A) :
  l ≡ₚ l' -> List.filter p l ≡ₚ List.filter p l'.
Proof.
  induction 1 as [|x l l' _ IH|x y l|l1 l2 l3 _ IH1 _ IH2]; cbn.
  - done.
  - destruct (p x); by rewrite IH.
  - destruct (p x), (p y); try done. apply perm_swap.
  - by etransitivity.
Qed.

Lemma completedCapsules_Permutation (l l' : list DailyRecord.t) :
  l ≡ₚ l' -> completedCapsules l = completedCapsules l'.
Proof.
  induction 1 as [|x l l' _ IH|x y l|l1 l2 l3 _ IH1 _ IH2]; cbn; [done|by rewrite IH|lia|].
  congruence.
Qed.

Lemma streakLoop_times (Date_parse : string -> JSDate.t) (LocalTZA now : Z)
    (l1 l2 : list DailyRecord.t) (i : Z) (acc : nat) :
  Forall (validDate Date_parse) l1 -> Forall (validDate Date_parse) l2 ->
  timeOf Date_parse <$> l1 = timeOf Date_parse <$> l2 ->
  streakLoop Date_parse LocalTZA now i l1 acc = streakLoop Date_parse LocalTZA now i l2 acc.
Proof.
  intros H1. revert l2 i acc.
  induction H1 as [|r1 l1 [t1 Hr1] _ IH]; intros [|r2 l2] i acc H2 E; try done.
  inversion H2 as [|? ? [t2 Hr2] H2']; subst. cbn in E. injection E as Et El.
  unfold timeOf in Et. rewrite Hr1, Hr2 in Et. cbn in Et. subst t2.
  cbn [streakLoop]. unfold newDate. rewrite Hr1, Hr2.
  destruct (JSDate.DateString_eqb _ _); [|done]. by apply IH.
Qed.

(** X21. The statistics do not depend on the order in which the
    records are given: the monthly progress, the totals, the average
    and the completion rate are the same for any rearrangement of the
    records, and so is the streak, hence all of the statistics, when
    the dates of the completed records are valid. *)
Theorem calculateStats_order_independent (Date_parse : string -> JSDate.t) (LocalTZA now : Z)
    (records records' : list DailyRecord.t) :
  records ≡ₚ records' ->
  let s := calculateStats Date_parse LocalTZA now records in
  let s' := calculateStats Date_parse LocalTZA now records' in
  calculateMonthlyProgress Date_parse LocalTZA now records
  = calculateMonthlyProgress Date_parse LocalTZA now records'
  /\ totalDays s = totalDays s' /\ totalCapsules s = totalCapsules s'
  /\ averageCapsules s = averageCapsules s' /\ completionRate s = completionRate s'
  /\ ((forall r, In r records -> DailyRecord.completed r = true -> validDate Date_parse r) ->
      s = s').
Proof.
  intros Hp. cbn zeta.
  pose proof (List_filter_Permutation DailyRecord.completed _ _ Hp) as Hc.
  pose proof (List_filter_Permutation DailyRecord.completed _ _
                (List_filter_Permutation (inLast30Days Date_parse LocalTZA now) _ _ Hp)) as Hw.
  pose proof (Permutation_length Hc) as Hlen.
  pose proof (Permutation_length Hw) as Hlen30.
  assert (Hcap : fold_left (fun sum r => sum + DailyRecord.capsules r)
                   (List.filter DailyRecord.completed records) 0
                 = fold_left (fun sum r => sum + DailyRecord.capsules r)
                     (List.filter DailyRecord.completed records') 0).
  { rewrite !reduce_capsules. f_equal. by apply completedCapsules_Permutation. }
  unfold calculateMonthlyProgress, calculateStats. cbv zeta.
  cbn [totalDays totalCapsules averageCapsules completionRate].
  rewrite Hlen, Hlen30, Hcap. repeat apply conj; try reflexivity.
  intros Hvalid. f_equal.
  assert (Hv : Forall (validDate Date_parse) (List.filter DailyRecord.completed records)).
  { apply Forall_forall. intros x Hx%list_elem_of_In. apply filter_In in Hx as [? ?]. auto. }
  assert (Hv' : Forall (validDate Date_parse) (List.filter DailyRecord.completed records'))
    by (by rewrite <- Hc).
  set (sort := Array_sort (byDateDescending Date_parse)).
  assert (Hsorted : forall l, Forall (validDate Date_parse) l ->
            StronglySorted (fun a b : Z => b <= a) (timeOf Date_parse <$> sort l)).
  { intros l Hl.
    apply (StronglySorted_fmap _ (keyDescending (timeOf Date_parse))); [done|].
    by apply (Array_sort_sorted _ _ (validDate Date_parse) (byDateDescending_key Date_parse)). }
  apply streakLoop_times.
  - unfold sort. by rewrite Array_sort_Permutation.
  - unfold sort. by rewrite Array_sort_Permutation.
  - assert (Hanti : AntiSymm eq (fun a b : Z => b <= a)) by (intros x y ? ?; lia).
    apply (StronglySorted_unique (fun a b : Z => b <= a)); [by apply Hsorted..|].
    apply fmap_Permutation. unfold sort. by rewrite !Array_sort_Permutation.
Qed.

Lemma calculateStats_order_independent_witness :
  calculateStats (JSDate.parse_iso Samples.brasilia) Samples.brasilia Samples.noon
    (rev Samples.fiveDays)
  = calculateStats (JSDate.parse_iso Samples.brasilia) Samples.brasilia Samples.noon
      Samples.fiveDays.
Proof.
  assert (Hp : rev Samples.fiveDays ≡ₚ Samples.fiveDays)
    by (symmetry; apply Permutation_rev).
  destruct (calculateStats_order_independent (JSDate.parse_iso Samples.brasilia)
              Samples.brasilia Samples.noon (rev Samples.fiveDays) Samples.fiveDays Hp)
    as (_ & _ & _ & _ & _ & H).
  apply H. intros x Hx _. cbn in Hx.
  repeat (destruct Hx as [<-|Hx]; [vm_compute; eauto|]). destruct Hx.
Defined.

(** ** Completing the tutorial before a profile exists *)

(** X22. For a user who has no profile row, completing (or skipping)
    the tutorial persists nothing: the call resolves and hides the
    tutorial, the stored flags are what they were, the gate is still
    pending, and the next check of the status that gets through shows
    the tutorial again. *)
Theorem completeTutorial_without_profile (u : AuthUser.t) (w : World) :
  user_profiles (backend w) !! AuthUser.id u = None ->
  exists w',
    useTutorial.completeTutorial (Some u) w = (Normal tt, w')
    /\ useTutorial.skipTutorial (Some u) w = (Normal tt, w')
    /\ showTutorial (tutorial w') = false
    /\ (forall uid, storedFlag w' uid = storedFlag w uid)
    /\ gateOf w' (AuthUser.id u) = pending
    /\ (nextFault w' = NoFault ->
        showTutorial (tutorial (snd (useTutorial.checkTutorialStatus (Some u) true w')))
        = true).
Proof.
  intros Hnone.
  destruct (completeTutorial_run u w) as (w' & E & Hshow & Hprof).
  exists w'. split; [exact E|]. split; [by rewrite skipTutorial_completeTutorial|].
  split; [exact Hshow|].
  assert (Hflags : forall uid, storedFlag w' uid = storedFlag w uid).
  { intros uid. unfold storedFlag. rewrite Hprof.
    destruct (nextFault w); [|done..].
    rewrite flagIn_alter. case_decide as Eq; [subst uid|done].
    unfold flagIn. by rewrite Hnone. }
  assert (Hflag : storedFlag w' (AuthUser.id u) = None).
  { rewrite Hflags. unfold storedFlag, flagIn. by rewrite Hnone. }
  split; [exact Hflags|]. split; [unfold gateOf; by rewrite Hflag|].
  intros Hnext. destruct (checkTutorialStatus_shows u w') as (w2 & E2 & Hs).
  rewrite E2. cbn [snd]. rewrite Hs. unfold seenAnswer. by rewrite Hnext, Hflag.
Qed.

Lemma completeTutorial_without_profile_witness :
  let w := Samples.world Samples.emptyBackend in
  let w1 := snd (useTutorial.completeTutorial (Some Samples.alice) w) in
  showTutorial (tutorial w1) = false
  /\ showTutorial (tutorial (snd (useTutorial.checkTutorialStatus (Some Samples.alice) true w1)))
     = true.
Proof.
  intros w w1.
  destruct (completeTutorial_without_profile Samples.alice w)
    as (w' & E & _ & Hshow & _ & _ & Hagain); [reflexivity|].
  assert (Hw : w' = w1) by (unfold w1; by rewrite E). subst w'.
  split; [exact Hshow|]. apply Hagain. reflexivity.
Defined.

(** ** The profile of a new user *)

Lemma createUserProfile_run (userId : string) (profileData : UserProfileInsert.t)
    (w : World) :
  let uid := UserProfileInsert.user_id profileData in
  let row :=
    UserProfile.mk uid (UserProfileInsert.name profileData)
      (UserProfileInsert.date_of_birth profileData) (UserProfileInsert.gender profileData)
      (UserProfileInsert.email profileData) (UserProfileInsert.phone profileData)
      (UserProfileInsert.profile_image_url profileData)
      (UserProfileInsert.treatment_start_date profileData)
      (Some (default false (UserProfileInsert.has_seen_tutorial profileData)))
      (JSDate.toISOString (clock w)) (JSDate.toISOString (clock w)) in
  nextFault w = NoFault ->
  Postgres.gender_allowed (UserProfileInsert.gender profileData) = true ->
  exists w',
    SupabaseService.createUserProfile userId profileData w
    = (match user_profiles (backend w) !! uid with
       | None => Normal tt
       | Some _ => Throw (PostgrestError "23505")
       end, w')
    /\ user_profiles (backend w')
       = match user_profiles (backend w) !! uid with
         | None => <[uid := row]> (user_profiles (backend w))
         | Some _ => user_profiles (backend w)
         end
    /\ faults (backend w') = tl (faults (backend w)).
Proof.
  cbn zeta. intros Hf Hgender.
  unfold SupabaseService.createUserProfile, SupabaseService.rethrow, try_catch, bind.
  rewrite request_run, Hf. cbn zeta. unfold Postgres.insert_user_profile.
  rewrite Hgender. cbn.
  destruct (user_profiles (backend w) !! UserProfileInsert.user_id profileData); cbn;
    eexists; by repeat split.
Qed.

Lemma getUserProfile_run (userId : string) (w : World) :
  nextFault w = NoFault ->
  exists w',
    SupabaseService.getUserProfile userId w
    = (Normal (user_profiles (backend w) !! userId), w')
    /\ same_tables (backend w) (backend w').
Proof.
  intros Hf.
  unfold SupabaseService.getUserProfile, SupabaseService.rethrow, try_catch, bind.
  rewrite request_run, Hf. cbn zeta. unfold Postgres.select_user_profile. cbn.
  destruct (user_profiles (backend w) !! userId); cbn; eexists; by repeat split.
Qed.

(** X23. Creating the profile of a user who has none, with an admissible
    gender: the call resolves, whatever [userId] it is given, and the
    row is stored under the [user_id] of the data, with the data, the
    time of the call as timestamps and [has_seen_tutorial] defaulting
    to [false]. Reading the profile back returns that row, the
    tutorial is then shown exactly when the data did not say it was
    seen, and creating the profile a second time is rejected as a
    unique violation. Reading the profile of a user who has none
    returns null and creates nothing; a failed read throws. *)
Theorem createUserProfile_round_trip :
  (forall (userId : string) (profileData : UserProfileInsert.t) (w : World),
      let uid := UserProfileInsert.user_id profileData in
      fault_at 0 w = NoFault ->
      Postgres.gender_allowed (UserProfileInsert.gender profileData) = true ->
      user_profiles (backend w) !! uid = None ->
      exists (row : UserProfile.t) (w' : World),
        SupabaseService.createUserProfile userId profileData w = (Normal tt, w')
        /\ user_profiles (backend w') = <[uid := row]> (user_profiles (backend w))
        /\ (UserProfile.user_id row = uid
            /\ UserProfile.name row = UserProfileInsert.name profileData
            /\ UserProfile.email row = UserProfileInsert.email profileData
            /\ UserProfile.gender row = UserProfileInsert.gender profileData
            /\ UserProfile.has_seen_tutorial row
               = Some (default false (UserProfileInsert.has_seen_tutorial profileData))
            /\ UserProfile.created_at row = JSDate.toISOString (clock w)
            /\ UserProfile.updated_at row = JSDate.toISOString (clock w))
        /\ (fault_at 1 w = NoFault ->
            fst (SupabaseService.getUserProfile uid w') = Normal (Some row)
            /\ fst (SupabaseService.createUserProfile userId profileData w')
               = Throw (PostgrestError "23505")
            /\ forall u : AuthUser.t,
                 AuthUser.id u = uid ->
                 showTutorial (tutorial (snd (useTutorial.checkTutorialStatus (Some u) true w')))
                 = negb (default false (UserProfileInsert.has_seen_tutorial profileData))))
  /\ (forall (userId : string) (w : World),
        nextFault w = NoFault ->
        user_profiles (backend w) !! userId = None ->
        exists w',
          SupabaseService.getUserProfile userId w = (Normal None, w')
          /\ same_tables (backend w) (backend w'))
  /\ (forall (userId : string) (w : World),
        readFails (nextFault w) ->
        exists e w',
          SupabaseService.getUserProfile userId w = (Throw e, w')
          /\ same_tables (backend w) (backend w')).
Proof.
  repeat apply conj.
  - intros userId profileData w uid H0 Hgender Hnone.
    assert (H0' : nextFault w = NoFault)
      by (unfold nextFault, fault_at in *; by destruct (faults (backend w))).
    destruct (createUserProfile_run userId profileData w H0' Hgender)
      as (w' & E & Hprof & Hfaults).
    fold uid in E, Hprof. rewrite Hnone in E, Hprof.
    eexists _, w'. split; [exact E|]. split; [exact Hprof|].
    split; [by repeat split|].
    intros H1. unfold fault_at in H1. rewrite nth_1_hd_tl, <- Hfaults in H1.
    change (hd NoFault (faults (backend w'))) with (nextFault w') in H1.
    destruct (getUserProfile_run uid w' H1) as (w2 & -> & _).
    destruct (createUserProfile_run userId profileData w' H1 Hgender) as (w3 & -> & _).
    fold uid. rewrite Hprof, lookup_insert_eq. cbn [fst].
    split; [reflexivity|]. split; [reflexivity|].
    intros u Hu. destruct (checkTutorialStatus_shows u w') as (w4 & E4 & Hs).
    rewrite E4. cbn [snd]. rewrite Hs. unfold seenAnswer, storedFlag, flagIn.
    rewrite H1, Hu, Hprof, lookup_insert_eq. cbn.
    by destruct (UserProfileInsert.has_seen_tutorial profileData) as [[]|].
  - intros userId w Hf Hnone. destruct (getUserProfile_run userId w Hf) as (w' & E & T).
    rewrite Hnone in E. by exists w'.
  - intros userId w.
    unfold SupabaseService.getUserProfile, SupabaseService.rethrow, try_catch, bind.
    rewrite request_run. cbn zeta.
    destruct (nextFault w) as [|code|reason]; cbn; [done| |].
    + intros Hne. apply String.eqb_neq in Hne. rewrite Hne. cbn. eexists _, _. by repeat split.
    + intros _. eexists _, _. by repeat split.
Qed.

Lemma createUserProfile_round_trip_witness :
  let data := UserProfileInsert.mk "alice" "Alice" None (Some "female"%string)
                "alice@example.org" None None None None in
  let w := Samples.world Samples.emptyBackend in
  exists row w',
    SupabaseService.createUserProfile "someone else" data w = (Normal tt, w')
    /\ user_profiles (backend w') !! "alice"%string = Some row
    /\ UserProfile.has_seen_tutorial row = Some false
    /\ showTutorial (tutorial (snd (useTutorial.checkTutorialStatus (Some Samples.alice) true w')))
       = true.
Proof.
  intros data w.
  destruct (proj1 createUserProfile_round_trip "someone else"%string data w)
    as (row & w' & E & Hrows & (_ & _ & _ & _ & Hflag & _) & Hnext); [reflexivity..|].
  destruct Hnext as (_ & _ & Hshow); [reflexivity|].
  exists row, w'. split; [exact E|]. split; [by rewrite Hrows, lookup_insert_eq|].
  split; [exact Hflag|]. by apply Hshow.
Defined.
